(** * CodexBar Cinnamon tray: popup placement and usage-window rendering

  A shallow embedding of [Scripts/codexbar_cinnamon_tray.py]:
  - the two placement routines of [DashboardWindow]
    ([present_near_pointer], [present_from_icon_geometry]), with the GDK
    display and the window as explicit state;
  - the text renderer [CodexBarTray._window_text] and the menu block
    [CodexBarTray._append_provider_block] built on it;
  - the dashboard widgets [_window_row] and [_provider_card];
  - [run_command] and the branch [--print-once] of [main], with the
    process as an oracle;
  - the search and the content of the dashboard ([_filtered_payloads],
    [_render_filtered], [set_payloads]);
  - the tray itself: its commands, [_parse_usage_payload],
    [rebuild_menu], [_apply_icon], [update], the handlers
    [on_status_icon_activate] and [on_open_dashboard], and the choice
    of the backend and of the default icon.

  Python integers are [Z]; Python floats are binary64 and are modelled by
  the primitive floats of the standard library; Python strings are lists
  of code points; the dictionaries decoded from JSON are [gmap]s. *)

From Stdlib Require Import ZArith Lia Floats String Ascii DecimalString.
From stdpp Require Import gmap list.

Set Warnings "-register-all".

Local Open Scope Z_scope.

(** ** Python values *)

Module Py.

(** A string is a sequence of Unicode code points. *)
Definition str := list N.

(** An ASCII literal of the source. *)
Definition lit (s : string) : str :=
  (fun a => N_of_ascii a) <$> list_ascii_of_string s.

Definition SPACE : N := 32%N.

(** The exceptions the modelled code can raise. *)
Inductive exn := ValueError | OverflowError | AttributeError.

Inductive result (A : Type) :=
| Ok (a : A)
| Raise (e : exn).
Arguments Ok {A} a.
Arguments Raise {A} e.

#[global] Instance result_ret : MRet result := fun A a => Ok a.

#[global] Instance result_bind : MBind result := fun A B k r =>
  match r with
  | Ok a => k a
  | Raise e => Raise e
  end.

(** What [json.loads] can produce. *)
Inductive val :=
| None_
| Bool (b : bool)
| Int (z : Z)
| Float (f : float)
| Str (s : str)
| List (l : list val)
| Dict (d : gmap str val).

(** [int] and [float] operands of arithmetic. *)
Inductive num :=
| NInt (z : Z)
| NFloat (f : float).

(** [isinstance(v, (int, float))]; [bool] is a subclass of [int], and
    [True] and [False] behave as 1 and 0 in arithmetic. *)
Definition as_number (v : val) : option num :=
  match v with
  | Bool b => Some (NInt (if b then 1 else 0))
  | Int z => Some (NInt z)
  | Float f => Some (NFloat f)
  | _ => None
  end.

(** [isinstance(v, dict)] *)
Definition as_dict (v : val) : option (gmap str val) :=
  match v with
  | Dict d => Some d
  | _ => None
  end.

(** [isinstance(v, str) and v] *)
Definition as_nonempty_str (v : val) : option str :=
  match v with
  | Str (c :: s) => Some (c :: s)
  | _ => None
  end.

(** Truth value of an object, as [or] tests it. *)
Definition truthy (v : val) : bool :=
  match v with
  | None_ => false
  | Bool b => b
  | Int z => negb (z =? 0)
  | Float f => negb (f =? 0)%float
  | Str s => match s with [] => false | _ => true end
  | List l => match l with [] => false | _ => true end
  | Dict d => negb (bool_decide (d = ∅))
  end.

(** [d.get(k)]: the value, or [None] when the key is absent. *)
Definition dict_get (d : gmap str val) (k : str) : val :=
  default None_ (d !! k).

(** [v.get(k)] on an arbitrary object: only dictionaries have [get]. *)
Definition get (v : val) (k : str) : result val :=
  match v with
  | Dict d => Ok (dict_get d k)
  | _ => Raise AttributeError
  end.

(** [v or {}] *)
Definition or_empty_dict (v : val) : val :=
  if truthy v then v else Dict ∅.

(** [v.get(k) or {}] *)
Definition get_or_empty_dict (v : val) (k : str) : result val :=
  x ← get v k; Ok (or_empty_dict x).

(** Rounding of the quotient [n / d] ([0 < d]) to the nearest integer,
    ties to the even one: what [round] does on a float. *)
Definition round_half_even_div (n d : Z) : Z :=
  let q := n / d in
  let r := n mod d in
  match 2 * r ?= d with
  | Lt => q
  | Gt => q + 1
  | Eq => if Z.even q then q else q + 1
  end.

(** [round(x)] on the decoded binary64 value. *)
Definition round_spec_float (x : spec_float) : result Z :=
  match x with
  | S754_nan => Raise ValueError
  | S754_infinity _ => Raise OverflowError
  | S754_zero _ => Ok 0
  | S754_finite s m e =>
      let mag :=
        match e with
        | Zneg k => round_half_even_div (Zpos m) (2 ^ Zpos k)
        | _ => Zpos m * 2 ^ e
        end in
      Ok (if s then - mag else mag)
  end.

(** [round(x)] with one argument: an [int] for either kind of number. *)
Definition round (x : num) : result Z :=
  match x with
  | NInt z => Ok z
  | NFloat f => round_spec_float (Prim2SF f)
  end.

(** [float(z)]: correctly rounded, [OverflowError] when out of range. *)
Definition float_of_int (z : Z) : result float :=
  match binary_normalize prec emax z 0 false with
  | S754_infinity _ => Raise OverflowError
  | x => Ok (SF2Prim x)
  end.

(** [float(z)] for an integer that a binary64 holds exactly. *)
Definition float_of_small_int (z : Z) : float :=
  SF2Prim (binary_normalize prec emax z 0 false).

(** [a - x] with a small [int] on the left, one that a binary64 holds
    exactly (the code subtracts from 100). *)
Definition int_sub (a : Z) (x : num) : num :=
  match x with
  | NInt z => NInt (a - z)
  | NFloat f => NFloat (float_of_small_int a - f)%float
  end.

(** [a / b] on two integers that a binary64 holds exactly: CPython
    converts both and divides the doubles. *)
Definition small_int_truediv (a b : Z) : float :=
  (float_of_small_int a / float_of_small_int b)%float.

(** [str(z)] *)
Definition str_of_int (z : Z) : str :=
  lit (NilZero.string_of_int (Z.to_int z)).

(** [s * n]: repetition of a one-character string. *)
Definition repeat_char (c : N) (n : Z) : str :=
  replicate (Z.to_nat n) c.

(** Format specifications [<w] and [>w]. *)
Definition ljust (w : nat) (s : str) : str :=
  s ++ replicate (w - length s)%nat SPACE.

Definition rjust (w : nat) (s : str) : str :=
  replicate (w - length s)%nat SPACE ++ s.

(** The built-in [max] and [min] on two integers. *)
Definition max (a b : Z) : Z := if b >? a then b else a.
Definition min (a b : Z) : Z := if b <? a then b else a.

(** Comparison of an [int] with a [float] is exact in Python. *)
Definition int_cmp_spec_float (z : Z) (x : spec_float) : option comparison :=
  match x with
  | S754_nan => None
  | S754_infinity s => Some (if s then Gt else Lt)
  | S754_zero _ => Some (z ?= 0)
  | S754_finite s m e =>
      let v := if s then Zneg m else Zpos m in
      match e with
      | Zneg k => Some (z * 2 ^ Zpos k ?= v)
      | _ => Some (z ?= v * 2 ^ e)
      end
  end.

(** [a < b] *)
Definition lt (a b : num) : bool :=
  match a, b with
  | NInt x, NInt y => x <? y
  | NFloat x, NFloat y => (x <? y)%float
  | NInt x, NFloat y =>
      match int_cmp_spec_float x (Prim2SF y) with
      | Some Lt => true
      | _ => false
      end
  | NFloat x, NInt y =>
      match int_cmp_spec_float y (Prim2SF x) with
      | Some Gt => true
      | _ => false
      end
  end.

(** [a <= b] *)
Definition le (a b : num) : bool :=
  match a, b with
  | NInt x, NInt y => x <=? y
  | NFloat x, NFloat y => (x <=? y)%float
  | NInt x, NFloat y =>
      match int_cmp_spec_float x (Prim2SF y) with
      | Some (Lt | Eq) => true
      | _ => false
      end
  | NFloat x, NInt y =>
      match int_cmp_spec_float y (Prim2SF x) with
      | Some (Gt | Eq) => true
      | _ => false
      end
  end.

(** The built-in [max] and [min] on two numbers of either kind: the
    second argument wins only when it compares strictly better. *)
Definition max_num (a b : num) : num := if lt a b then b else a.
Definition min_num (a b : num) : num := if lt b a then b else a.

(** [max] and [min] on two floats. *)
Definition max_float (a b : float) : float := if (a <? b)%float then b else a.
Definition min_float (a b : float) : float := if (b <? a)%float then b else a.

(** [float(x)] *)
Definition float_ (x : num) : result float :=
  match x with
  | NInt z => float_of_int z
  | NFloat f => Ok f
  end.

(** [x / y] with a [float] on the right. *)
Definition div_float (x : num) (y : float) : result float :=
  f ← float_ x; Ok (f / y)%float.

Section Builtins.

(** [str] of a float, a list or a dictionary, and the format
    specification [.1f], are left to the interpreter. *)
Variable repr_other : val -> str.
Variable format_1f : num -> result str.

(** [str(v)], which is also what an f-string field without a format
    specification inserts. *)
Definition str_ (v : val) : str :=
  match v with
  | Str s => s
  | None_ => lit "None"
  | Bool true => lit "True"
  | Bool false => lit "False"
  | Int z => str_of_int z
  | _ => repr_other v
  end.

End Builtins.

End Py.

(** ** The tray: text of a usage window, menu blocks *)

Module CodexBarTray.

Import Py.

Definition FULL_BLOCK : N := 9608%N.          (* U+2588 *)
Definition MIDDLE_DOT : N := 183%N.           (* U+00B7 *)
Definition ANTICLOCKWISE_ARROW : N := 8634%N. (* U+21BA *)

(** [remaining = max(0, min(100, int(round(100 - used))))] *)
Definition remaining_percent (used : num) : result Z :=
  r ← round (int_sub 100 used);
  Ok (max 0 (min 100 r)).

(** [filled = max(0, min(10, int(round(remaining / 10))))] *)
Definition filled_cells (remaining : Z) : result Z :=
  f ← round (NFloat (small_int_truediv remaining 10));
  Ok (max 0 (min 10 f)).

(** [bar = "\u2588" * filled + "\u00b7" * (10 - filled)] *)
Definition usage_bar (filled : Z) : str :=
  repeat_char FULL_BLOCK filled ++ repeat_char MIDDLE_DOT (10 - filled).

(** [f"{title:<8} {remaining:>3}%  {bar}"] *)
Definition window_line (title : str) (remaining : Z) (bar : str) : str :=
  ljust 8 title ++ [SPACE] ++ rjust 3 (str_of_int remaining)
    ++ lit "%  " ++ bar.

Definition _window_text (title : str) (window : val) : result str :=
  used ← get window (lit "usedPercent");
  match as_number used with
  | None => Ok (title ++ lit ": --")
  | Some used =>
      remaining ← remaining_percent used;
      filled ← filled_cells remaining;
      let bar := usage_bar filled in
      reset_desc ← get window (lit "resetDescription");
      match as_nonempty_str reset_desc with
      | Some reset_desc =>
          Ok (window_line title remaining bar
                ++ lit "  " ++ [ANTICLOCKWISE_ARROW; SPACE] ++ reset_desc)
      | None => Ok (window_line title remaining bar)
      end
  end.

Definition mapping : gmap str str :=
  list_to_map [
    (lit "codex", lit "Codex");
    (lit "claude", lit "Claude");
    (lit "cursor", lit "Cursor");
    (lit "opencode", lit "OpenCode");
    (lit "factory", lit "Droid");
    (lit "gemini", lit "Gemini");
    (lit "antigravity", lit "Antigravity");
    (lit "copilot", lit "Copilot");
    (lit "zai", lit "z.ai");
    (lit "minimax", lit "MiniMax");
    (lit "kimi", lit "Kimi");
    (lit "kiro", lit "Kiro");
    (lit "vertexai", lit "Vertex AI");
    (lit "augment", lit "Augment");
    (lit "jetbrains", lit "JetBrains AI");
    (lit "kimik2", lit "Kimi K2");
    (lit "amp", lit "Amp");
    (lit "synthetic", lit "Synthetic")
  ].

Definition _provider_title (provider_id : str) : str :=
  default provider_id (mapping !! provider_id).

(** The menu is a list of items, appended to in place. *)
Inductive MenuItem :=
| InfoItem (label : str) (markup : bool)
| SeparatorMenuItem.

(** Computations that append to the menu and may raise: the items
    appended before an exception stay in the menu. *)
Definition Menu (A : Type) : Type :=
  list MenuItem -> result A * list MenuItem.

#[global] Instance menu_ret : MRet Menu := fun A a menu => (Ok a, menu).

#[global] Instance menu_bind : MBind Menu := fun A B k c menu =>
  match c menu with
  | (Ok a, menu') => k a menu'
  | (Raise e, menu') => (Raise e, menu')
  end.

Definition lift {A} (r : result A) : Menu A := fun menu => (r, menu).

Definition skip : Menu unit := mret tt.

Definition _append_separator : Menu unit :=
  fun menu => (Ok tt, menu ++ [SeparatorMenuItem]).

Definition _append_info (label : str) (markup : bool) : Menu unit :=
  fun menu => (Ok tt, menu ++ [InfoItem label markup]).

Section Builtins.

Variable repr_other : val -> str.
Variable format_1f : num -> result str.

Definition _append_provider_block (payload : gmap str val) : Menu unit :=
  let name :=
    _provider_title
      (str_ repr_other (default (Str (lit "unknown"))
                          (payload !! lit "provider"))) in
  _ ← _append_info (lit "<b>" ++ name ++ lit "</b>") true;
  let error := dict_get payload (lit "error") in
  match as_dict error with
  | Some error =>
      _ ← _append_info
            (lit "  Error: "
               ++ str_ repr_other (default (Str (lit "unknown"))
                                     (error !! lit "message")))
            false;
      _append_separator
  | None =>
      let usage := or_empty_dict (dict_get payload (lit "usage")) in
      primary ← lift (get_or_empty_dict usage (lit "primary"));
      secondary ← lift (get_or_empty_dict usage (lit "secondary"));
      session ← lift (_window_text (lit "Session") primary);
      weekly ← lift (_window_text (lit "Weekly") secondary);
      _ ← _append_info (lit "<tt>" ++ session ++ lit "</tt>") true;
      _ ← _append_info (lit "<tt>" ++ weekly ++ lit "</tt>") true;
      let credits := dict_get payload (lit "credits") in
      _ ← match as_dict credits with
          | Some credits =>
              match as_number (dict_get credits (lit "remaining")) with
              | Some remaining =>
                  text ← lift (format_1f remaining);
                  _append_info
                    (lit "<tt>Credits  " ++ text ++ lit "</tt>") true
              | None => skip
              end
          | None => skip
          end;
      email ← lift (get usage (lit "accountEmail"));
      _ ← match as_nonempty_str email with
          | Some email =>
              _append_info
                (lit "<tt>Account  " ++ email ++ lit "</tt>") true
          | None => skip
          end;
      _append_separator
  end.

End Builtins.

End CodexBarTray.

(** ** GDK geometry and the dashboard window *)

Module Gdk.

Record Rectangle := {
  x : Z;
  y : Z;
  width : Z;
  height : Z
}.

(** A seat with the position of its pointer, when it has one. *)
Record Seat := { get_pointer : option (Z * Z) }.

Record Display := {
  get_default_seat : option Seat;
  (** geometry of the monitor at a point, when there is one *)
  get_monitor_at_point : Z -> Z -> option Rectangle
}.

End Gdk.

Module DashboardWindow.

Definition default_width : Z := 430.
Definition default_height : Z := 560.

(** The part of the window state that placement reads and writes. *)
Record Window := {
  visible : bool;
  get_size : Z * Z;
  get_position : Z * Z;
  presented : bool
}.

Definition show_all (w : Window) : Window :=
  {| visible := true; get_size := get_size w;
     get_position := get_position w; presented := presented w |}.

Definition move (p : Z * Z) (w : Window) : Window :=
  {| visible := visible w; get_size := get_size w;
     get_position := p; presented := presented w |}.

Definition present (w : Window) : Window :=
  {| visible := true; get_size := get_size w;
     get_position := get_position w; presented := true |}.

(** [width, height = self.get_size()] with the two fallbacks. *)
Definition popup_size (w : Window) : Z * Z :=
  let '(width, height) := get_size w in
  (if width <=? 1 then default_width else width,
   if height <=? 1 then default_height else height).

(** The clamp that ends both routines. *)
Definition clamp (margin : Z) (monitor_geo : Gdk.Rectangle)
    (width height : Z) (target : Z * Z) : Z * Z :=
  let '(target_x, target_y) := target in
  let min_x := Gdk.x monitor_geo + margin in
  let max_x := Gdk.x monitor_geo + Gdk.width monitor_geo - width - margin in
  let min_y := Gdk.y monitor_geo + margin in
  let max_y := Gdk.y monitor_geo + Gdk.height monitor_geo - height - margin in
  (Py.max min_x (Py.min target_x max_x),
   Py.max min_y (Py.min target_y max_y)).

(** Target of [present_near_pointer] before the clamp. *)
Definition pointer_target (margin px py : Z) (monitor_geo : Gdk.Rectangle)
    (width height : Z) : Z * Z :=
  let target_x := px - width + 24 in
  let target_y :=
    if py >? Gdk.y monitor_geo + Gdk.height monitor_geo / 2
    then py - height - margin
    else py + margin in
  (target_x, target_y).

(** Target of [present_from_icon_geometry] before the clamp. *)
Definition icon_target (margin : Z) (area monitor_geo : Gdk.Rectangle)
    (width height : Z) : Z * Z :=
  let icon_center_x := Gdk.x area + Gdk.width area / 2 in
  let target_x := icon_center_x - width / 2 in
  let target_y := Gdk.y area - height - margin in
  let target_y :=
    if target_y <? Gdk.y monitor_geo + margin
    then Gdk.y area + Gdk.height area + margin
    else target_y in
  (target_x, target_y).

Definition place_near_pointer (margin px py : Z)
    (monitor_geo : Gdk.Rectangle) (width height : Z) : Z * Z :=
  clamp margin monitor_geo width height
    (pointer_target margin px py monitor_geo width height).

Definition place_from_icon (margin : Z) (area monitor_geo : Gdk.Rectangle)
    (width height : Z) : Z * Z :=
  clamp margin monitor_geo width height
    (icon_target margin area monitor_geo width height).

(** [margin = 8] in both routines. *)
Definition margin : Z := 8.

Definition present_near_pointer (display : option Gdk.Display)
    (self : Window) : Window :=
  let self := show_all self in
  match display with
  | None => present self
  | Some display =>
    match Gdk.get_default_seat display with
    | None => present self
    | Some seat =>
      match Gdk.get_pointer seat with
      | None => present self
      | Some (px, py) =>
        match Gdk.get_monitor_at_point display px py with
        | None => present self
        | Some monitor_geo =>
          let '(width, height) := popup_size self in
          present
            (move (place_near_pointer margin px py monitor_geo width height)
               self)
        end
      end
    end
  end.

Definition present_from_icon_geometry (display : option Gdk.Display)
    (area : Gdk.Rectangle) (self : Window) : Window :=
  let self := show_all self in
  match display with
  | None => present_near_pointer display self
  | Some d =>
    match Gdk.get_monitor_at_point d (Gdk.x area) (Gdk.y area) with
    | None => present_near_pointer display self
    | Some monitor_geo =>
      let '(width, height) := popup_size self in
      present
        (move (place_from_icon margin area monitor_geo width height) self)
    end
  end.

(** *** Widgets of the dashboard

    A widget tree keeps the texts and the nesting; alignment, margins,
    spacing and style classes are left out.  The children of a box are
    in display order. *)

Import Py.

Inductive Widget :=
| Label (label : str)
| MarkupLabel (markup : str)
| ProgressBar (fraction : float)
| Box (children : list Widget)
| Frame (child : Widget).

Definition _window_row (title : str) (window : val) : result Widget :=
  used ← get window (lit "usedPercent");
  match as_number used with
  | None => Ok (Label (title ++ lit ": --"))
  | Some used =>
      x ← float_ (int_sub 100 used);
      let remaining := max_num (NInt 0) (min_num (NInt 100) (NFloat x)) in
      percent ← round remaining;
      let header :=
        Box [Label title; Label (str_of_int percent ++ lit "% left")] in
      q ← div_float remaining 100;
      let bar := ProgressBar (max_float 0 (min_float 1 q)) in
      reset_desc ← get window (lit "resetDescription");
      match as_nonempty_str reset_desc with
      | Some reset_desc =>
          Ok (Box [header; bar; Label (lit "Resets " ++ reset_desc)])
      | None => Ok (Box [header; bar])
      end
  end.

Section Builtins.

Variable repr_other : val -> str.
Variable format_1f : num -> result str.

Definition _provider_card (payload : gmap str val) : result Widget :=
  let name :=
    CodexBarTray._provider_title
      (str_ repr_other (default (Str (lit "unknown"))
                          (payload !! lit "provider"))) in
  let title :=
    MarkupLabel (lit "<span weight='bold'>" ++ name ++ lit "</span>") in
  let error := dict_get payload (lit "error") in
  match as_dict error with
  | Some error =>
      let err :=
        Label (lit "Error: "
                 ++ str_ repr_other (default (Str (lit "unknown"))
                                       (error !! lit "message"))) in
      Ok (Frame (Box [title; err]))
  | None =>
      let usage := or_empty_dict (dict_get payload (lit "usage")) in
      primary ← get_or_empty_dict usage (lit "primary");
      session ← _window_row (lit "Session") primary;
      secondary ← get_or_empty_dict usage (lit "secondary");
      weekly ← _window_row (lit "Weekly") secondary;
      let credits := dict_get payload (lit "credits") in
      credits_label ←
        match as_dict credits with
        | Some credits =>
            match as_number (dict_get credits (lit "remaining")) with
            | Some remaining =>
                text ← format_1f remaining;
                Ok [Label (lit "Credits: " ++ text)]
            | None => Ok []
            end
        | None => Ok []
        end;
      email ← get usage (lit "accountEmail");
      let account_label :=
        match as_nonempty_str email with
        | Some email => [Label (lit "Account: " ++ email)]
        | None => []
        end in
      Ok (Frame (Box ([title; session; weekly]
                        ++ credits_label ++ account_label)))
  end.

End Builtins.

End DashboardWindow.

(** ** Vocabulary of the placement properties *)

Module Placement.

(** The popup rectangle with top-left corner [p] lies in the monitor. *)
Definition inside_monitor (monitor_geo : Gdk.Rectangle) (width height : Z)
    (p : Z * Z) : Prop :=
  Gdk.x monitor_geo <= p.1 /\
  p.1 + width <= Gdk.x monitor_geo + Gdk.width monitor_geo /\
  Gdk.y monitor_geo <= p.2 /\
  p.2 + height <= Gdk.y monitor_geo + Gdk.height monitor_geo.

(** The two intervals of the clamp step. *)
Definition within_clamp_bounds (margin : Z) (monitor_geo : Gdk.Rectangle)
    (width height : Z) (p : Z * Z) : Prop :=
  Gdk.x monitor_geo + margin <= p.1
    <= Gdk.x monitor_geo + Gdk.width monitor_geo - width - margin /\
  Gdk.y monitor_geo + margin <= p.2
    <= Gdk.y monitor_geo + Gdk.height monitor_geo - height - margin.

Inductive Axis := Horizontal | Vertical.

Definition origin (a : Axis) (r : Gdk.Rectangle) : Z :=
  match a with Horizontal => Gdk.x r | Vertical => Gdk.y r end.

Definition extent (a : Axis) (r : Gdk.Rectangle) : Z :=
  match a with Horizontal => Gdk.width r | Vertical => Gdk.height r end.

Definition coordinate (a : Axis) (p : Z * Z) : Z :=
  match a with Horizontal => p.1 | Vertical => p.2 end.

(** A display with one monitor and a pointer at a given position. *)
Definition single_monitor_display (pointer : Z * Z)
    (monitor_geo : Gdk.Rectangle) : Gdk.Display :=
  {| Gdk.get_default_seat := Some {| Gdk.get_pointer := Some pointer |};
     Gdk.get_monitor_at_point := fun _ _ => Some monitor_geo |}.

(** A hidden window of a given size. *)
Definition hidden_window (size : Z * Z) : DashboardWindow.Window :=
  {| DashboardWindow.visible := false;
     DashboardWindow.get_size := size;
     DashboardWindow.get_position := (0, 0);
     DashboardWindow.presented := false |}.

End Placement.

(** ** Vocabulary of the rendering properties *)

Module Rendering.

Import Py CodexBarTray.

(** The number of bar cells that a numeric [usedPercent] leads to. *)
Definition filled_of (used : num) : result Z :=
  remaining ← remaining_percent used; filled_cells remaining.

(** The formula of the specification,
    [round((100 - usedPercent) / 100 * barLength)], evaluated as Python
    evaluates it. *)
Definition formula_filled (bar_length : Z) (used : num) : result Z :=
  x ← float_ (int_sub 100 used);
  round (NFloat (x / 100 * float_of_small_int bar_length)%float).

(** [max(lo, min(hi, x))] *)
Definition clamp_num (lo hi : Z) (x : num) : num :=
  max_num (NInt lo) (min_num (NInt hi) x).

(** The two steps in the order of the specification, clamp and then
    round: [round(clamp(100 - usedPercent, 0, 100))] and
    [round(clamp(remaining / 100 * barLength, 0, barLength))]. *)
Definition spec_remaining (used : num) : result Z :=
  round (clamp_num 0 100 (int_sub 100 used)).

Definition spec_filled (bar_length remaining : Z) : result Z :=
  round (clamp_num 0 bar_length
           (NFloat (small_int_truediv remaining 100
                    * float_of_small_int bar_length)%float)).

(** [0 <= used <= 100] *)
Definition in_percent_range (used : num) : bool :=
  le (NInt 0) used && le used (NInt 100).

(** The percentages 0, 1, ..., 100. *)
Definition percents : list Z := seqZ 0 101.

(** Comparison of a result with an expected integer. *)
Definition result_is (r : result Z) (z : Z) : bool :=
  match r with
  | Ok z' => z' =? z
  | Raise _ => false
  end.

(** A window with just the two fields, the second one optional. *)
Definition window_of (used : val) (reset_desc : option val) : val :=
  Dict (<[lit "usedPercent" := used]>
          (match reset_desc with
           | Some d => {[ lit "resetDescription" := d ]}
           | None => ∅
           end)).

End Rendering.

(** ** Exact values of binary64 numbers *)

Module Binary64.

(** The exact value of a finite binary64, as a multiple of [2 ^ -1074]. *)
Definition scaled (x : spec_float) : Z :=
  match x with
  | S754_finite s m e =>
      if s then - (Zpos m * 2 ^ (e + 1074)) else Zpos m * 2 ^ (e + 1074)
  | _ => 0
  end.

(** A zero, or a positive number whose exponent is in range. *)
Definition nonneg_finite (x : spec_float) : Prop :=
  match x with
  | S754_zero _ => True
  | S754_finite false _ e => -1074 <= e
  | _ => False
  end.

(** Rounding of a non-negative multiple of [2 ^ -1074] to 53 significant
    bits, ties to even. *)
Definition rne (x : Z) : Z :=
  let n := Z.log2 x - 52 in
  if n <=? 0 then x
  else Py.round_half_even_div x (2 ^ n) * 2 ^ n.

(** The exact value of a number, as a multiple of [2 ^ -1074]. *)
Definition scaled_num (x : Py.num) : Z :=
  match x with
  | Py.NInt z => z * 2 ^ 1074
  | Py.NFloat f => scaled (Prim2SF f)
  end.

(** [round(100 - used)] as a function of the exact value of [used]:
    the difference is rounded to 53 bits, then to an integer. *)
Definition remaining_of_scaled (x : Z) : Z :=
  Py.round_half_even_div (rne (100 * 2 ^ 1074 - x)) (2 ^ 1074).

(** The state after [k] one-bit shifts of [M]: quotient, round bit and
    sticky bit. *)
Definition shifted (M : Z) (k : Z) (R : shr_record) : Prop :=
  exists rho,
    0 <= rho < 2 ^ k /\ M = shr_m R * 2 ^ k + rho /\ 0 <= shr_m R /\
    (shr_r R = true <-> 2 ^ k <= 2 * rho) /\
    (shr_s R = true <-> 0 < (if shr_r R then 2 * rho - 2 ^ k else 2 * rho)).

End Binary64.

(** ** Vocabulary of the further placement properties *)

Module Geometry.

(** A rectangle moved by [(dx, dy)]. *)
Definition translate (dx dy : Z) (r : Gdk.Rectangle) : Gdk.Rectangle :=
  {| Gdk.x := Gdk.x r + dx; Gdk.y := Gdk.y r + dy;
     Gdk.width := Gdk.width r; Gdk.height := Gdk.height r |}.

(** The pointer and the monitor under it, when the display, its seat, the
    pointer and that monitor all exist. *)
Definition pointer_monitor (display : option Gdk.Display)
    : option (Z * Z * Gdk.Rectangle) :=
  d ← display;
  seat ← Gdk.get_default_seat d;
  p ← Gdk.get_pointer seat;
  monitor_geo ← Gdk.get_monitor_at_point d p.1 p.2;
  Some (p.1, p.2, monitor_geo).

(** The monitor at the corner of the tray icon, when there is one. *)
Definition icon_monitor (display : option Gdk.Display)
    (area : Gdk.Rectangle) : option Gdk.Rectangle :=
  d ← display; Gdk.get_monitor_at_point d (Gdk.x area) (Gdk.y area).

End Geometry.

(** ** Text helpers *)

Module Text.

Import Py.

(** Truth value of a string. *)
Definition nonempty (s : str) : bool :=
  match s with
  | [] => false
  | _ :: _ => true
  end.

(** [s.strip()], for the interpreter's notion of white space. *)
Fixpoint lstrip (is_space : N -> bool) (s : str) : str :=
  match s with
  | c :: s' => if is_space c then lstrip is_space s' else s
  | [] => []
  end.

Definition rstrip (is_space : N -> bool) (s : str) : str :=
  reverse (lstrip is_space (reverse s)).

Definition strip (is_space : N -> bool) (s : str) : str :=
  rstrip is_space (lstrip is_space s).

(** [s.startswith(prefix)] *)
Fixpoint startswith (prefix s : str) : bool :=
  match prefix, s with
  | [], _ => true
  | a :: prefix', b :: s' => (a =? b)%N && startswith prefix' s'
  | _ :: _, [] => false
  end.

(** [sub in s] *)
Fixpoint contains (sub s : str) : bool :=
  startswith sub s
  || match s with
     | [] => false
     | _ :: s' => contains sub s'
     end.

End Text.

(** ** Running the command-line tool *)

Module Launcher.

Import Py Text.

(** An exception that the script lets through: one of those the
    rendering code raises, or an exception of any other class, kept by
    the name of its class ([PermissionError], [RecursionError], ...). *)
Inductive Exception :=
| Builtin (e : exn)
| Other (class_name : str).

(** A call returns a value or lets an exception through. *)
Inductive outcome (A : Type) :=
| Returns (a : A)
| Raises (e : Exception).
Arguments Returns {A} a.
Arguments Raises {A} e.

Record CommandResult := {
  ok : bool;
  stdout : str;
  stderr : str
}.

(** What [subprocess.run(args, capture_output=True, text=True,
    check=False)] does: it raises [FileNotFoundError], it raises an
    exception of another class ([PermissionError], [NotADirectoryError],
    [UnicodeDecodeError], ...), or the program runs and exits. *)
Inductive Process :=
| FileNotFoundError (message : str)
| Uncaught (e : Exception)
| CompletedProcess (returncode : Z) (out err : str).

Section Environment.

Variable is_space : N -> bool.
Variable subprocess_run : list str -> Process.

(** Only [FileNotFoundError] is caught. *)
Definition run_command (args : list str) : outcome CommandResult :=
  match subprocess_run args with
  | FileNotFoundError message =>
      Returns {| ok := false; stdout := []; stderr := message |}
  | Uncaught e => Raises e
  | CompletedProcess returncode out err =>
      Returns {| ok := returncode =? 0;
                 stdout := strip is_space out;
                 stderr := strip is_space err |}
  end.

(** The branch [--print-once] of [main]: the exit status, and the
    arguments of the calls of [print] on the standard output and on the
    standard error, one entry for each call, in order.  An argument may
    span several lines. *)
Record Exit := {
  status : Z;
  printed : list str;
  printed_err : list str
}.

Definition print_once (binary source : str) (provider : option str)
    : outcome Exit :=
  let command := [binary; lit "panel"; lit "--source"; source] in
  let command :=
    match provider with
    | Some (c :: p) => command ++ [lit "--provider"; c :: p]
    | _ => command
    end in
  match run_command command with
  | Raises e => Raises e
  | Returns result =>
      Returns
        {| status := if ok result then 0 else 1;
           printed :=
             if nonempty (stdout result) then [stdout result] else [];
           printed_err :=
             if nonempty (stderr result) then [stderr result] else [] |}
  end.

End Environment.

End Launcher.

(** ** The dashboard: payloads, search and content *)

Module Dashboard.

Import Py Text.

Record State := {
  window : DashboardWindow.Window;
  all_payloads : list (gmap str val);
  panel_text : str;
  (** text of the search entry *)
  search_text : str;
  updated_label : str;
  (** children of the content box *)
  content : list DashboardWindow.Widget
}.

Definition with_window (w : DashboardWindow.Window) (self : State) : State :=
  {| window := w; all_payloads := all_payloads self;
     panel_text := panel_text self; search_text := search_text self;
     updated_label := updated_label self; content := content self |}.

Definition with_content (c : list DashboardWindow.Widget) (self : State)
    : State :=
  {| window := window self; all_payloads := all_payloads self;
     panel_text := panel_text self; search_text := search_text self;
     updated_label := updated_label self; content := c |}.

Definition with_updated_label (s : str) (self : State) : State :=
  {| window := window self; all_payloads := all_payloads self;
     panel_text := panel_text self; search_text := search_text self;
     updated_label := s; content := content self |}.

Definition is_visible (self : State) : bool :=
  DashboardWindow.visible (window self).

Definition show_all (self : State) : State :=
  with_window (DashboardWindow.show_all (window self)) self.

Definition hide (self : State) : State :=
  with_window
    {| DashboardWindow.visible := false;
       DashboardWindow.get_size := DashboardWindow.get_size (window self);
       DashboardWindow.get_position :=
         DashboardWindow.get_position (window self);
       DashboardWindow.presented := DashboardWindow.presented (window self) |}
    self.

Definition present_near_pointer (display : option Gdk.Display)
    (self : State) : State :=
  with_window (DashboardWindow.present_near_pointer display (window self))
    self.

Definition present_from_icon_geometry (display : option Gdk.Display)
    (area : Gdk.Rectangle) (self : State) : State :=
  with_window
    (DashboardWindow.present_from_icon_geometry display area (window self))
    self.

Section Builtins.

Variable lower : str -> str.
Variable is_space : N -> bool.
Variable repr_other : val -> str.
Variable format_1f : num -> result str.

(** The test of the loop of [_filtered_payloads]. *)
Definition matches (query : str) (payload : gmap str val) : result bool :=
  let provider_id :=
    str_ repr_other (default (Str []) (payload !! lit "provider")) in
  let provider_name := lower (CodexBarTray._provider_title provider_id) in
  let usage := or_empty_dict (dict_get payload (lit "usage")) in
  match usage with
  | Dict d =>
      let account_email :=
        lower (str_ repr_other
                 (default (Str []) (d !! lit "accountEmail"))) in
      let haystack :=
        provider_id ++ [SPACE] ++ provider_name ++ [SPACE] ++ account_email
      in
      Ok (contains query haystack)
  | _ => Raise AttributeError
  end.

Fixpoint filter_payloads (query : str) (payloads : list (gmap str val))
    : result (list (gmap str val)) :=
  match payloads with
  | [] => Ok []
  | payload :: rest =>
      keep ← matches query payload;
      filtered ← filter_payloads query rest;
      Ok (if keep : bool then payload :: filtered else filtered)
  end.

Definition _filtered_payloads (self : State) (query : str)
    : result (list (gmap str val)) :=
  if nonempty query
  then filter_payloads query (all_payloads self)
  else Ok (all_payloads self).

(** The loop of [_render_filtered]: one card per payload, packed into the
    content box as soon as it is built. *)
Fixpoint pack_cards (payloads : list (gmap str val)) (self : State)
    : result unit * State :=
  match payloads with
  | [] => (Ok tt, self)
  | payload :: rest =>
      match DashboardWindow._provider_card repr_other format_1f payload with
      | Ok card => pack_cards rest (with_content (content self ++ [card]) self)
      | Raise e => (Raise e, self)
      end
  end.

Definition BULLET : N := 8226%N. (* U+2022 *)

Definition _render_filtered (now : str) (self : State)
    : result unit * State :=
  let query := lower (strip is_space (search_text self)) in
  match _filtered_payloads self query with
  | Raise e => (Raise e, self)
  | Ok payloads =>
      let self :=
        with_updated_label
          (lit "Updated " ++ now ++ lit "  " ++ [BULLET] ++ lit "  "
             ++ panel_text self)
          self in
      let self := with_content [] self in
      match payloads with
      | [] =>
          let row := DashboardWindow.Label (lit "No matching providers.") in
          (Ok tt, show_all (with_content (content self ++ [row]) self))
      | _ :: _ =>
          match pack_cards payloads self with
          | (Ok _, self) => (Ok tt, show_all self)
          | (Raise e, self) => (Raise e, self)
          end
      end
  end.

Definition set_payloads (now : str) (payloads : list (gmap str val))
    (text : str) (self : State) : result unit * State :=
  _render_filtered now
    {| window := window self; all_payloads := payloads;
       panel_text := text; search_text := search_text self;
       updated_label := updated_label self; content := content self |}.

End Builtins.

End Dashboard.

(** ** The tray: commands, icon, menu, periodic update and handlers *)

Module Tray.

Import Py Text Launcher.
Import CodexBarTray.

(** What [activate] of a menu action is connected to. *)
Inductive Callback :=
| on_open_dashboard_cb
| on_refresh_cb
| on_quit_cb.

(** Children of the menu: the insensitive items of [_append_info] and
    the separators, and the actions of [_append_action]. *)
Inductive Entry :=
| Item (item : MenuItem)
| ActionItem (label : str) (callback : Callback).

Inductive IndicatorStatus :=
| ACTIVE
| ATTENTION.

Record Indicator := {
  status : IndicatorStatus;
  icon_theme_path : option str;
  (** name and description given to [set_icon_full] *)
  icon_full : str * str;
  (** label and guide given to [set_label], if it was ever called *)
  label : option (str * str);
  (** [hasattr(indicator, "set_label")] *)
  has_set_label : bool
}.

Inductive Image :=
| FromFile (path : str)
| FromIconName (name : str).

Record StatusIcon := {
  image : Image;
  tooltip_text : str
}.

Record State := {
  binary : str;
  provider : option str;
  source : str;
  icon : str;
  status_icon : option StatusIcon;
  indicator : option Indicator;
  menu : list Entry;
  last_panel_text : str;
  last_payloads : list (gmap str val);
  dashboard_window : Dashboard.State
}.

Definition with_status_icon (s : option StatusIcon) (self : State) : State :=
  {| binary := binary self; provider := provider self;
     source := source self; icon := icon self;
     status_icon := s; indicator := indicator self; menu := menu self;
     last_panel_text := last_panel_text self;
     last_payloads := last_payloads self;
     dashboard_window := dashboard_window self |}.

Definition with_indicator (i : option Indicator) (self : State) : State :=
  {| binary := binary self; provider := provider self;
     source := source self; icon := icon self;
     status_icon := status_icon self; indicator := i; menu := menu self;
     last_panel_text := last_panel_text self;
     last_payloads := last_payloads self;
     dashboard_window := dashboard_window self |}.

Definition with_menu (m : list Entry) (self : State) : State :=
  {| binary := binary self; provider := provider self;
     source := source self; icon := icon self;
     status_icon := status_icon self; indicator := indicator self;
     menu := m;
     last_panel_text := last_panel_text self;
     last_payloads := last_payloads self;
     dashboard_window := dashboard_window self |}.

Definition with_last_panel_text (s : str) (self : State) : State :=
  {| binary := binary self; provider := provider self;
     source := source self; icon := icon self;
     status_icon := status_icon self; indicator := indicator self;
     menu := menu self;
     last_panel_text := s;
     last_payloads := last_payloads self;
     dashboard_window := dashboard_window self |}.

Definition with_last_payloads (p : list (gmap str val)) (self : State)
    : State :=
  {| binary := binary self; provider := provider self;
     source := source self; icon := icon self;
     status_icon := status_icon self; indicator := indicator self;
     menu := menu self;
     last_panel_text := last_panel_text self;
     last_payloads := p;
     dashboard_window := dashboard_window self |}.

Definition with_dashboard_window (d : Dashboard.State) (self : State)
    : State :=
  {| binary := binary self; provider := provider self;
     source := source self; icon := icon self;
     status_icon := status_icon self; indicator := indicator self;
     menu := menu self;
     last_panel_text := last_panel_text self;
     last_payloads := last_payloads self;
     dashboard_window := d |}.

(** Setters of the indicator and of the status icon. *)
Definition set_status (s : IndicatorStatus) (i : Indicator) : Indicator :=
  {| status := s; icon_theme_path := icon_theme_path i;
     icon_full := icon_full i; label := label i;
     has_set_label := has_set_label i |}.

Definition set_icon_theme_path (p : str) (i : Indicator) : Indicator :=
  {| status := status i; icon_theme_path := Some p;
     icon_full := icon_full i; label := label i;
     has_set_label := has_set_label i |}.

Definition set_icon_full (name description : str) (i : Indicator)
    : Indicator :=
  {| status := status i; icon_theme_path := icon_theme_path i;
     icon_full := (name, description); label := label i;
     has_set_label := has_set_label i |}.

Definition set_label (text guide : str) (i : Indicator) : Indicator :=
  {| status := status i; icon_theme_path := icon_theme_path i;
     icon_full := icon_full i; label := Some (text, guide);
     has_set_label := has_set_label i |}.

Definition set_image (img : Image) (s : StatusIcon) : StatusIcon :=
  {| image := img; tooltip_text := tooltip_text s |}.

Definition set_tooltip_text (text : str) (s : StatusIcon) : StatusIcon :=
  {| image := image s; tooltip_text := text |}.

(** [for x in l: f(x)] on the menu. *)
Fixpoint for_each {A : Type} (f : A -> Menu unit) (l : list A) : Menu unit :=
  match l with
  | [] => skip
  | x :: l' => _ ← f x; for_each f l'
  end.

Definition is_action (e : Entry) : bool :=
  match e with
  | ActionItem _ _ => true
  | Item _ => false
  end.

(** What [json.loads] does: it returns the decoded value, it raises
    [JSONDecodeError], or it raises another exception ([ValueError] on
    an integer with too many digits, [RecursionError] on a text nested
    too deeply). *)
Inductive Loads :=
| Loaded (v : val)
| JSONDecodeError
| LoadsRaises (e : Exception).

Section Environment.

Variable is_space : N -> bool.
Variable lower : str -> str.
Variable repr_other : val -> str.
Variable format_1f : num -> result str.
(** [json.loads] *)
Variable json_loads : str -> Loads.
Variable subprocess_run : list str -> Process.
(** [GLib.getenv] *)
Variable getenv : str -> option str.
(** The file system, on paths written as strings: [Path(p).exists()],
    [str(Path(p).expanduser())], [str(Path(p).parent)], [Path(p).stem],
    and [str(root / p)] for the directory two levels above the script.
    These queries are taken to answer: [expanduser] has already answered
    for the icon of the tray when the tray was built. *)
Variable exists_ : str -> bool.
Variable expanduser : str -> str.
Variable parent : str -> str.
Variable stem : str -> str.
Variable under_root : str -> str.

Definition _resolve_backend (backend : str) : str :=
  if bool_decide (backend = lit "auto")
  then
    let desktop := lower (default [] (getenv (lit "XDG_CURRENT_DESKTOP"))) in
    if contains (lit "cinnamon") desktop
    then lit "statusicon"
    else lit "appindicator"
  else backend.

Definition candidates (backend : str) : list str :=
  if bool_decide (backend = lit "appindicator")
  then [under_root (lit "Icon.icon/Assets/codexbar.png");
        under_root (lit "codexbar.png");
        under_root (lit "Sources/CodexBar/Resources/ProviderIcon-codex.svg")]
  else [under_root (lit "Sources/CodexBar/Resources/ProviderIcon-codex.svg");
        under_root (lit "Icon.icon/Assets/codexbar.png");
        under_root (lit "codexbar.png")].

Fixpoint first_existing (l : list str) : str :=
  match l with
  | [] => lit "utilities-terminal"
  | candidate :: l' =>
      if exists_ candidate then candidate else first_existing l'
  end.

Definition _default_icon (backend : str) : str :=
  first_existing (candidates backend).

Definition _apply_icon (icon : str) (self : State) : State :=
  match status_icon self with
  | Some s =>
      let icon_path := expanduser icon in
      if exists_ icon_path
      then with_status_icon (Some (set_image (FromFile icon_path) s)) self
      else with_status_icon (Some (set_image (FromIconName icon) s)) self
  | None =>
      match indicator self with
      | None => self
      | Some i =>
          let icon_path := expanduser icon in
          if exists_ icon_path
          then
            let icon_dir := parent icon_path in
            let icon_name := stem icon_path in
            with_indicator
              (Some (set_icon_full icon_name (lit "CodexBar")
                       (set_icon_theme_path icon_dir i)))
              self
          else
            with_indicator (Some (set_icon_full icon (lit "CodexBar") i)) self
      end
  end.

Definition with_provider (command : list str) (provider : option str)
    : list str :=
  match provider with
  | Some (c :: p) => command ++ [lit "--provider"; c :: p]
  | _ => command
  end.

Definition panel_command (self : State) : list str :=
  with_provider [binary self; lit "panel"; lit "--source"; source self]
    (provider self).

Definition usage_command (self : State) : list str :=
  with_provider
    [binary self; lit "usage"; lit "--format"; lit "json"; lit "--source";
     source self]
    (provider self).

(** Only [JSONDecodeError] is caught. *)
Definition _parse_usage_payload (usage : CommandResult)
    : outcome (option (list (gmap str val))) :=
  if negb (ok usage) && negb (nonempty (stdout usage))
  then Returns None
  else
    match json_loads (stdout usage) with
    | JSONDecodeError => Returns None
    | LoadsRaises e => Raises e
    | Loaded (List data) => Returns (Some (omap as_dict data))
    | Loaded _ => Returns None
    end.

(** The items [rebuild_menu] appends before the actions. *)
Definition menu_items (now : str) (panel usage : CommandResult)
    (payloads : list (gmap str val)) (last_panel_text : str) : Menu unit :=
  _ ← _append_info (lit "<b>CodexBar</b>") true;
  _ ← _append_info (lit "<tt>" ++ last_panel_text ++ lit "</tt>") true;
  _ ← _append_info (lit "Updated " ++ now) false;
  _ ← _append_separator;
  _ ← (if negb (ok panel) && nonempty (stderr panel)
       then _append_info (lit "panel: " ++ stderr panel) false
       else skip);
  _ ← match payloads with
      | [] =>
          let msg :=
            if nonempty (stderr usage)
            then stderr usage
            else lit "Unable to parse usage JSON." in
          _append_info msg false
      | _ :: _ =>
          for_each (_append_provider_block repr_other format_1f) payloads
      end;
  _append_separator.

Definition actions : list Entry :=
  [ActionItem (lit "Open Dashboard") on_open_dashboard_cb;
   ActionItem (lit "Refresh") on_refresh_cb;
   ActionItem (lit "Quit") on_quit_cb].

(** The menu is emptied, then filled; what was appended before an
    exception stays. *)
Definition rebuild_menu (now : str) (panel usage : CommandResult)
    (payloads : list (gmap str val)) (self : State) : result unit * State :=
  match menu_items now panel usage payloads (last_panel_text self) [] with
  | (Ok _, items) => (Ok tt, with_menu ((Item <$> items) ++ actions) self)
  | (Raise e, items) => (Raise e, with_menu (Item <$> items) self)
  end.

(** [update]: [now] is the clock read by [rebuild_menu], [now'] the one
    read by the dashboard.  An exception leaves the tray as the
    statements before it made it. *)
Definition update (now now' : str) (self : State) : outcome bool * State :=
  match run_command is_space subprocess_run (panel_command self) with
  | Raises e => (Raises e, self)
  | Returns panel =>
  let self :=
    if ok panel && nonempty (stdout panel)
    then
      let self := with_last_panel_text (stdout panel) self in
      let self :=
        with_indicator (set_status ACTIVE <$> indicator self) self in
      _apply_icon (icon self) self
    else
      let self := with_last_panel_text (lit "CodexBar ERR") self in
      let self :=
        with_indicator
          ((fun i =>
              set_icon_full (lit "dialog-warning") (lit "CodexBar")
                (set_status ATTENTION i)) <$> indicator self)
          self in
      with_status_icon
        (set_image (FromIconName (lit "dialog-warning")) <$> status_icon self)
        self in
  let self :=
    with_indicator
      ((fun i =>
          if has_set_label i
          then set_label (last_panel_text self) [] i
          else i) <$> indicator self)
      self in
  let self :=
    with_status_icon
      (set_tooltip_text (last_panel_text self) <$> status_icon self) self in
  match run_command is_space subprocess_run (usage_command self) with
  | Raises e => (Raises e, self)
  | Returns usage =>
  match _parse_usage_payload usage with
  | Raises e => (Raises e, self)
  | Returns parsed =>
  let payloads := default [] parsed in
  let self := with_last_payloads payloads self in
  match rebuild_menu now panel usage payloads self with
  | (Raise e, self) => (Raises (Builtin e), self)
  | (Ok _, self) =>
      if Dashboard.is_visible (dashboard_window self)
      then
        match
          Dashboard.set_payloads lower is_space repr_other format_1f now'
            payloads (last_panel_text self) (dashboard_window self)
        with
        | (Raise e, d) => (Raises (Builtin e), with_dashboard_window d self)
        | (Ok _, d) => (Returns true, with_dashboard_window d self)
        end
      else (Returns true, self)
  end
  end
  end
  end.

(** [display] is [Gdk.Display.get_default()]. *)
Variable display : option Gdk.Display.

Definition on_open_dashboard (now' : str) (self : State)
    : result unit * State :=
  match
    Dashboard.set_payloads lower is_space repr_other format_1f now'
      (last_payloads self) (last_panel_text self) (dashboard_window self)
  with
  | (Raise e, d) => (Raise e, with_dashboard_window d self)
  | (Ok _, d) =>
      (Ok tt,
       with_dashboard_window (Dashboard.present_near_pointer display d) self)
  end.

(** [get_geometry] is what the status icon answers: the area of the
    icon when the first component of its answer is true. *)
Definition on_status_icon_activate (get_geometry : option Gdk.Rectangle)
    (now' : str) (self : State) : result unit * State :=
  if Dashboard.is_visible (dashboard_window self)
  then (Ok tt, with_dashboard_window (Dashboard.hide (dashboard_window self))
                 self)
  else
    match
      Dashboard.set_payloads lower is_space repr_other format_1f now'
        (last_payloads self) (last_panel_text self) (dashboard_window self)
    with
    | (Raise e, d) => (Raise e, with_dashboard_window d self)
    | (Ok _, d) =>
        match status_icon self, get_geometry with
        | Some _, Some area =>
            (Ok tt,
             with_dashboard_window
               (Dashboard.present_from_icon_geometry display area d) self)
        | _, _ =>
            (Ok tt,
             with_dashboard_window (Dashboard.present_near_pointer display d)
               self)
        end
    end.

End Environment.

End Tray.

(** ** Concrete environments and states for the examples *)

Module Examples.

Import Py Text.

(** Lower case and white space on ASCII. *)
Definition ascii_lower (s : str) : str :=
  (fun c => if (65 <=? c)%N && (c <=? 90)%N then (c + 32)%N else c) <$> s.

Definition ascii_space (c : N) : bool :=
  (c =? 32)%N || ((9 <=? c)%N && (c <=? 13)%N).

Definition codex : gmap str val := {[ lit "provider" := Str (lit "codex") ]}.

Definition claude : gmap str val :=
  {[ lit "provider" := Str (lit "claude") ]}.

Definition dashboard (visible : bool) (search : str)
    (payloads : list (gmap str val)) : Dashboard.State :=
  {| Dashboard.window :=
       {| DashboardWindow.visible := visible;
          DashboardWindow.get_size := (430, 560);
          DashboardWindow.get_position := (0, 0);
          DashboardWindow.presented := visible |};
     Dashboard.all_payloads := payloads;
     Dashboard.panel_text := lit "42%";
     Dashboard.search_text := search;
     Dashboard.updated_label := [];
     Dashboard.content := [] |}.

(** A tray on the status-icon backend, with the dashboard hidden. *)
Definition tray : Tray.State :=
  {| Tray.binary := lit "codexbar";
     Tray.provider := None;
     Tray.source := lit "cli";
     Tray.icon := lit "utilities-terminal";
     Tray.status_icon :=
       Some {| Tray.image := Tray.FromIconName (lit "utilities-terminal");
               Tray.tooltip_text := lit "CodexBar" |};
     Tray.indicator := None;
     Tray.menu := [];
     Tray.last_panel_text := lit "CodexBar";
     Tray.last_payloads := [];
     Tray.dashboard_window := dashboard false [] [] |}.

(** The program is not installed. *)
Definition not_installed (args : list str) : Launcher.Process :=
  Launcher.FileNotFoundError (lit "No such file or directory").

End Examples.

(** * Proofs *)

(** ** Placement: proofs *)

Section PlacementFacts.

Import DashboardWindow Placement.

Lemma py_max_is_Zmax (a b : Z) : Py.max a b = Z.max a b.
Proof. unfold Py.max. destruct (Z.gtb_spec b a); lia. Qed.

Lemma py_min_is_Zmin (a b : Z) : Py.min a b = Z.min a b.
Proof. unfold Py.min. destruct (Z.ltb_spec b a); lia. Qed.

Lemma clamp_unfold (margin : Z) (mon : Gdk.Rectangle) (w h tx ty : Z) :
  clamp margin mon w h (tx, ty) =
    (Z.max (Gdk.x mon + margin)
       (Z.min tx (Gdk.x mon + Gdk.width mon - w - margin)),
     Z.max (Gdk.y mon + margin)
       (Z.min ty (Gdk.y mon + Gdk.height mon - h - margin))).
Proof. unfold clamp. now rewrite !py_max_is_Zmax, !py_min_is_Zmin. Qed.

(** With ordered bounds the clamp lands in its two intervals. *)
Lemma clamp_within_bounds (margin : Z) (mon : Gdk.Rectangle) (w h : Z)
    (t : Z * Z) :
  w + 2 * margin <= Gdk.width mon ->
  h + 2 * margin <= Gdk.height mon ->
  within_clamp_bounds margin mon w h (clamp margin mon w h t).
Proof.
  intros Hw Hh. destruct t as [tx ty]. rewrite clamp_unfold.
  unfold within_clamp_bounds. simpl. lia.
Qed.

Lemma bounds_inside (margin : Z) (mon : Gdk.Rectangle) (w h : Z)
    (p : Z * Z) :
  0 <= margin ->
  within_clamp_bounds margin mon w h p -> inside_monitor mon w h p.
Proof. unfold within_clamp_bounds, inside_monitor. lia. Qed.

(** With inverted bounds on an axis the clamp returns the lower one. *)
Lemma clamp_degenerate (margin : Z) (mon : Gdk.Rectangle) (w h : Z)
    (t : Z * Z) (a : Axis) :
  extent a mon < (match a with Horizontal => w | Vertical => h end)
                   + 2 * margin ->
  coordinate a (clamp margin mon w h t) = origin a mon + margin.
Proof.
  intros H. destruct t as [tx ty]. rewrite clamp_unfold.
  destruct a; simpl in *; lia.
Qed.

(** What [present_near_pointer] does when every lookup succeeds. *)
Lemma present_near_pointer_moves (d : Gdk.Display) (seat : Gdk.Seat)
    (px py : Z) (mon : Gdk.Rectangle) (self : Window) :
  Gdk.get_default_seat d = Some seat ->
  Gdk.get_pointer seat = Some (px, py) ->
  Gdk.get_monitor_at_point d px py = Some mon ->
  get_position (present_near_pointer (Some d) self) =
    place_near_pointer margin px py mon
      (popup_size self).1 (popup_size self).2.
Proof.
  intros Hs Hp Hm. unfold present_near_pointer. rewrite Hs, Hp, Hm.
  change (popup_size (show_all self)) with (popup_size self).
  now destruct (popup_size self).
Qed.

(** What [present_from_icon_geometry] does when the monitor is found. *)
Lemma present_from_icon_geometry_moves (d : Gdk.Display)
    (area mon : Gdk.Rectangle) (self : Window) :
  Gdk.get_monitor_at_point d (Gdk.x area) (Gdk.y area) = Some mon ->
  get_position (present_from_icon_geometry (Some d) area self) =
    place_from_icon margin area mon
      (popup_size self).1 (popup_size self).2.
Proof.
  intros Hm. unfold present_from_icon_geometry. rewrite Hm.
  change (popup_size (show_all self)) with (popup_size self).
  now destruct (popup_size self).
Qed.

(** Both routines always end with the window shown and presented. *)
Lemma present_near_pointer_presents (d : option Gdk.Display)
    (self : Window) :
  visible (present_near_pointer d self) = true /\
  presented (present_near_pointer d self) = true.
Proof.
  unfold present_near_pointer.
  destruct d as [d|]; [|now split].
  destruct (Gdk.get_default_seat d) as [seat|]; [|now split].
  destruct (Gdk.get_pointer seat) as [[px py]|]; [|now split].
  destruct (Gdk.get_monitor_at_point d px py); [|now split].
  now destruct (popup_size (show_all self)).
Qed.

(** The window itself ends up inside the monitor under the pointer. *)
Lemma present_near_pointer_inside (d : Gdk.Display) (seat : Gdk.Seat)
    (px py : Z) (mon : Gdk.Rectangle) (self : Window) :
  Gdk.get_default_seat d = Some seat ->
  Gdk.get_pointer seat = Some (px, py) ->
  Gdk.get_monitor_at_point d px py = Some mon ->
  (popup_size self).1 + 2 * margin <= Gdk.width mon ->
  (popup_size self).2 + 2 * margin <= Gdk.height mon ->
  inside_monitor mon (popup_size self).1 (popup_size self).2
    (get_position (present_near_pointer (Some d) self)).
Proof.
  intros Hs Hp Hm Hw Hh.
  rewrite (present_near_pointer_moves d seat px py mon self Hs Hp Hm).
  apply (bounds_inside margin); [unfold margin; lia|].
  now apply clamp_within_bounds.
Qed.

(** The window ends up inside the monitor of the tray icon. *)
Lemma present_from_icon_geometry_inside (d : Gdk.Display)
    (area mon : Gdk.Rectangle) (self : Window) :
  Gdk.get_monitor_at_point d (Gdk.x area) (Gdk.y area) = Some mon ->
  (popup_size self).1 + 2 * margin <= Gdk.width mon ->
  (popup_size self).2 + 2 * margin <= Gdk.height mon ->
  inside_monitor mon (popup_size self).1 (popup_size self).2
    (get_position (present_from_icon_geometry (Some d) area self)).
Proof.
  intros Hm Hw Hh.
  rewrite (present_from_icon_geometry_moves d area mon self Hm).
  apply (bounds_inside margin); [unfold margin; lia|].
  now apply clamp_within_bounds.
Qed.

End PlacementFacts.

Section PlacementClaims.

Import DashboardWindow Placement.

(** C1: when the popup plus a margin on each side fits in the monitor in
    both dimensions, the point returned by either routine (pointer mode
    and rectangle mode) lies in the two intervals of the clamp step,
    [monitor.x + margin, monitor.x + monitor.width - width - margin] and
    [monitor.y + margin, monitor.y + monitor.height - height - margin],
    and the popup rectangle placed there is contained in the monitor
    rectangle.  The margin is a distance, hence not negative (the code
    uses 8). *)
Theorem placement_stays_inside_monitor (margin px py : Z)
    (area monitor_geo : Gdk.Rectangle) (width height : Z) (p : Z * Z) :
  0 <= margin ->
  width + 2 * margin <= Gdk.width monitor_geo ->
  height + 2 * margin <= Gdk.height monitor_geo ->
  p = place_near_pointer margin px py monitor_geo width height \/
  p = place_from_icon margin area monitor_geo width height ->
  within_clamp_bounds margin monitor_geo width height p /\
  inside_monitor monitor_geo width height p.
Proof.
  intros Hm Hw Hh Hp.
  assert (within_clamp_bounds margin monitor_geo width height p) as Hb.
  { destruct Hp as [-> | ->]; now apply clamp_within_bounds. }
  split; [exact Hb | now apply (bounds_inside margin)].
Qed.

Lemma placement_stays_inside_monitor_witness :
  let mon := {| Gdk.x := 0; Gdk.y := 0;
                Gdk.width := 1000; Gdk.height := 800 |} in
  let area := {| Gdk.x := 980; Gdk.y := 780;
                 Gdk.width := 20; Gdk.height := 20 |} in
  let p := place_from_icon 8 area mon 300 400 in
  0 <= 8 /\ 300 + 2 * 8 <= Gdk.width mon /\ 400 + 2 * 8 <= Gdk.height mon /\
  p = (692, 372) /\
  within_clamp_bounds 8 mon 300 400 p /\ inside_monitor mon 300 400 p.
Proof.
  intros mon area p.
  split; [lia|]. split; [simpl; lia|]. split; [simpl; lia|].
  split; [reflexivity|].
  apply (placement_stays_inside_monitor 8 0 0 area mon 300 400 p);
    [lia | simpl; lia | simpl; lia | right; reflexivity].
Defined.

(** C2 (as stated, refuted): on monitor {0,0,1000,800} with the pointer
    at (900,700), a 300x400 popup and margin 8, pointer mode does not
    return (624, 392). *)
Lemma pointer_example_is_not_624_392 :
  place_near_pointer 8 900 700
    {| Gdk.x := 0; Gdk.y := 0; Gdk.width := 1000; Gdk.height := 800 |}
    300 400 <> (624, 392).
Proof. vm_compute. discriminate. Qed.

(** C2 (amended): in that configuration the pointer's y, 700, exceeds the
    vertical midpoint 400, so the popup goes above the pointer: the raw
    target is (900-300+24, 700-400-8) = (624, 292), which the clamp to
    [8, 692] x [8, 392] keeps; [present_near_pointer] moves the window
    there. *)
Theorem pointer_example_is_624_292 :
  let mon := {| Gdk.x := 0; Gdk.y := 0;
                Gdk.width := 1000; Gdk.height := 800 |} in
  pointer_target 8 900 700 mon 300 400 = (624, 292) /\
  place_near_pointer 8 900 700 mon 300 400 = (624, 292) /\
  get_position
    (present_near_pointer (Some (single_monitor_display (900, 700) mon))
       (hidden_window (300, 400))) = (624, 292).
Proof. repeat split. Qed.

(** C3: before the clamp, rectangle mode centres the popup on the
    horizontal midpoint of the anchor (both halvings are floor
    divisions) and puts it above the anchor, unless that y is smaller
    than [monitor.y + margin], in which case, and only then, it puts it
    below the anchor.  On monitor {0,0,1000,40} with anchor
    {100,0,20,40}, a 200x300 popup and margin 8 the placement above
    would be at y = -308 < 8, so the target flips to y = 0+40+8 = 48. *)
Theorem icon_target_centres_and_flips (margin : Z)
    (area monitor_geo : Gdk.Rectangle) (width height : Z) :
  let above := Gdk.y area - height - margin in
  let below := Gdk.y area + Gdk.height area + margin in
  let t := icon_target margin area monitor_geo width height in
  t.1 = Gdk.x area + Gdk.width area / 2 - width / 2 /\
  (above < Gdk.y monitor_geo + margin /\ t.2 = below \/
   Gdk.y monitor_geo + margin <= above /\ t.2 = above) /\
  place_from_icon margin area monitor_geo width height =
    clamp margin monitor_geo width height t /\
  icon_target 8
    {| Gdk.x := 100; Gdk.y := 0; Gdk.width := 20; Gdk.height := 40 |}
    {| Gdk.x := 0; Gdk.y := 0; Gdk.width := 1000; Gdk.height := 40 |}
    200 300 = (10, 48).
Proof.
  intros above below t. subst t. unfold icon_target. simpl.
  split; [reflexivity|]. split; [|split; reflexivity].
  fold above below. destruct (Z.ltb_spec above (Gdk.y monitor_geo + margin));
    [left | right]; now split.
Qed.

(** C4: before the clamp, pointer mode sets x = px - width + 24, and
    sets y = py - height - margin (above) exactly when the pointer's y
    exceeds the vertical midpoint of the monitor,
    [monitor.y + monitor.height // 2], and y = py + margin (below)
    otherwise. *)
Theorem pointer_target_left_and_side (margin px py : Z)
    (monitor_geo : Gdk.Rectangle) (width height : Z) :
  let midpoint := Gdk.y monitor_geo + Gdk.height monitor_geo / 2 in
  let t := pointer_target margin px py monitor_geo width height in
  t.1 = px - width + 24 /\
  (midpoint < py /\ t.2 = py - height - margin \/
   py <= midpoint /\ t.2 = py + margin) /\
  place_near_pointer margin px py monitor_geo width height =
    clamp margin monitor_geo width height t.
Proof.
  intros midpoint t. subst t. unfold pointer_target. simpl.
  split; [reflexivity|]. split; [|reflexivity].
  fold midpoint. destruct (Z.gtb_spec py midpoint); [left | right];
    now split.
Qed.

(** C10: on an axis where the monitor is smaller than the popup plus two
    margins the bounds of the clamp are inverted, and the expression
    [max(min_bound, min(target, max_bound))] yields the lower bound,
    monitor origin + margin, whatever the anchor: both routines still
    return a point, pinned to the margin corner on that axis. *)
Theorem degenerate_monitor_pins_to_margin (a : Axis) (margin px py : Z)
    (area monitor_geo : Gdk.Rectangle) (width height : Z) :
  extent a monitor_geo
    < (match a with Horizontal => width | Vertical => height end)
      + 2 * margin ->
  origin a monitor_geo + extent a monitor_geo
    - (match a with Horizontal => width | Vertical => height end) - margin
    < origin a monitor_geo + margin /\
  coordinate a (place_near_pointer margin px py monitor_geo width height)
    = origin a monitor_geo + margin /\
  coordinate a (place_from_icon margin area monitor_geo width height)
    = origin a monitor_geo + margin.
Proof.
  intros H. split; [destruct a; simpl in *; lia|].
  split; now apply clamp_degenerate.
Qed.

Lemma degenerate_monitor_pins_to_margin_witness :
  let mon := {| Gdk.x := 0; Gdk.y := 0;
                Gdk.width := 1000; Gdk.height := 40 |} in
  let area := {| Gdk.x := 100; Gdk.y := 0;
                 Gdk.width := 20; Gdk.height := 40 |} in
  Gdk.height mon < 300 + 2 * 8 /\
  coordinate Vertical (place_near_pointer 8 500 20 mon 200 300) = 8 /\
  coordinate Vertical (place_from_icon 8 area mon 200 300) = 8.
Proof.
  intros mon area. split; [simpl; lia|].
  apply (degenerate_monitor_pins_to_margin Vertical 8 500 20 area mon
           200 300).
  simpl; lia.
Defined.

End PlacementClaims.

(** ** Rendering: proofs *)

Section RenderingFacts.

Import Py CodexBarTray Rendering.

Lemma result_is_true (r : result Z) (z : Z) :
  result_is r z = true -> r = Ok z.
Proof.
  destruct r as [z'|e]; simpl; [|discriminate].
  intros H. apply Z.eqb_eq in H. now subst.
Qed.

Lemma elem_of_percents (z : Z) : z ∈ percents <-> 0 <= z <= 100.
Proof. unfold percents. rewrite elem_of_seqZ. lia. Qed.

(** A property checked on each of the 101 percentages holds on the
    interval. *)
Lemma forall_percents (P : Z -> bool) :
  forallb P percents = true -> forall z, 0 <= z <= 100 -> P z = true.
Proof.
  intros H z Hz. rewrite forallb_forall in H. apply H.
  apply list_elem_of_In. now apply elem_of_percents.
Qed.

(** [round(remaining / 10)] is the half-even rounding of the exact
    quotient, for each remaining percentage. *)
Lemma filled_cells_exact (remaining : Z) :
  0 <= remaining <= 100 ->
  filled_cells remaining = Ok (round_half_even_div remaining 10).
Proof.
  intros H. apply result_is_true.
  apply (forall_percents
           (fun r => result_is (filled_cells r) (round_half_even_div r 10)));
    [now vm_compute | exact H].
Qed.

Lemma round_half_even_div_mono (d n1 n2 : Z) :
  0 < d -> n1 <= n2 ->
  round_half_even_div n1 d <= round_half_even_div n2 d.
Proof.
  intros Hd Hn. unfold round_half_even_div.
  pose proof (Z.div_mod n1 d ltac:(lia)) as E1.
  pose proof (Z.div_mod n2 d ltac:(lia)) as E2.
  pose proof (Z.mod_pos_bound n1 d Hd) as B1.
  pose proof (Z.mod_pos_bound n2 d Hd) as B2.
  pose proof (Z.div_le_mono n1 n2 d Hd Hn) as Hq.
  set (q1 := n1 / d) in *. set (q2 := n2 / d) in *.
  set (r1 := n1 mod d) in *. set (r2 := n2 mod d) in *.
  assert (q1 = q2 -> r1 <= r2) as Hr by nia.
  destruct (Z.compare_spec (2 * r1) d), (Z.compare_spec (2 * r2) d);
    destruct (Z.even q1) eqn:Ev1, (Z.even q2) eqn:Ev2;
    try lia;
    destruct (Z.eq_dec q1 q2) as [Heq|Hne];
    try (rewrite Heq in Ev1; congruence);
    try (specialize (Hr Heq); lia);
    try lia.
  all: assert (q1 + 1 = q2 \/ q1 + 1 < q2) as [Hs|Hs] by lia; try lia.
  all: rewrite <- Hs in Ev2; rewrite Z.even_add in Ev2; rewrite Ev1 in Ev2;
    simpl in Ev2; congruence.
Qed.

Lemma remaining_percent_range (used : num) (r : Z) :
  remaining_percent used = Ok r -> 0 <= r <= 100.
Proof.
  unfold remaining_percent. destruct (round (int_sub 100 used)); simpl;
    [|discriminate].
  intros [= <-]. rewrite py_max_is_Zmax, py_min_is_Zmin. lia.
Qed.

Lemma filled_cells_range (remaining : Z) :
  0 <= remaining <= 100 ->
  0 <= round_half_even_div remaining 10 <= 10.
Proof.
  intros H. split.
  - change 0 with (round_half_even_div 0 10).
    apply round_half_even_div_mono; lia.
  - change 10 with (round_half_even_div 100 10) at 2.
    apply round_half_even_div_mono; lia.
Qed.

Lemma remaining_percent_int (z : Z) :
  remaining_percent (NInt z) = Ok (Z.max 0 (Z.min 100 (100 - z))).
Proof.
  unfold remaining_percent. simpl.
  now rewrite py_max_is_Zmax, py_min_is_Zmin.
Qed.

Lemma length_usage_bar (filled : Z) :
  0 <= filled <= 10 -> length (usage_bar filled) = 10%nat.
Proof.
  intros H. unfold usage_bar, repeat_char.
  rewrite length_app, !length_replicate. lia.
Qed.

End RenderingFacts.

(** ** Binary64 arithmetic: proofs *)

Section Binary64Facts.

Import Binary64.

Lemma iter_pos_nat {A} (f : A -> A) (p : positive) (x : A) :
  SpecFloat.iter_pos f p x = Nat.iter (Pos.to_nat p) f x.
Proof.
  revert x. induction p as [p IH|p IH|]; intros x;
    cbn [SpecFloat.iter_pos].
  - rewrite !IH, Pos2Nat.inj_xI.
    replace (S (2 * Pos.to_nat p)) with (S (Pos.to_nat p + Pos.to_nat p))
      by lia.
    now rewrite Nat.iter_succ_r, Nat.iter_add.
  - rewrite !IH, Pos2Nat.inj_xO.
    replace (2 * Pos.to_nat p)%nat with (Pos.to_nat p + Pos.to_nat p)%nat
      by lia.
    now rewrite Nat.iter_add.
  - reflexivity.
Qed.

Lemma shr_1_spec (m : Z) (r s : bool) :
  0 <= m ->
  shr_1 {| shr_m := m; shr_r := r; shr_s := s |} =
    {| shr_m := m / 2; shr_r := Z.odd m; shr_s := r || s |}.
Proof.
  intros Hm. destruct m as [|p|p]; [reflexivity| |lia].
  destruct p as [p|p|]; simpl; f_equal.
  - rewrite Pos2Z.inj_xI. Z.to_euclidean_division_equations. lia.
  - rewrite Pos2Z.inj_xO. Z.to_euclidean_division_equations. lia.
Qed.

Lemma shifted_0 (M : Z) :
  0 <= M -> shifted M 0 {| shr_m := M; shr_r := false; shr_s := false |}.
Proof.
  intros H. exists 0. simpl. repeat split; try lia; try discriminate.
Qed.

Lemma sticky_step (k rho : Z) (r s : bool) :
  0 <= rho < 2 ^ k ->
  (r = true <-> 2 ^ k <= 2 * rho) ->
  (s = true <-> 0 < (if r then 2 * rho - 2 ^ k else 2 * rho)) ->
  (r || s = true <-> 0 < rho).
Proof.
  intros Hrho Hr Hs. destruct r; simpl.
  - split; [intros _|reflexivity].
    destruct Hr as [Hr _]. specialize (Hr eq_refl). lia.
  - rewrite Hs. lia.
Qed.

Lemma shifted_step (M k : Z) (R : shr_record) :
  0 <= k -> shifted M k R -> shifted M (k + 1) (shr_1 R).
Proof.
  intros Hk (rho & Hrho & HM & Hm & Hr & Hs).
  destruct R as [m r s]. cbn [shr_m shr_r shr_s] in *.
  rewrite shr_1_spec by exact Hm.
  pose proof (sticky_step k rho r s Hrho Hr Hs) as Hsticky.
  assert (2 ^ (k + 1) = 2 * 2 ^ k) as Hp by (rewrite Z.pow_add_r; lia).
  assert (0 < 2 ^ k) as Hpos by (apply Z.pow_pos_nonneg; lia).
  assert (m = 2 * (m / 2) + (if Z.odd m then 1 else 0)) as Hdm.
  { rewrite <- Zmod_odd. apply Z.div_mod. lia. }
  assert (0 <= m / 2) as Hq by (apply Z.div_pos; lia).
  exists ((if Z.odd m then 2 ^ k else 0) + rho).
  cbn [shr_m shr_r shr_s]. rewrite Hp.
  destruct (Z.odd m).
  - split; [lia|]. split; [nia|]. split; [exact Hq|].
    split; [split; [lia | reflexivity]|].
    rewrite Hsticky. lia.
  - split; [lia|]. split; [nia|]. split; [exact Hq|].
    split; [split; [discriminate | lia]|].
    rewrite Hsticky. lia.
Qed.

Lemma shifted_iter (M : Z) (n : nat) :
  0 <= M ->
  shifted M (Z.of_nat n)
    (Nat.iter n shr_1 {| shr_m := M; shr_r := false; shr_s := false |}).
Proof.
  intros HM. induction n as [|n IH].
  - now apply shifted_0.
  - rewrite Nat2Z.inj_succ, <- Z.add_1_r. simpl.
    apply shifted_step; [lia | exact IH].
Qed.

(** Rounding the shifted record is rounding the quotient half to even. *)
Lemma shifted_round (M k : Z) (R : shr_record) :
  0 <= k -> shifted M k R ->
  round_nearest_even (shr_m R) (loc_of_shr_record R)
    = Py.round_half_even_div M (2 ^ k).
Proof.
  intros Hk (rho & Hrho & HM & Hm & Hr & Hs).
  assert (0 < 2 ^ k) as Hp by (apply Z.pow_pos_nonneg; lia).
  unfold Py.round_half_even_div.
  assert (M / 2 ^ k = shr_m R) as ->.
  { symmetry. apply (Z.div_unique_pos _ _ _ rho); lia. }
  assert (M mod 2 ^ k = rho) as ->.
  { symmetry. apply (Z.mod_unique_pos _ _ (shr_m R)); lia. }
  destruct R as [m r s]. cbn [shr_m shr_r shr_s] in *.
  destruct r.
  - destruct Hr as [Hr _]. specialize (Hr eq_refl).
    destruct s; cbn [loc_of_shr_record round_nearest_even].
    + destruct Hs as [Hs _]. specialize (Hs eq_refl).
      assert ((2 * rho ?= 2 ^ k) = Gt) as -> by (apply Z.compare_gt_iff; lia).
      reflexivity.
    + assert (2 * rho = 2 ^ k) as Heq.
      { destruct (Z.eq_dec (2 * rho) (2 ^ k)) as [|Hne]; [assumption|].
        destruct Hs as [_ Hs]. assert (false = true) by (apply Hs; lia).
        discriminate. }
      rewrite Heq, Z.compare_refl. reflexivity.
  - assert (2 * rho < 2 ^ k) as Hlt.
    { destruct (Z.lt_ge_cases (2 * rho) (2 ^ k)) as [|Hge]; [assumption|].
      destruct Hr as [_ Hr]. specialize (Hr Hge). discriminate. }
    assert ((2 * rho ?= 2 ^ k) = Lt) as -> by (apply Z.compare_lt_iff; lia).
    destruct s; reflexivity.
Qed.

Lemma fexp64 (x : Z) : fexp prec emax x = Z.max (x - 53) (-1074).
Proof. reflexivity. Qed.

Lemma digits2_pos_spec (M : positive) :
  2 ^ (Zpos (digits2_pos M) - 1) <= Zpos M < 2 ^ Zpos (digits2_pos M).
Proof.
  induction M as [M IH|M IH|]; cbn [digits2_pos].
  - rewrite Pos2Z.inj_succ, Pos2Z.inj_xI.
    replace (Z.succ (Zpos (digits2_pos M)) - 1)
      with (Z.succ (Zpos (digits2_pos M) - 1)) by lia.
    rewrite !Z.pow_succ_r by lia.
    set (a := 2 ^ (Zpos (digits2_pos M) - 1)) in *.
    set (b := 2 ^ Zpos (digits2_pos M)) in *. lia.
  - rewrite Pos2Z.inj_succ. change (Zpos M~0) with (2 * Zpos M).
    replace (Z.succ (Zpos (digits2_pos M)) - 1)
      with (Z.succ (Zpos (digits2_pos M) - 1)) by lia.
    rewrite !Z.pow_succ_r by lia.
    set (a := 2 ^ (Zpos (digits2_pos M) - 1)) in *.
    set (b := 2 ^ Zpos (digits2_pos M)) in *. lia.
  - simpl. lia.
Qed.

Lemma Zdigits2_log2 (m : Z) : 0 < m -> Zdigits2 m = Z.log2 m + 1.
Proof.
  intros Hm. destruct m as [|p|p]; try lia. cbn [Zdigits2].
  pose proof (digits2_pos_spec p) as H.
  assert (Z.log2 (Zpos p) = Zpos (digits2_pos p) - 1) as ->; [|lia].
  apply Z.log2_unique; [lia|].
  replace (Z.succ (Zpos (digits2_pos p) - 1)) with (Zpos (digits2_pos p))
    by lia.
  exact H.
Qed.

(** One normalising shift of an exact mantissa: nothing to do, or a
    right shift by [n] bits that records the round and sticky bits. *)
Lemma shr_fexp_exact (m e : Z) :
  0 < m ->
  let n := Z.max (Z.log2 m + 1 + e - 53) (-1074) - e in
  (n <= 0 /\
   shr_fexp prec emax m e loc_Exact =
     ({| shr_m := m; shr_r := false; shr_s := false |}, e)) \/
  (0 < n /\ exists R,
     shr_fexp prec emax m e loc_Exact = (R, e + n) /\ shifted m n R).
Proof.
  intros Hm n. unfold shr_fexp.
  rewrite fexp64, Zdigits2_log2 by exact Hm. fold n.
  cbn [shr_record_of_loc]. unfold shr.
  destruct n as [|p|p] eqn:En.
  - left. split; [lia | reflexivity].
  - right. split; [lia|]. eexists. split; [reflexivity|].
    rewrite iter_pos_nat, <- (positive_nat_Z p).
    apply shifted_iter. lia.
  - left. split; [lia | reflexivity].
Qed.


(** *** Half-even rounding of quotients *)

Lemma round_half_even_div_exact (q d : Z) :
  0 < d -> Py.round_half_even_div (q * d) d = q.
Proof.
  intros Hd. unfold Py.round_half_even_div.
  rewrite Z.div_mul, Z.mod_mul by lia.
  assert ((2 * 0 ?= d) = Lt) as -> by (apply Z.compare_lt_iff; lia).
  reflexivity.
Qed.

Lemma round_half_even_div_scale (n d c : Z) :
  0 < d -> 0 < c ->
  Py.round_half_even_div (n * c) (d * c) = Py.round_half_even_div n d.
Proof.
  intros Hd Hc. unfold Py.round_half_even_div.
  rewrite Z.div_mul_cancel_r, Z.mul_mod_distr_r by lia.
  replace (2 * (n mod d * c)) with (2 * (n mod d) * c) by lia.
  now rewrite <- (Zmult_compare_compat_r _ _ c) by lia.
Qed.

Lemma round_half_even_div_bounds (n d : Z) :
  0 < d -> n / d <= Py.round_half_even_div n d <= n / d + 1.
Proof.
  intros Hd. unfold Py.round_half_even_div.
  destruct (2 * (n mod d) ?= d); [destruct (Z.even (n / d))| |]; lia.
Qed.

(** *** Rounding to 53 bits *)

Lemma rne_small (x : Z) : x < 2 ^ 53 -> rne x = x.
Proof.
  intros H. unfold rne.
  destruct (Z.leb_spec (Z.log2 x - 52) 0) as [|Hn]; [reflexivity|].
  exfalso. destruct (Z.le_gt_cases x 0) as [Hx|Hx].
  - rewrite (Z.log2_nonpos x Hx) in Hn. lia.
  - apply Z.log2_lt_pow2 in H; lia.
Qed.

Lemma rne_exact (a t : Z) :
  0 < a < 2 ^ 53 -> 0 <= t -> rne (a * 2 ^ t) = a * 2 ^ t.
Proof.
  intros Ha Ht. unfold rne. rewrite Z.log2_mul_pow2 by lia.
  assert (Z.log2 a < 53) as Hl by (apply Z.log2_lt_pow2; lia).
  destruct (Z.leb_spec (t + Z.log2 a - 52) 0) as [|Hn]; [reflexivity|].
  set (n := t + Z.log2 a - 52) in *.
  assert (2 ^ t = 2 ^ (t - n) * 2 ^ n) as ->
    by (rewrite <- Z.pow_add_r by lia; f_equal; lia).
  rewrite Z.mul_assoc.
  rewrite round_half_even_div_exact by (apply Z.pow_pos_nonneg; lia).
  reflexivity.
Qed.

Lemma rne_shift (m t : Z) :
  2 ^ 53 <= m -> 0 <= t ->
  rne (m * 2 ^ t)
    = Py.round_half_even_div m (2 ^ (Z.log2 m - 52))
      * 2 ^ (Z.log2 m - 52 + t).
Proof.
  intros Hm Ht. unfold rne. rewrite Z.log2_mul_pow2 by lia.
  assert (53 <= Z.log2 m) as Hl by (apply Z.log2_le_pow2; lia).
  destruct (Z.leb_spec (t + Z.log2 m - 52) 0) as [|Hn]; [lia|].
  replace (t + Z.log2 m - 52) with (Z.log2 m - 52 + t) by lia.
  rewrite (Z.pow_add_r 2 (Z.log2 m - 52) t) by lia.
  rewrite round_half_even_div_scale by (apply Z.pow_pos_nonneg; lia).
  reflexivity.
Qed.

(** A rounded value stays in the binade of its argument. *)
Lemma rne_binade (x : Z) :
  0 < x -> 2 ^ Z.log2 x <= rne x <= 2 ^ (Z.log2 x + 1).
Proof.
  intros Hx. pose proof (Z.log2_spec x Hx) as Hs.
  replace (Z.succ (Z.log2 x)) with (Z.log2 x + 1) in Hs by lia.
  unfold rne. destruct (Z.leb_spec (Z.log2 x - 52) 0) as [|Hn]; [lia|].
  set (n := Z.log2 x - 52) in *.
  assert (0 < 2 ^ n) as Hp by (apply Z.pow_pos_nonneg; lia).
  pose proof (round_half_even_div_bounds x (2 ^ n) Hp) as Hb.
  assert (2 ^ Z.log2 x = 2 ^ 52 * 2 ^ n) as E1
    by (rewrite <- Z.pow_add_r by lia; f_equal; lia).
  assert (2 ^ (Z.log2 x + 1) = 2 ^ 53 * 2 ^ n) as E2
    by (rewrite <- Z.pow_add_r by lia; f_equal; lia).
  rewrite E1, E2 in *.
  assert (2 ^ 52 <= x / 2 ^ n) by (apply Z.div_le_lower_bound; lia).
  assert (x / 2 ^ n < 2 ^ 53) by (apply Z.div_lt_upper_bound; lia).
  split; apply Z.mul_le_mono_nonneg_r; lia.
Qed.

Lemma rne_mono (x y : Z) : 0 <= x <= y -> rne x <= rne y.
Proof.
  intros [Hx Hxy].
  destruct (Z.eq_dec x 0) as [->|Hx0].
  { rewrite (rne_small 0) by lia.
    destruct (Z.eq_dec y 0) as [->|Hy0]; [now rewrite rne_small by lia|].
    pose proof (rne_binade y ltac:(lia)) as [Hb _].
    pose proof (Z.pow_pos_nonneg 2 (Z.log2 y) ltac:(lia) (Z.log2_nonneg y)).
    lia. }
  pose proof (Z.log2_le_mono x y Hxy) as Hl.
  pose proof (Z.log2_nonneg x) as Hlx.
  destruct (Z.eq_dec (Z.log2 x) (Z.log2 y)) as [Heq|Hne].
  - unfold rne. rewrite Heq.
    destruct (Z.leb_spec (Z.log2 y - 52) 0) as [|Hn]; [lia|].
    apply Z.mul_le_mono_nonneg_r; [apply Z.pow_nonneg; lia|].
    apply round_half_even_div_mono; [apply Z.pow_pos_nonneg; lia | lia].
  - pose proof (rne_binade x ltac:(lia)) as [_ Hbx].
    pose proof (rne_binade y ltac:(lia)) as [Hby _].
    assert (2 ^ (Z.log2 x + 1) <= 2 ^ Z.log2 y)
      by (apply Z.pow_le_mono_r; lia).
    lia.
Qed.


(** *** The rounding step of the binary64 operations *)

(** Rounding an exact positive mantissa that needs no left shift. *)
Lemma binary_round_aux_scaled (m e : Z) :
  0 < m -> -1074 <= e -> Z.log2 m + e <= 900 ->
  0 <= Z.max (Z.log2 m + 1 + e - 53) (-1074) - e ->
  exists m' e',
    binary_round_aux prec emax false m e loc_Exact = S754_finite false m' e' /\
    -1074 <= e' /\
    Zpos m' * 2 ^ (e' + 1074) = rne (m * 2 ^ (e + 1074)).
Proof.
  intros Hm He Hbig Hn. unfold binary_round_aux.
  pose proof (Z.log2_spec m Hm) as Hlog.
  pose proof (Z.log2_nonneg m) as Hlog0.
  destruct (shr_fexp_exact m e Hm) as [[Hn0 ->] | [Hn1 (R & -> & HR)]].
  - (* the mantissa already has at most 53 bits *)
    cbn [shr_m loc_of_shr_record round_nearest_even].
    destruct (shr_fexp_exact m e Hm) as [[_ ->] | [Hn1 _]]; [|lia].
    cbn [shr_m]. destruct m as [|p|p]; try lia.
    assert ((e <=? emax - prec) = true) as ->
      by (apply Z.leb_le; change (emax - prec) with 971; lia).
    exists p, e. split; [reflexivity|]. split; [exact He|].
    symmetry. apply rne_exact; [|lia].
    split; [lia|]. apply Z.log2_lt_pow2; lia.
  - (* a right shift by [n] bits, then rounding *)
    set (n := Z.max (Z.log2 m + 1 + e - 53) (-1074) - e) in *.
    assert (n = Z.log2 m - 52) as En by lia.
    rewrite (shifted_round m n R ltac:(lia) HR).
    set (m2 := Py.round_half_even_div m (2 ^ n)).
    assert (0 < 2 ^ n) as Hp by (apply Z.pow_pos_nonneg; lia).
    pose proof (round_half_even_div_bounds m (2 ^ n) Hp) as Hb.
    fold m2 in Hb.
    assert (2 ^ Z.log2 m = 2 ^ 52 * 2 ^ n) as E1
      by (rewrite <- Z.pow_add_r by lia; f_equal; lia).
    assert (2 ^ Z.succ (Z.log2 m) = 2 ^ 53 * 2 ^ n) as E2
      by (rewrite <- Z.pow_add_r by lia; f_equal; lia).
    rewrite E1, E2 in Hlog.
    assert (2 ^ 52 <= m / 2 ^ n) by (apply Z.div_le_lower_bound; lia).
    assert (m / 2 ^ n < 2 ^ 53) by (apply Z.div_lt_upper_bound; lia).
    assert (2 ^ 52 <= m2 <= 2 ^ 53) as Hm2 by lia.
    assert (rne (m * 2 ^ (e + 1074)) = m2 * 2 ^ (e + n + 1074)) as Hrne.
    { rewrite rne_shift; [|apply Z.log2_le_pow2; lia|lia].
      rewrite <- En. fold m2. f_equal. f_equal. lia. }
    assert (52 <= Z.log2 m2 <= 53) as Hl2.
    { split; [apply Z.log2_le_pow2; lia|].
      destruct (Z.eq_dec m2 (2 ^ 53)) as [->|]; [now rewrite Z.log2_pow2|].
      assert (Z.log2 m2 < 53) by (apply Z.log2_lt_pow2; lia). lia. }
    destruct (shr_fexp_exact m2 (e + n) ltac:(lia))
      as [[Hk0 ->] | [Hk1 (R2 & -> & HR2)]].
    + cbn [shr_m]. destruct m2 as [|p|p] eqn:Em2; try lia.
      assert ((e + n <=? emax - prec) = true) as ->
        by (apply Z.leb_le; change (emax - prec) with 971; lia).
      exists p, (e + n). split; [reflexivity|]. split; [lia|].
      now rewrite Hrne.
    + set (k := Z.max (Z.log2 m2 + 1 + (e + n) - 53) (-1074) - (e + n)) in *.
      assert (k = 1) as Ek by lia.
      assert (m2 = 2 ^ 53) as E53.
      { assert (2 ^ 53 <= m2) by (apply Z.log2_le_pow2; lia). lia. }
      destruct HR2 as (rho & Hrho & HM2 & Hq & _).
      rewrite Ek in *. change (2 ^ 1) with 2 in *.
      assert (shr_m R2 = 2 ^ 52) as Eq.
      { rewrite E53 in HM2. change (2 ^ 53) with (2 ^ 52 * 2) in HM2. lia. }
      rewrite Eq. change (2 ^ 52) with (Zpos (2 ^ 52)%positive).
      assert ((e + n + 1 <=? emax - prec) = true) as ->
        by (apply Z.leb_le; change (emax - prec) with 971; lia).
      exists (2 ^ 52)%positive, (e + n + 1).
      split; [reflexivity|]. split; [lia|].
      rewrite Hrne, E53.
      replace (e + n + 1 + 1074) with (1 + (e + n + 1074)) by lia.
      rewrite (Z.pow_add_r 2 1) by lia.
      change (Zpos (2 ^ 52)%positive) with (2 ^ 52).
      change (2 ^ 53) with (2 ^ 52 * 2 ^ 1). lia.
Qed.

Lemma pos_iter_xO (m k : positive) :
  Zpos (Pos.iter xO m k) = Zpos m * 2 ^ Zpos k.
Proof.
  induction k as [|k IH] using Pos.peano_ind.
  - simpl. lia.
  - rewrite Pos.iter_succ, Pos2Z.inj_succ, Z.pow_succ_r by lia.
    change (Zpos (Pos.iter xO m k)~0) with (2 * Zpos (Pos.iter xO m k)).
    rewrite IH. lia.
Qed.

Lemma shl_align_spec (m : positive) (e e' : Z) :
  (e' < e /\
   exists mz, shl_align m e e' = (mz, e') /\ Zpos mz = Zpos m * 2 ^ (e - e'))
  \/ (e <= e' /\ shl_align m e e' = (m, e)).
Proof.
  unfold shl_align. destruct (e' - e) as [|d|d] eqn:Ed.
  - right. split; [lia | reflexivity].
  - right. split; [lia | reflexivity].
  - left. split; [lia|]. eexists. split; [reflexivity|].
    rewrite pos_iter_xO. f_equal. f_equal. lia.
Qed.

(** Rounding a positive integer multiple of a power of two: the result
    is finite and its value is the 53-bit rounding of the argument. *)
Lemma binary_round_scaled (m : positive) (e : Z) :
  -1074 <= e -> Z.log2 (Zpos m) + e <= 900 ->
  exists m' e',
    binary_round prec emax false m e = S754_finite false m' e' /\
    -1074 <= e' /\
    Zpos m' * 2 ^ (e' + 1074) = rne (Zpos m * 2 ^ (e + 1074)).
Proof.
  intros He Hbig. unfold binary_round.
  change (Zpos (digits2_pos m)) with (Zdigits2 (Zpos m)).
  rewrite Zdigits2_log2, fexp64 by lia.
  set (fe := Z.max (Z.log2 (Zpos m) + 1 + e - 53) (-1074)).
  destruct (shl_align_spec m e fe) as [[Hlt (mz & -> & Emz)] | [Hle ->]].
  - assert (Z.log2 (Zpos mz) = e - fe + Z.log2 (Zpos m)) as El
      by (rewrite Emz; apply Z.log2_mul_pow2; lia).
    destruct (binary_round_aux_scaled (Zpos mz) fe) as (m' & e' & H1 & H2 & H3);
      try lia.
    exists m', e'. split; [exact H1|]. split; [exact H2|].
    rewrite H3, Emz, <- Z.mul_assoc, <- Z.pow_add_r by lia.
    f_equal. f_equal. f_equal. lia.
  - destruct (binary_round_aux_scaled (Zpos m) e) as (m' & e' & H1 & H2 & H3);
      try lia.
    now exists m', e'.
Qed.


(** *** [round] and [100 - used] on binary64 values *)

Lemma round_spec_float_scaled (m : positive) (e : Z) :
  -1074 <= e ->
  Py.round_spec_float (S754_finite false m e)
    = Py.Ok (Py.round_half_even_div (Zpos m * 2 ^ (e + 1074)) (2 ^ 1074)).
Proof.
  intros He. unfold Py.round_spec_float. f_equal.
  destruct e as [|p|k].
  - rewrite round_half_even_div_exact by (apply Z.pow_pos_nonneg; lia).
    change (2 ^ 0) with 1. lia.
  - replace (Zpos p + 1074) with (1074 + Zpos p) by lia.
    rewrite (Z.pow_add_r 2 1074) by lia.
    replace (Zpos m * (2 ^ 1074 * 2 ^ Zpos p))
      with (Zpos m * 2 ^ Zpos p * 2 ^ 1074) by lia.
    now rewrite round_half_even_div_exact by (apply Z.pow_pos_nonneg; lia).
  - assert (2 ^ 1074 = 2 ^ Zpos k * 2 ^ (Zneg k + 1074)) as E.
    { rewrite <- Z.pow_add_r by lia. f_equal. lia. }
    rewrite E.
    now rewrite round_half_even_div_scale by (apply Z.pow_pos_nonneg; lia).
Qed.

Lemma remaining_of_scaled_mono (x y : Z) :
  x <= y <= 100 * 2 ^ 1074 ->
  remaining_of_scaled y <= remaining_of_scaled x.
Proof.
  intros H. unfold remaining_of_scaled.
  apply round_half_even_div_mono; [apply Z.pow_pos_nonneg; lia|].
  apply rne_mono. lia.
Qed.

Lemma remaining_of_scaled_int (z : Z) :
  0 <= z <= 100 -> remaining_of_scaled (z * 2 ^ 1074) = 100 - z.
Proof.
  intros Hz. unfold remaining_of_scaled.
  replace (100 * 2 ^ 1074 - z * 2 ^ 1074) with ((100 - z) * 2 ^ 1074) by lia.
  destruct (Z.eq_dec z 100) as [->|Hne].
  - change ((100 - 100) * 2 ^ 1074) with 0. rewrite rne_small by lia.
    reflexivity.
  - rewrite rne_exact by lia.
    apply round_half_even_div_exact. apply Z.pow_pos_nonneg; lia.
Qed.


Import Py Rendering.

(** The binary64 values between 0 and 100: a zero, or a positive
    canonical mantissa with an exponent between -1074 and -46. *)
Lemma float_in_percent_range (f : float) :
  in_percent_range (NFloat f) = true ->
  (exists s, Prim2SF f = S754_zero s) \/
  (exists m e,
     Prim2SF f = S754_finite false m e /\
     -1074 <= e <= -46 /\
     Zpos m * 2 ^ (e + 1074) <= 100 * 2 ^ 1074 /\
     e = Z.max (Z.log2 (Zpos m) + 1 + e - 53) (-1074)).
Proof.
  unfold in_percent_range, le. pose proof (Prim2SF_valid f) as Hv.
  destruct (Prim2SF f) as [s|s| |s m e]; cbn [int_cmp_spec_float].
  - intros _. left. now exists s.
  - destruct s; discriminate.
  - discriminate.
  - intros H. right. exists m, e.
    cbn [valid_binary] in Hv. unfold bounded, canonical_mantissa in Hv.
    apply andb_prop in Hv as [Hc _]. apply Z.eqb_eq in Hc.
    change (Zpos (digits2_pos m)) with (Zdigits2 (Zpos m)) in Hc.
    rewrite Zdigits2_log2, fexp64 in Hc by lia.
    pose proof (Z.log2_spec (Zpos m) ltac:(lia)) as Hlog.
    pose proof (Z.log2_nonneg (Zpos m)) as Hlog0.
    apply andb_prop in H as [H0 H100].
    assert (s = false) as ->.
    { destruct s; [|reflexivity]. exfalso. destruct e as [|p|k].
      - simpl in H0. discriminate.
      - assert ((0 ?= Zneg m * 2 ^ Zpos p) = Gt) as E.
        { apply Z.compare_gt_iff.
          pose proof (Z.pow_pos_nonneg 2 (Zpos p)). lia. }
        rewrite E in H0. discriminate.
      - simpl in H0. discriminate. }
    destruct e as [|p|k].
    + exfalso. assert (Z.log2 (Zpos m) = 52) as El by lia.
      rewrite El in Hlog. change (2 ^ 0) with 1 in H100.
      destruct (Z.compare_spec 100 (Zpos m * 1)); try discriminate; lia.
    + exfalso. assert (Z.log2 (Zpos m) = 52) as El by lia.
      rewrite El in Hlog.
      pose proof (Z.pow_pos_nonneg 2 (Zpos p) ltac:(lia) ltac:(lia)).
      destruct (Z.compare_spec 100 (Zpos m * 2 ^ Zpos p));
        try discriminate; nia.
    + assert (Zpos m <= 100 * 2 ^ Zpos k) as Hle.
      { destruct (Z.compare_spec (100 * 2 ^ Zpos k) (Zpos m));
          try discriminate; lia. }
      assert (-1074 <= Zneg k <= -46) as He.
      { split; [lia|].
        destruct (Z.eq_dec (Zneg k) (-1074)) as [->|Hne]; [lia|].
        assert (Z.log2 (Zpos m) = 52) as El by lia.
        rewrite El in Hlog.
        assert (2 ^ 52 < 2 ^ 7 * 2 ^ Zpos k) as Hlt
          by (change (2 ^ 7) with 128; lia).
        rewrite <- Z.pow_add_r in Hlt by lia.
        apply Z.pow_lt_mono_r_iff in Hlt; lia. }
      split; [reflexivity|]. split; [exact He|]. split; [|now symmetry].
      assert (2 ^ 1074 = 2 ^ Zpos k * 2 ^ (Zneg k + 1074)) as ->.
      { rewrite <- Z.pow_add_r by lia. f_equal. lia. }
      pose proof (Z.pow_pos_nonneg 2 (Zneg k + 1074) ltac:(lia) ltac:(lia)).
      nia.
Qed.

Lemma scaled_in_percent_range (used : num) :
  in_percent_range used = true ->
  0 <= scaled_num used <= 100 * 2 ^ 1074.
Proof.
  intros H. destruct used as [z|f].
  - unfold in_percent_range, le in H. apply andb_prop in H as [H0 H1].
    apply Z.leb_le in H0, H1. unfold scaled_num.
    pose proof (Z.pow_pos_nonneg 2 1074 ltac:(lia) ltac:(lia)). nia.
  - unfold scaled_num.
    pose proof (Z.pow_pos_nonneg 2 1074 ltac:(lia) ltac:(lia)).
    destruct (float_in_percent_range f H)
      as [[s ->] | (m & e & -> & He & Hle & _)]; cbn [scaled]; [lia|].
    pose proof (Z.pow_pos_nonneg 2 (e + 1074) ltac:(lia) ltac:(lia)). nia.
Qed.


Lemma hundred_as_float :
  Prim2SF (float_of_small_int 100) = S754_finite false 7036874417766400 (-46).
Proof. now vm_compute. Qed.

(** [round] of a zero or of a positive binary64, from its exact value. *)
Lemma round_nonneg_finite (x : spec_float) :
  nonneg_finite x ->
  round_spec_float x = Ok (round_half_even_div (scaled x) (2 ^ 1074)).
Proof.
  destruct x as [s|s| |[|] m e]; cbn [nonneg_finite]; try contradiction.
  - intros _. reflexivity.
  - intros He. now apply round_spec_float_scaled.
Qed.

(** Comparison of an integer with a zero or a positive binary64, from its
    exact value. *)
Lemma int_cmp_nonneg_finite (z : Z) (x : spec_float) :
  nonneg_finite x ->
  int_cmp_spec_float z x = Some (z * 2 ^ 1074 ?= scaled x).
Proof.
  assert (0 < 2 ^ 1074) as HP by (apply Z.pow_pos_nonneg; lia).
  destruct x as [s|s| |[|] m e]; cbn [nonneg_finite]; try contradiction.
  - intros _. cbn [int_cmp_spec_float scaled]. f_equal.
    change 0 with (0 * 2 ^ 1074) at 2.
    apply Zmult_compare_compat_r. lia.
  - intros He. cbn [int_cmp_spec_float scaled]. destruct e as [|p|k].
    + f_equal. change (2 ^ 0) with 1. rewrite Z.mul_1_r.
      apply Zmult_compare_compat_r. lia.
    + f_equal. rewrite (Z.pow_add_r 2 (Zpos p)), Z.mul_assoc by lia.
      apply Zmult_compare_compat_r. lia.
    + f_equal.
      assert (2 ^ 1074 = 2 ^ Zpos k * 2 ^ (Zneg k + 1074)) as ->
        by (rewrite <- Z.pow_add_r by lia; f_equal; lia).
      rewrite Z.mul_assoc. apply Zmult_compare_compat_r.
      assert (0 < 2 ^ (Zneg k + 1074)) by (apply Z.pow_pos_nonneg; lia).
      lia.
Qed.

(** [100.0 - x] for a positive binary64 [x] not above 100: the exact
    difference, rounded to 53 bits. *)
Lemma hundred_minus_positive (m : positive) (e : Z) :
  -1074 <= e <= -46 ->
  Zpos m * 2 ^ (e + 1074) <= 100 * 2 ^ 1074 ->
  let x :=
    SF64sub (S754_finite false 7036874417766400 (-46))
      (S754_finite false m e) in
  nonneg_finite x /\
  scaled x = rne (100 * 2 ^ 1074 - Zpos m * 2 ^ (e + 1074)).
Proof.
  intros He Hle. unfold SF64sub, SFsub. rewrite Z.min_r by lia.
  assert (exists a : positive,
            fst (shl_align 7036874417766400 (-46) e) = a /\
            Zpos a * 2 ^ (e + 1074) = 100 * 2 ^ 1074) as (a & -> & Ea).
  { destruct (shl_align_spec 7036874417766400 (-46) e)
      as [[Hlt (mz & -> & Emz)] | [Hge ->]]; cbn [fst].
    - exists mz. split; [reflexivity|].
      rewrite Emz, <- Z.mul_assoc, <- Z.pow_add_r by lia.
      replace (-46 - e + (e + 1074)) with 1028 by lia.
      change 7036874417766400 with (100 * 2 ^ 46).
      rewrite <- Z.mul_assoc, <- Z.pow_add_r by lia. reflexivity.
    - exists 7036874417766400%positive. split; [reflexivity|].
      assert (e = -46) as -> by lia.
      change 7036874417766400 with (100 * 2 ^ 46).
      rewrite <- Z.mul_assoc, <- Z.pow_add_r by lia. reflexivity. }
  assert (fst (shl_align m e e) = m) as ->.
  { destruct (shl_align_spec m e e) as [[Hlt _] | [_ ->]]; [lia|reflexivity]. }
  cbn [cond_Zopp].
  assert (0 < 2 ^ (e + 1074)) as Hp by (apply Z.pow_pos_nonneg; lia).
  assert (Zpos m <= Zpos a) as Hma by nia.
  assert ((Zpos a - Zpos m) * 2 ^ (e + 1074)
          = 100 * 2 ^ 1074 - Zpos m * 2 ^ (e + 1074)) as Ed by lia.
  rewrite <- Ed.
  destruct (Zpos a - Zpos m) as [|d|d] eqn:D; [| |lia].
  - cbn [binary_normalize nonneg_finite scaled]. rewrite Z.mul_0_l.
    rewrite rne_small by lia. now split.
  - cbn [binary_normalize].
    assert (Z.log2 (Zpos d) + e <= 900) as Hbig.
    { assert (Zpos d * 2 ^ (e + 1074) < 2 ^ 7 * 2 ^ 1074) as Hlt
        by (change (2 ^ 7) with 128; lia).
      assert (2 ^ 1074 = 2 ^ (-e) * 2 ^ (e + 1074)) as E
        by (rewrite <- Z.pow_add_r by lia; f_equal; lia).
      rewrite E, Z.mul_assoc in Hlt.
      apply Z.mul_lt_mono_pos_r in Hlt; [|exact Hp].
      rewrite <- Z.pow_add_r in Hlt by lia.
      apply Z.log2_lt_pow2 in Hlt; lia. }
    destruct (binary_round_scaled d e ltac:(lia) Hbig)
      as (m' & e' & -> & He' & Ev).
    cbn [nonneg_finite scaled]. now split.
Qed.

(** [100 - f] for a binary64 [f] between 0 and 100. *)
Lemma hundred_minus_float (f : float) :
  in_percent_range (NFloat f) = true ->
  let x := Prim2SF (float_of_small_int 100 - f) in
  nonneg_finite x /\
  scaled x = rne (100 * 2 ^ 1074 - scaled (Prim2SF f)).
Proof.
  intros H. cbn zeta. rewrite sub_spec, hundred_as_float.
  destruct (float_in_percent_range f H)
    as [[s ->] | (m & e & -> & He & Hle & _)].
  - cbn [SF64sub SFsub nonneg_finite scaled]. split; [lia|].
    rewrite Z.sub_0_r. change 7036874417766400 with (100 * 2 ^ 46).
    rewrite <- Z.mul_assoc, <- Z.pow_add_r by lia.
    change (46 + (-46 + 1074)) with 1074.
    symmetry. apply rne_exact; lia.
  - cbn [scaled]. now apply hundred_minus_positive.
Qed.

(** The remaining percentage of a value between 0 and 100 is a function
    of its exact value. *)
Lemma round_hundred_minus_percent (used : num) :
  in_percent_range used = true ->
  round (int_sub 100 used) = Ok (remaining_of_scaled (scaled_num used)).
Proof.
  intros H. destruct used as [z|f].
  - unfold in_percent_range, le in H. apply andb_prop in H as [H0 H1].
    apply Z.leb_le in H0, H1. cbn [int_sub round scaled_num].
    now rewrite remaining_of_scaled_int by lia.
  - cbn [int_sub round scaled_num].
    destruct (hundred_minus_float f H) as [Hx Ex].
    rewrite (round_nonneg_finite _ Hx), Ex. reflexivity.
Qed.

(** [<=] between two values of the range agrees with their exact
    values. *)
Lemma le_scaled_num (u v : num) :
  in_percent_range u = true -> in_percent_range v = true ->
  le u v = true -> scaled_num u <= scaled_num v.
Proof.
  intros Hu Hv Hle.
  pose proof (scaled_in_percent_range u Hu) as Bu.
  pose proof (scaled_in_percent_range v Hv) as Bv.
  pose proof (Z.pow_pos_nonneg 2 1074 ltac:(lia) ltac:(lia)) as HP.
  destruct u as [x|f], v as [y|g]; cbn [le scaled_num] in *.
  - apply Z.leb_le in Hle. nia.
  - destruct (float_in_percent_range g Hv)
      as [[s Eg] | (m & e & Eg & He & _ & _)]; rewrite Eg in *;
      cbn [int_cmp_spec_float scaled] in *.
    + destruct (Z.compare_spec x 0); try discriminate; nia.
    + destruct e as [|p|k]; try lia.
      assert (x * 2 ^ Zpos k <= Zpos m) as Hxm
        by (destruct (Z.compare_spec (x * 2 ^ Zpos k) (Zpos m));
            try discriminate; lia).
      assert (2 ^ 1074 = 2 ^ Zpos k * 2 ^ (Zneg k + 1074)) as ->
        by (rewrite <- Z.pow_add_r by lia; f_equal; lia).
      pose proof (Z.pow_pos_nonneg 2 (Zneg k + 1074) ltac:(lia) ltac:(lia)).
      nia.
  - destruct (float_in_percent_range f Hu)
      as [[s Ef] | (m & e & Ef & He & _ & _)]; rewrite Ef in *;
      cbn [int_cmp_spec_float scaled] in *.
    + destruct (Z.compare_spec y 0); try discriminate; nia.
    + destruct e as [|p|k]; try lia.
      assert (Zpos m <= y * 2 ^ Zpos k) as Hxm
        by (destruct (Z.compare_spec (y * 2 ^ Zpos k) (Zpos m));
            try discriminate; lia).
      assert (2 ^ 1074 = 2 ^ Zpos k * 2 ^ (Zneg k + 1074)) as ->
        by (rewrite <- Z.pow_add_r by lia; f_equal; lia).
      pose proof (Z.pow_pos_nonneg 2 (Zneg k + 1074) ltac:(lia) ltac:(lia)).
      nia.
  - rewrite leb_spec in Hle. unfold SFleb in Hle.
    destruct (float_in_percent_range f Hu)
      as [[s Ef] | (m & e & Ef & He & _ & Hc)];
      destruct (float_in_percent_range g Hv)
        as [[s' Eg] | (m' & e' & Eg & He' & _ & Hc')];
      rewrite Ef, Eg in *; cbn [SFcompare scaled] in *;
      try lia; try discriminate.
    pose proof (Z.log2_spec (Zpos m) ltac:(lia)) as Hlog.
    pose proof (Z.log2_spec (Zpos m') ltac:(lia)) as Hlog'.
    destruct (Z.compare_spec e e') as [->|Hlt|Hgt]; try discriminate.
    + assert (Zpos m <= Zpos m') as Hmm.
      { rewrite Pos.compare_cont_spec in Hle. cbn [Pos.switch_Eq] in Hle.
        destruct (Pos.compare_spec m m'); try discriminate; lia. }
      apply Z.mul_le_mono_nonneg_r; [apply Z.pow_nonneg; lia | exact Hmm].
    + assert (Z.log2 (Zpos m') = 52) as El' by lia.
      assert (Z.log2 (Zpos m) <= 52) as El by lia.
      rewrite El' in Hlog'.
      assert (Zpos m < 2 ^ 53) as Hm53.
      { eapply Z.lt_le_trans; [apply Hlog|].
        apply Z.pow_le_mono_r; lia. }
      assert (2 ^ (e' + 1074) = 2 ^ (e' - e) * 2 ^ (e + 1074)) as ->
        by (rewrite <- Z.pow_add_r by lia; f_equal; lia).
      rewrite Z.mul_assoc.
      apply Z.mul_le_mono_nonneg_r; [apply Z.pow_nonneg; lia|].
      assert (2 ^ 1 <= 2 ^ (e' - e)) as Hpw by (apply Z.pow_le_mono_r; lia).
      change (2 ^ 1) with 2 in Hpw. change (2 ^ 53) with (2 ^ 52 * 2) in Hm53.
      nia.
Qed.

End Binary64Facts.

(** ** The usage bar: proofs *)

Section BarFacts.

Import Py CodexBarTray Rendering Binary64.

Lemma remaining_of_scaled_range (x : Z) :
  0 <= x <= 100 * 2 ^ 1074 -> 0 <= remaining_of_scaled x <= 100.
Proof.
  intros H.
  assert (remaining_of_scaled (0 * 2 ^ 1074) = 100) as E0
    by (rewrite remaining_of_scaled_int; lia).
  assert (remaining_of_scaled (100 * 2 ^ 1074) = 0) as E100
    by (rewrite remaining_of_scaled_int; lia).
  pose proof (remaining_of_scaled_mono (0 * 2 ^ 1074) x ltac:(lia)).
  pose proof (remaining_of_scaled_mono x (100 * 2 ^ 1074) ltac:(lia)).
  lia.
Qed.

Lemma remaining_percent_in_range (used : num) :
  in_percent_range used = true ->
  remaining_percent used = Ok (remaining_of_scaled (scaled_num used)).
Proof.
  intros H. unfold remaining_percent.
  rewrite (round_hundred_minus_percent used H). cbn [mbind result_bind].
  pose proof (remaining_of_scaled_range _ (scaled_in_percent_range used H)).
  rewrite py_max_is_Zmax, py_min_is_Zmin. f_equal. lia.
Qed.

Lemma filled_of_in_range (used : num) :
  in_percent_range used = true ->
  filled_of used
    = Ok (round_half_even_div (remaining_of_scaled (scaled_num used)) 10).
Proof.
  intros H. unfold filled_of. rewrite (remaining_percent_in_range used H).
  cbn [mbind result_bind]. apply filled_cells_exact.
  apply remaining_of_scaled_range. now apply scaled_in_percent_range.
Qed.

(** On the integers the formula of the specification gives the same
    count. *)
Lemma formula_filled_int (z : Z) :
  0 <= z <= 100 ->
  formula_filled 10 (NInt z) = Ok (round_half_even_div (100 - z) 10).
Proof.
  intros H. apply result_is_true.
  apply (forall_percents
           (fun z => result_is (formula_filled 10 (NInt z))
                       (round_half_even_div (100 - z) 10)));
    [now vm_compute | exact H].
Qed.

(** In the order of the specification (clamp, then round) the remaining
    percentage is the same. *)
Lemma spec_remaining_in_range (used : num) :
  in_percent_range used = true ->
  spec_remaining used = Ok (remaining_of_scaled (scaled_num used)).
Proof.
  intros H. pose proof (scaled_in_percent_range used H) as Hs.
  assert (0 < 2 ^ 1074) as HP by (apply Z.pow_pos_nonneg; lia).
  unfold spec_remaining, clamp_num. destruct used as [z|f].
  - unfold in_percent_range, le in H. apply andb_prop in H as [H0 H1].
    apply Z.leb_le in H0, H1.
    cbn [int_sub scaled_num]. rewrite remaining_of_scaled_int by lia.
    unfold min_num, max_num, lt.
    destruct (Z.ltb_spec (100 - z) 100), (Z.ltb_spec 0 (100 - z));
      try destruct (Z.ltb_spec 0 100); cbn [round]; f_equal; lia.
  - cbn [int_sub scaled_num] in *.
    destruct (hundred_minus_float f H) as [Hx Ex].
    set (y := (float_of_small_int 100 - f)%float) in *.
    set (v := rne (100 * 2 ^ 1074 - scaled (Prim2SF f))) in *.
    assert (0 <= v <= 100 * 2 ^ 1074) as Hv.
    { unfold v. split.
      - rewrite <- (rne_small 0) at 1 by lia. apply rne_mono. lia.
      - rewrite <- (rne_exact 100 1074) at 2 by lia. apply rne_mono. lia. }
    unfold remaining_of_scaled. fold v.
    unfold min_num, max_num, lt.
    rewrite (int_cmp_nonneg_finite 100 _ Hx), Ex.
    destruct (Z.compare_spec (100 * 2 ^ 1074) v) as [E|Hlt|Hgt]; try lia.
    + destruct (Z.ltb_spec 0 100); [|lia]. cbn [round]. rewrite <- E.
      now rewrite round_half_even_div_exact.
    + rewrite (int_cmp_nonneg_finite 0 _ Hx), Ex. rewrite Z.mul_0_l.
      destruct (Z.compare_spec 0 v) as [E|Hlt0|Hgt0]; try lia.
      * cbn [round]. rewrite <- E. reflexivity.
      * cbn [round]. rewrite (round_nonneg_finite _ Hx), Ex. reflexivity.
Qed.

(** In the order and with the formula of the specification the count of
    cells of a remaining percentage is the same. *)
Lemma spec_filled_exact (remaining : Z) :
  0 <= remaining <= 100 ->
  spec_filled 10 remaining = Ok (round_half_even_div remaining 10).
Proof.
  intros H. apply result_is_true.
  apply (forall_percents
           (fun r => result_is (spec_filled 10 r) (round_half_even_div r 10)));
    [now vm_compute | exact H].
Qed.

End BarFacts.

Section BarClaims.

Import Py CodexBarTray Rendering Binary64.

(** C5 (as stated, refuted): for usedPercent = 54.75 the renderer fills 4
    cells (100 - 54.75 = 45.25 rounds to 45, and 45 / 10 = 4.5 rounds to
    the even 4), while round((100 - 54.75) / 100 * 10) = round(4.525) is
    5. *)
Lemma filled_differs_from_formula_at_54_75 :
  in_percent_range (NFloat 54.75) = true /\
  remaining_percent (NFloat 54.75) = Ok 45 /\
  filled_of (NFloat 54.75) = Ok 4 /\
  formula_filled 10 (NFloat 54.75) = Ok 5 /\
  filled_of (NFloat 54.75) <> formula_filled 10 (NFloat 54.75).
Proof. repeat split; now vm_compute. Qed.

(** C5 (amended): for every numeric usedPercent between 0 and 100 (an
    integer or a binary64), [round(100 - usedPercent)] is an integer
    between 0 and 100, so that the clamp leaves it as the remaining
    percentage, and clamping before rounding gives the same value; the
    count of filled cells is [round(remaining / 10)], rounding half to
    even, it lies between 0 and 10 and equals
    [round(clamp(remaining / 100 * 10, 0, 10))]; the bar is that many
    filled glyphs followed by the complement to 10 of empty glyphs, and
    the rendered text is the line with this bar (followed by the reset
    suffix when there is one).  When usedPercent is an integer the count
    equals round((100 - usedPercent) / 100 * 10).  The count does not
    increase when usedPercent increases. *)
Theorem bar_cells_of_percent (used : num) :
  in_percent_range used = true ->
  exists remaining filled,
    round (int_sub 100 used) = Ok remaining /\
    0 <= remaining <= 100 /\
    remaining_percent used = Ok remaining /\
    spec_remaining used = Ok remaining /\
    filled_cells remaining = Ok filled /\
    spec_filled 10 remaining = Ok filled /\
    filled = round_half_even_div remaining 10 /\
    0 <= filled <= 10 /\
    usage_bar filled
      = replicate (Z.to_nat filled) FULL_BLOCK
        ++ replicate (Z.to_nat (10 - filled)) MIDDLE_DOT /\
    (forall title window,
       as_number (dict_get window (lit "usedPercent")) = Some used ->
       exists tail,
         _window_text title (Dict window)
           = Ok (window_line title remaining (usage_bar filled) ++ tail)) /\
    (forall z, used = NInt z -> formula_filled 10 used = Ok filled) /\
    (forall used',
       in_percent_range used' = true -> le used used' = true ->
       exists filled', filled_of used' = Ok filled' /\ filled' <= filled).
Proof.
  intros H.
  pose proof (scaled_in_percent_range used H) as Hs.
  pose proof (remaining_of_scaled_range _ Hs) as Hr.
  set (remaining := remaining_of_scaled (scaled_num used)) in *.
  exists remaining, (round_half_even_div remaining 10).
  split; [now apply round_hundred_minus_percent|].
  split; [exact Hr|].
  split; [now apply remaining_percent_in_range|].
  split; [now apply spec_remaining_in_range|].
  split; [now apply filled_cells_exact|].
  split; [now apply spec_filled_exact|].
  split; [reflexivity|].
  split; [now apply filled_cells_range|].
  split; [reflexivity|].
  split; [|split].
  - intros title window Hu. unfold _window_text, get.
    cbn [mbind result_bind]. rewrite Hu.
    rewrite (remaining_percent_in_range used H). fold remaining.
    cbn [mbind result_bind].
    rewrite (filled_cells_exact remaining Hr). cbn [mbind result_bind].
    destruct (as_nonempty_str _) as [reset_desc|].
    + eexists. reflexivity.
    + exists []. now rewrite app_nil_r.
  - intros z ->. unfold in_percent_range, le in H.
    apply andb_prop in H as [H0 H1]. apply Z.leb_le in H0, H1.
    rewrite formula_filled_int by lia. f_equal. f_equal.
    unfold remaining. cbn [scaled_num].
    now rewrite remaining_of_scaled_int by lia.
  - intros used' H' Hle. eexists.
    split; [now apply filled_of_in_range|].
    apply round_half_even_div_mono; [lia|].
    apply remaining_of_scaled_mono.
    pose proof (scaled_in_percent_range used' H').
    pose proof (le_scaled_num used used' H H' Hle). lia.
Qed.

Lemma bar_cells_of_percent_witness :
  in_percent_range (NFloat 12.5) = true /\
  exists remaining filled,
    round (int_sub 100 (NFloat 12.5)) = Ok remaining /\
    0 <= remaining <= 100 /\
    remaining_percent (NFloat 12.5) = Ok remaining /\
    spec_remaining (NFloat 12.5) = Ok remaining /\
    filled_cells remaining = Ok filled /\
    spec_filled 10 remaining = Ok filled /\
    filled = round_half_even_div remaining 10 /\
    0 <= filled <= 10 /\
    usage_bar filled
      = replicate (Z.to_nat filled) FULL_BLOCK
        ++ replicate (Z.to_nat (10 - filled)) MIDDLE_DOT /\
    (forall title window,
       as_number (dict_get window (lit "usedPercent")) = Some (NFloat 12.5) ->
       exists tail,
         _window_text title (Dict window)
           = Ok (window_line title remaining (usage_bar filled) ++ tail)) /\
    (forall z, NFloat 12.5 = NInt z ->
               formula_filled 10 (NFloat 12.5) = Ok filled) /\
    (forall used',
       in_percent_range used' = true -> le (NFloat 12.5) used' = true ->
       exists filled', filled_of used' = Ok filled' /\ filled' <= filled).
Proof.
  assert (in_percent_range (NFloat 12.5) = true) as H
    by (vm_compute; reflexivity).
  split; [exact H|].
  apply (bar_cells_of_percent (NFloat 12.5)). exact H.
Defined.

End BarClaims.

Section RenderingClaims.

Import Py CodexBarTray Rendering.

(** C6 (as stated, refuted): the JSON value [true] is not a number, yet
    a window whose [usedPercent] is [true] is not rendered as
    "Session: --": [True] passes [isinstance(used, (int, float))] and
    counts as 1, so the text shows 99% with a full bar and the dashboard
    row is a box with a progress bar. *)
Lemma boolean_percent_does_not_render_dashes :
  _window_text (lit "Session") (window_of (Bool true) None)
    = Ok (lit "Session   99%  " ++ replicate 10 FULL_BLOCK) /\
  _window_text (lit "Session") (window_of (Bool true) None)
    <> Ok (lit "Session: --") /\
  DashboardWindow._window_row (lit "Session") (window_of (Bool true) None)
    <> Ok (DashboardWindow.Label (lit "Session: --")).
Proof.
  split; [now vm_compute|].
  split; intros H; vm_compute in H; discriminate.
Qed.

(** C6 (amended): when the field [usedPercent] of a window is absent, or
    holds a value that is neither an [int], a [float] nor a [bool] (the
    test [isinstance(used, (int, float))] fails: null, a string, a list,
    a dictionary), the text renderer returns exactly "{title}: --" and
    the dashboard row is exactly the label "{title}: --", for every
    title and whatever the other fields of the window are.  A boolean
    passes the test and is rendered as the number 1 or 0. *)
Theorem window_without_number_renders_dashes (title : str)
    (window : gmap str val) :
  window !! lit "usedPercent" = None \/
  (exists v, window !! lit "usedPercent" = Some v /\ as_number v = None) ->
  _window_text title (Dict window) = Ok (title ++ lit ": --") /\
  DashboardWindow._window_row title (Dict window)
    = Ok (DashboardWindow.Label (title ++ lit ": --")).
Proof.
  intros H.
  assert (as_number (dict_get window (lit "usedPercent")) = None) as E.
  { unfold dict_get. destruct H as [-> | (v & -> & Hv)]; [reflexivity|].
    exact Hv. }
  unfold _window_text, DashboardWindow._window_row. simpl.
  now rewrite E.
Qed.

Lemma window_without_number_renders_dashes_witness :
  let window : gmap str val :=
    {[ lit "resetDescription" := Str (lit "in 2h") ]} in
  (window !! lit "usedPercent" = None \/
   (exists v, window !! lit "usedPercent" = Some v /\ as_number v = None)) /\
  _window_text (lit "Weekly") (Dict window) = Ok (lit "Weekly: --") /\
  DashboardWindow._window_row (lit "Weekly") (Dict window)
    = Ok (DashboardWindow.Label (lit "Weekly: --")).
Proof.
  intros window.
  assert (window !! lit "usedPercent" = None) as E by reflexivity.
  split; [now left|].
  apply (window_without_number_renders_dashes (lit "Weekly") window).
  now left.
Defined.

(** A boolean passes the [isinstance] test: [True] is rendered as 1. *)
Lemma boolean_percent_counts_as_integer :
  _window_text (lit "Session") (window_of (Bool true) None)
    = Ok (lit "Session   99%  " ++ replicate 10 FULL_BLOCK).
Proof. now vm_compute. Qed.

(** C7 (as stated, refuted): with usedPercent = 37 and resetDescription
    = "in 2h" the rendered text does not end with " resets in 2h". *)
Lemma reset_suffix_is_not_the_word_resets :
  exists s,
    _window_text (lit "Session")
      (window_of (Int 37) (Some (Str (lit "in 2h")))) = Ok s /\
    ~ (lit " resets in 2h" `suffix_of` s).
Proof.
  eexists. split; [vm_compute; reflexivity|].
  intros [k Hk]. apply (f_equal (fun l => rev l)) in Hk.
  rewrite rev_app_distr in Hk. vm_compute in Hk. discriminate.
Qed.

(** C7 (amended): for a window with a numeric [usedPercent] and a
    non-empty string [resetDescription], the text returned is the line
    with the bar followed by two spaces, the arrow U+21BA, a space and
    the description; when the rounding of [100 - usedPercent] raises
    (infinite or NaN percentage) nothing is returned.  With
    usedPercent = 37 and resetDescription = "in 2h" the text is
    "Session   63%  " followed by 6 filled and 4 empty cells and the
    suffix made of two spaces, the arrow, a space and "in 2h". *)
Theorem window_text_appends_reset_description (title : str)
    (window : gmap str val) (used : num) (reset_desc : str) :
  as_number (dict_get window (lit "usedPercent")) = Some used ->
  as_nonempty_str (dict_get window (lit "resetDescription"))
    = Some reset_desc ->
  match remaining_percent used with
  | Ok remaining =>
      _window_text title (Dict window) =
        Ok (window_line title remaining
              (usage_bar (round_half_even_div remaining 10))
            ++ lit "  " ++ [ANTICLOCKWISE_ARROW; SPACE] ++ reset_desc)
  | Raise e => _window_text title (Dict window) = Raise e
  end /\
  _window_text (lit "Session")
    (window_of (Int 37) (Some (Str (lit "in 2h")))) =
    Ok (lit "Session   63%  "
        ++ replicate 6 FULL_BLOCK ++ replicate 4 MIDDLE_DOT
        ++ lit "  " ++ [ANTICLOCKWISE_ARROW; SPACE] ++ lit "in 2h").
Proof.
  intros Hu Hr. split; [|now vm_compute].
  unfold _window_text. simpl. rewrite Hu.
  destruct (remaining_percent used) as [remaining|e] eqn:E; simpl;
    [|reflexivity].
  rewrite (filled_cells_exact remaining (remaining_percent_range _ _ E)).
  simpl. now rewrite Hr.
Qed.

Lemma window_text_appends_reset_description_witness :
  let window : gmap str val :=
    <[lit "usedPercent" := Float 12.5]>
      {[ lit "resetDescription" := Str (lit "tomorrow") ]} in
  as_number (dict_get window (lit "usedPercent")) = Some (NFloat 12.5) /\
  as_nonempty_str (dict_get window (lit "resetDescription"))
    = Some (lit "tomorrow") /\
  remaining_percent (NFloat 12.5) = Ok 88 /\
  _window_text (lit "Weekly") (Dict window) =
    Ok (window_line (lit "Weekly") 88 (usage_bar 9)
        ++ lit "  " ++ [ANTICLOCKWISE_ARROW; SPACE] ++ lit "tomorrow").
Proof.
  intros window.
  assert (as_number (dict_get window (lit "usedPercent"))
          = Some (NFloat 12.5)) as Hu by reflexivity.
  assert (as_nonempty_str (dict_get window (lit "resetDescription"))
          = Some (lit "tomorrow")) as Hr by reflexivity.
  assert (remaining_percent (NFloat 12.5) = Ok 88) as E
    by (vm_compute; reflexivity).
  split; [exact Hu|]. split; [exact Hr|]. split; [exact E|].
  pose proof (window_text_appends_reset_description (lit "Weekly") window
                (NFloat 12.5) (lit "tomorrow") Hu Hr) as [H _].
  rewrite E in H. exact H.
Defined.

End RenderingClaims.

Section ProviderClaims.

Import Py CodexBarTray Rendering.

Variable repr_other : val -> str.
Variable format_1f : num -> result str.

(** C8: for a provider record whose [error] is a dictionary with a
    string [message], rendering stops at the error.  The menu block is
    the title item, the item "  Error: {message}" (indented by two
    spaces) and the closing separator; the dashboard card is the title
    label and the label "Error: {message}".  Neither contains a usage
    window, the credits or the account email, and neither depends on
    any other field of the record: the fields [usage] and [credits] are
    not read. *)
Theorem error_record_renders_only_the_error (payload : gmap str val)
    (error : gmap str val) (message : str) (menu : list MenuItem) :
  payload !! lit "error" = Some (Dict error) ->
  error !! lit "message" = Some (Str message) ->
  let name :=
    _provider_title
      (str_ repr_other
         (default (Str (lit "unknown")) (payload !! lit "provider"))) in
  _append_provider_block repr_other format_1f payload menu =
    (Ok tt,
     menu ++ [InfoItem (lit "<b>" ++ name ++ lit "</b>") true;
              InfoItem (lit "  Error: " ++ message) false;
              SeparatorMenuItem]) /\
  DashboardWindow._provider_card repr_other format_1f payload =
    Ok (DashboardWindow.Frame
          (DashboardWindow.Box
             [DashboardWindow.MarkupLabel
                (lit "<span weight='bold'>" ++ name ++ lit "</span>");
              DashboardWindow.Label (lit "Error: " ++ message)])) /\
  (forall usage credits,
     _append_provider_block repr_other format_1f
       (<[lit "usage" := usage]> (<[lit "credits" := credits]> payload))
       menu
     = _append_provider_block repr_other format_1f payload menu /\
     DashboardWindow._provider_card repr_other format_1f
       (<[lit "usage" := usage]> (<[lit "credits" := credits]> payload))
     = DashboardWindow._provider_card repr_other format_1f payload).
Proof.
  intros He Hm name.
  assert (forall p : gmap str val,
            p !! lit "error" = Some (Dict error) ->
            _append_provider_block repr_other format_1f p menu =
              (Ok tt,
               menu ++ [InfoItem
                          (lit "<b>"
                             ++ _provider_title
                                  (str_ repr_other
                                     (default (Str (lit "unknown"))
                                        (p !! lit "provider")))
                             ++ lit "</b>") true;
                        InfoItem (lit "  Error: " ++ message) false;
                        SeparatorMenuItem])) as Hblock.
  { intros p Hp. unfold _append_provider_block, dict_get.
    rewrite Hp. cbn [default from_option id as_dict].
    rewrite Hm. cbn [default from_option id str_].
    unfold mbind, menu_bind, _append_info, _append_separator.
    now rewrite <- !app_assoc. }
  assert (forall p : gmap str val,
            p !! lit "error" = Some (Dict error) ->
            DashboardWindow._provider_card repr_other format_1f p =
              Ok (DashboardWindow.Frame
                    (DashboardWindow.Box
                       [DashboardWindow.MarkupLabel
                          (lit "<span weight='bold'>"
                             ++ _provider_title
                                  (str_ repr_other
                                     (default (Str (lit "unknown"))
                                        (p !! lit "provider")))
                             ++ lit "</span>");
                        DashboardWindow.Label (lit "Error: " ++ message)])))
    as Hcard.
  { intros p Hp. unfold DashboardWindow._provider_card, dict_get.
    rewrite Hp. cbn [default from_option id as_dict].
    now rewrite Hm. }
  split; [now apply Hblock|]. split; [now apply Hcard|].
  intros usage credits.
  set (p' := <[lit "usage" := usage]> (<[lit "credits" := credits]> payload)).
  assert (p' !! lit "error" = Some (Dict error)) as He'.
  { unfold p'. now rewrite !lookup_insert_ne by discriminate. }
  assert (p' !! lit "provider" = payload !! lit "provider") as Hp'.
  { unfold p'. now rewrite !lookup_insert_ne by discriminate. }
  rewrite (Hblock p' He'), (Hblock payload He).
  rewrite (Hcard p' He'), (Hcard payload He).
  now rewrite Hp'.
Qed.

End ProviderClaims.

Section ProviderWitness.

Import Py CodexBarTray Rendering.

Lemma error_record_renders_only_the_error_witness :
  let error : gmap str val := {[ lit "message" := Str (lit "no token") ]} in
  let payload : gmap str val :=
    <[lit "provider" := Str (lit "claude")]>
      (<[lit "error" := Dict error]>
         {[ lit "usage" := Dict {[ lit "primary" := Int 3 ]} ]}) in
  payload !! lit "error" = Some (Dict error) /\
  error !! lit "message" = Some (Str (lit "no token")) /\
  _append_provider_block (fun _ => []) (fun _ => Ok []) payload [] =
    (Ok tt,
     [InfoItem (lit "<b>Claude</b>") true;
      InfoItem (lit "  Error: no token") false;
      SeparatorMenuItem]) /\
  DashboardWindow._provider_card (fun _ => []) (fun _ => Ok []) payload =
    Ok (DashboardWindow.Frame
          (DashboardWindow.Box
             [DashboardWindow.MarkupLabel
                (lit "<span weight='bold'>Claude</span>");
              DashboardWindow.Label (lit "Error: no token")])).
Proof.
  intros error payload.
  assert (payload !! lit "error" = Some (Dict error)) as He by reflexivity.
  assert (error !! lit "message" = Some (Str (lit "no token"))) as Hm
    by reflexivity.
  split; [exact He|]. split; [exact Hm|].
  destruct (error_record_renders_only_the_error (fun _ => [])
              (fun _ => Ok []) payload error (lit "no token") [] He Hm)
    as (Hblock & Hcard & _).
  split; [exact Hblock | exact Hcard].
Defined.

End ProviderWitness.

Section TotalityClaims.

Import Py CodexBarTray Rendering.

(** C9 (the code falls short of it): the text renderer is not total on
    numeric percentages.  For a window whose [usedPercent] is the float
    infinity (what [json.loads] makes of [1e999] or [Infinity]),
    [round(100 - used)] raises [OverflowError]; for a NaN it raises
    [ValueError].  The dashboard row, which clamps before it rounds,
    renders both windows. *)
Theorem window_text_raises_on_non_finite_percent (title : str)
    (reset_desc : option val) :
  _window_text title (window_of (Float infinity) reset_desc)
    = Raise OverflowError /\
  _window_text title (window_of (Float nan) reset_desc)
    = Raise ValueError /\
  DashboardWindow._window_row title (window_of (Float infinity) None)
    = Ok (DashboardWindow.Box
            [DashboardWindow.Box
               [DashboardWindow.Label title;
                DashboardWindow.Label (lit "0% left")];
             DashboardWindow.ProgressBar 0]) /\
  DashboardWindow._window_row title (window_of (Float nan) None)
    = Ok (DashboardWindow.Box
            [DashboardWindow.Box
               [DashboardWindow.Label title;
                DashboardWindow.Label (lit "100% left")];
             DashboardWindow.ProgressBar 1]).
Proof.
  repeat split; try (destruct reset_desc); now vm_compute.
Qed.

(** On integers (and booleans) the text renderer always returns. *)
Lemma window_text_returns_on_integers (title : str)
    (window : gmap str val) (z : Z) :
  as_number (dict_get window (lit "usedPercent")) = Some (NInt z) ->
  exists s, _window_text title (Dict window) = Ok s.
Proof.
  intros Hu. unfold _window_text, get.
  cbn [mbind result_bind]. rewrite Hu.
  rewrite remaining_percent_int. cbn [mbind result_bind].
  rewrite filled_cells_exact by lia. cbn [mbind result_bind].
  destruct (as_nonempty_str _); eauto.
Qed.

End TotalityClaims.

(** * Further properties of the code *)

(** ** Placement: further properties *)

Section PlacementMore.

Import DashboardWindow Placement Geometry.

(** X1: placement follows the monitor.  When the monitor, the pointer
    and the icon are all moved by the same offset, the point chosen by
    either routine moves by that offset. *)
Theorem placement_translation (margin px py dx dy : Z)
    (area monitor_geo : Gdk.Rectangle) (width height : Z) :
  place_near_pointer margin (px + dx) (py + dy)
    (translate dx dy monitor_geo) width height
  = ((place_near_pointer margin px py monitor_geo width height).1 + dx,
     (place_near_pointer margin px py monitor_geo width height).2 + dy) /\
  place_from_icon margin (translate dx dy area)
    (translate dx dy monitor_geo) width height
  = ((place_from_icon margin area monitor_geo width height).1 + dx,
     (place_from_icon margin area monitor_geo width height).2 + dy).
Proof.
  unfold place_near_pointer, place_from_icon, pointer_target, icon_target.
  rewrite !clamp_unfold. cbn [translate Gdk.x Gdk.y Gdk.width Gdk.height fst snd].
  split.
  - destruct (Z.gtb_spec (py + dy)
                (Gdk.y monitor_geo + dy + Gdk.height monitor_geo / 2)),
             (Z.gtb_spec py (Gdk.y monitor_geo + Gdk.height monitor_geo / 2));
      try lia; f_equal; lia.
  - destruct (Z.ltb_spec (Gdk.y area + dy - height - margin)
                (Gdk.y monitor_geo + dy + margin)),
             (Z.ltb_spec (Gdk.y area - height - margin)
                (Gdk.y monitor_geo + margin));
      try lia; f_equal; lia.
Qed.

(** X2: a target that already lies in the two clamp intervals is used as
    it is, in both routines. *)
Theorem target_in_bounds_is_kept (margin px py : Z)
    (area monitor_geo : Gdk.Rectangle) (width height : Z) :
  (within_clamp_bounds margin monitor_geo width height
     (pointer_target margin px py monitor_geo width height) ->
   place_near_pointer margin px py monitor_geo width height
   = pointer_target margin px py monitor_geo width height) /\
  (within_clamp_bounds margin monitor_geo width height
     (icon_target margin area monitor_geo width height) ->
   place_from_icon margin area monitor_geo width height
   = icon_target margin area monitor_geo width height).
Proof.
  unfold place_near_pointer, place_from_icon, within_clamp_bounds.
  split; intros H.
  - destruct (pointer_target _ _ _ _ _ _) as [tx ty].
    rewrite clamp_unfold. simpl in H. f_equal; lia.
  - destruct (icon_target _ _ _ _ _) as [tx ty].
    rewrite clamp_unfold. simpl in H. f_equal; lia.
Qed.

Lemma target_in_bounds_is_kept_witness :
  let mon := {| Gdk.x := 0; Gdk.y := 0;
                Gdk.width := 1920; Gdk.height := 1080 |} in
  let area := {| Gdk.x := 900; Gdk.y := 1050;
                 Gdk.width := 24; Gdk.height := 24 |} in
  within_clamp_bounds 8 mon 430 560 (pointer_target 8 900 700 mon 430 560) /\
  place_near_pointer 8 900 700 mon 430 560 = (494, 132) /\
  within_clamp_bounds 8 mon 430 560 (icon_target 8 area mon 430 560) /\
  place_from_icon 8 area mon 430 560 = (697, 482).
Proof.
  intros mon area.
  destruct (target_in_bounds_is_kept 8 900 700 area mon 430 560) as [Hp Hi].
  assert (within_clamp_bounds 8 mon 430 560
            (pointer_target 8 900 700 mon 430 560)) as H1
    by (change (pointer_target 8 900 700 mon 430 560) with (494, 132);
        unfold within_clamp_bounds; simpl; lia).
  assert (within_clamp_bounds 8 mon 430 560
            (icon_target 8 area mon 430 560)) as H2
    by (change (icon_target 8 area mon 430 560) with (697, 482);
        unfold within_clamp_bounds; simpl; lia).
  split; [exact H1|]. split; [exact (Hp H1)|].
  split; [exact H2 | exact (Hi H2)].
Defined.

(** X3: without a display, a seat, a pointer or a monitor under the
    pointer, [present_near_pointer] shows and presents the window where it
    is: neither its position nor its size changes. *)
Theorem present_without_pointer_monitor (display : option Gdk.Display)
    (self : Window) :
  pointer_monitor display = None ->
  present_near_pointer display self
  = {| visible := true; get_size := get_size self;
       get_position := get_position self; presented := true |}.
Proof.
  unfold pointer_monitor, present_near_pointer.
  destruct display as [d|]; [|reflexivity]. cbn.
  destruct (Gdk.get_default_seat d) as [seat|]; [|reflexivity]. cbn.
  destruct (Gdk.get_pointer seat) as [[px py]|]; [|reflexivity]. cbn.
  destruct (Gdk.get_monitor_at_point d px py); [discriminate | reflexivity].
Qed.

Lemma present_without_pointer_monitor_witness :
  let display :=
    Some {| Gdk.get_default_seat := Some {| Gdk.get_pointer := None |};
            Gdk.get_monitor_at_point := fun _ _ => None |} in
  pointer_monitor display = None /\
  present_near_pointer display (hidden_window (430, 560))
  = {| visible := true; get_size := (430, 560);
       get_position := (0, 0); presented := true |}.
Proof.
  intros display.
  assert (pointer_monitor display = None) as H by reflexivity.
  split; [exact H|].
  exact (present_without_pointer_monitor display (hidden_window (430, 560)) H).
Defined.

(** X4: when there is no display or no monitor at the corner of the tray
    icon, [present_from_icon_geometry] does exactly what
    [present_near_pointer] does. *)
Theorem icon_without_monitor_uses_pointer (display : option Gdk.Display)
    (area : Gdk.Rectangle) (self : Window) :
  icon_monitor display area = None ->
  present_from_icon_geometry display area self
  = present_near_pointer display self.
Proof.
  intros H.
  assert (present_near_pointer display (show_all self)
          = present_near_pointer display self) as E by reflexivity.
  unfold present_from_icon_geometry.
  destruct display as [d|]; [|exact E].
  unfold icon_monitor in H. cbn in H.
  destruct (Gdk.get_monitor_at_point d (Gdk.x area) (Gdk.y area));
    [discriminate | exact E].
Qed.

Lemma icon_without_monitor_uses_pointer_witness :
  let mon := {| Gdk.x := 0; Gdk.y := 0;
                Gdk.width := 1000; Gdk.height := 800 |} in
  let display :=
    Some {| Gdk.get_default_seat :=
              Some {| Gdk.get_pointer := Some (900, 700) |};
            Gdk.get_monitor_at_point :=
              fun x _ => if x <? 1000 then Some mon else None |} in
  let area := {| Gdk.x := 1200; Gdk.y := 0;
                 Gdk.width := 24; Gdk.height := 24 |} in
  icon_monitor display area = None /\
  get_position
    (present_from_icon_geometry display area (hidden_window (300, 400)))
  = (624, 292).
Proof.
  intros mon display area.
  assert (icon_monitor display area = None) as H by reflexivity.
  split; [exact H|].
  rewrite (icon_without_monitor_uses_pointer display area
             (hidden_window (300, 400)) H).
  reflexivity.
Defined.

(** X5: presenting never resizes the window, and presenting twice in the
    same surroundings leaves the window where the first call put it. *)
Theorem presenting_is_idempotent (display : option Gdk.Display)
    (area : Gdk.Rectangle) (self : Window) :
  get_size (present_near_pointer display self) = get_size self /\
  get_size (present_from_icon_geometry display area self) = get_size self /\
  present_near_pointer display (present_near_pointer display self)
  = present_near_pointer display self /\
  present_from_icon_geometry display area
    (present_from_icon_geometry display area self)
  = present_from_icon_geometry display area self.
Proof.
  assert (forall w, get_size (present_near_pointer display w) = get_size w)
    as Hs.
  { intros w. unfold present_near_pointer.
    destruct display as [d|]; [|reflexivity].
    destruct (Gdk.get_default_seat d) as [seat|]; [|reflexivity].
    destruct (Gdk.get_pointer seat) as [[px py]|]; [|reflexivity].
    destruct (Gdk.get_monitor_at_point d px py); [|reflexivity].
    now destruct (popup_size (show_all w)). }
  assert (forall w, present_near_pointer display (present_near_pointer display w)
                    = present_near_pointer display w) as Hi.
  { intros w. unfold present_near_pointer.
    destruct display as [d|]; [|reflexivity].
    destruct (Gdk.get_default_seat d) as [seat|]; [|reflexivity].
    destruct (Gdk.get_pointer seat) as [[px py]|]; [|reflexivity].
    destruct (Gdk.get_monitor_at_point d px py); [|reflexivity].
    unfold popup_size, show_all, present, move. cbn.
    now destruct (get_size w). }
  split; [apply Hs|]. split; [|split; [apply Hi|]].
  - unfold present_from_icon_geometry.
    destruct display as [d|]; [|apply (Hs (show_all self))].
    destruct (Gdk.get_monitor_at_point d (Gdk.x area) (Gdk.y area));
      [|apply (Hs (show_all self))].
    now destruct (popup_size (show_all self)).
  - unfold present_from_icon_geometry.
    destruct display as [d|].
    + destruct (Gdk.get_monitor_at_point d (Gdk.x area) (Gdk.y area)).
      * unfold popup_size, show_all, present, move. cbn.
        now destruct (get_size self).
      * assert (forall w, present_near_pointer (Some d) (show_all w)
                          = present_near_pointer (Some d) w) as E
          by reflexivity.
        rewrite E. apply Hi.
    + reflexivity.
Qed.

End PlacementMore.

(** ** The dashboard row: further properties *)

Section RowFacts.

Import Py CodexBarTray Rendering Binary64 DashboardWindow.

Lemma ltb_leb (x y : float) : (x <? y)%float = true -> (x <=? y)%float = true.
Proof.
  rewrite ltb_spec, leb_spec. unfold SFltb, SFleb.
  destruct (SFcompare (Prim2SF x) (Prim2SF y)) as [[| |]|];
    try discriminate; reflexivity.
Qed.

(** [max(0.0, min(1.0, q))] lies between 0 and 1 for every float [q],
    not-a-number included. *)
Lemma unit_clamp (q : float) :
  let r := max_float 0 (min_float 1 q) in
  ((0 <=? r)%float && (r <=? 1)%float) = true.
Proof.
  unfold max_float, min_float.
  destruct (q <? 1)%float eqn:E1.
  - destruct (0 <? q)%float eqn:E0.
    + now rewrite (ltb_leb _ _ E0), (ltb_leb _ _ E1).
    + reflexivity.
  - reflexivity.
Qed.

Lemma valid_exponent (s : bool) (m : positive) (e : Z) :
  valid_binary (S754_finite s m e) = true -> -1074 <= e.
Proof.
  cbn [valid_binary]. unfold bounded, canonical_mantissa.
  intros H. apply andb_prop in H as [Hc _]. apply Z.eqb_eq in Hc.
  rewrite fexp64 in Hc. lia.
Qed.

(** A float strictly between the integers 0 and 100 rounds to an integer
    between 0 and 100. *)
Lemma round_between_0_and_100 (x : float) :
  lt (NInt 0) (NFloat x) = true -> lt (NFloat x) (NInt 100) = true ->
  exists p, round (NFloat x) = Ok p /\ 0 <= p <= 100.
Proof.
  unfold lt. cbn [round]. pose proof (Prim2SF_valid x) as Hv.
  assert (0 < 2 ^ 1074) as HP by (apply Z.pow_pos_nonneg; lia).
  destruct (Prim2SF x) as [s|s| |s m e] eqn:Ex; cbn [int_cmp_spec_float].
  - discriminate.
  - destruct s; discriminate.
  - discriminate.
  - intros H0 H100.
    assert (s = false) as ->.
    { destruct s; [|reflexivity]. exfalso. destruct e as [|p|k].
      - simpl in H0. discriminate.
      - assert ((0 ?= Zneg m * 2 ^ Zpos p) = Gt) as E.
        { apply Z.compare_gt_iff.
          pose proof (Z.pow_pos_nonneg 2 (Zpos p)). lia. }
        rewrite E in H0. discriminate.
      - simpl in H0. discriminate. }
    assert (nonneg_finite (S754_finite false m e)) as Hn
      by (cbn [nonneg_finite]; now apply (valid_exponent false m)).
    change (match e with
            | Zneg k => Some (100 * 2 ^ Zpos k ?= Zpos m)
            | _ => Some (100 ?= Zpos m * 2 ^ e)
            end)
      with (int_cmp_spec_float 100 (S754_finite false m e)) in H100.
    rewrite (int_cmp_nonneg_finite 100 _ Hn) in H100.
    rewrite (round_nonneg_finite _ Hn).
    set (v := scaled (S754_finite false m e)) in *.
    assert (0 <= v) as Hv0.
    { unfold v. cbn [scaled].
      cbn [nonneg_finite] in Hn.
      pose proof (Z.pow_pos_nonneg 2 (e + 1074) ltac:(lia) ltac:(lia)). lia. }
    assert (v < 100 * 2 ^ 1074) as Hv1.
    { destruct (Z.compare_spec (100 * 2 ^ 1074) v); try discriminate. lia. }
    eexists. split; [reflexivity|]. split.
    + rewrite <- (round_half_even_div_exact 0 (2 ^ 1074)) at 1 by lia.
      apply round_half_even_div_mono; lia.
    + rewrite <- (round_half_even_div_exact 100 (2 ^ 1074)) at 1 by lia.
      apply round_half_even_div_mono; lia.
Qed.

(** The percentage and the fraction that the row shows for
    [x = float(100 - used)]. *)
Lemma row_values (x : float) :
  let remaining := max_num (NInt 0) (min_num (NInt 100) (NFloat x)) in
  exists p q,
    round remaining = Ok p /\ 0 <= p <= 100 /\
    div_float remaining 100 = Ok q.
Proof.
  cbn zeta. unfold min_num.
  destruct (lt (NFloat x) (NInt 100)) eqn:E100.
  - unfold max_num. destruct (lt (NInt 0) (NFloat x)) eqn:E0.
    + destruct (round_between_0_and_100 x E0 E100) as (p & Hp & Hr).
      exists p. eexists. split; [exact Hp|]. split; [exact Hr|].
      reflexivity.
    + exists 0. eexists. split; [reflexivity|]. split; [lia|].
      now vm_compute.
  - exists 100. eexists. split; [reflexivity|]. split; [lia|].
    now vm_compute.
Qed.

Lemma window_row_shape (title : str) (window : gmap str val) (used : num)
    (x : float) :
  as_number (dict_get window (lit "usedPercent")) = Some used ->
  float_ (int_sub 100 used) = Ok x ->
  exists p fraction,
    round (clamp_num 0 100 (NFloat x)) = Ok p /\ 0 <= p <= 100 /\
    ((0 <=? fraction)%float && (fraction <=? 1)%float) = true /\
    _window_row title (Dict window)
    = Ok (Box (Box [Label title; Label (str_of_int p ++ lit "% left")]
                 :: ProgressBar fraction
                 :: match as_nonempty_str
                            (dict_get window (lit "resetDescription")) with
                    | Some reset_desc => [Label (lit "Resets " ++ reset_desc)]
                    | None => []
                    end)).
Proof.
  intros Hu Hx. destruct (row_values x) as (p & q & Hp & Hr & Hq).
  exists p, (max_float 0 (min_float 1 q)).
  split; [exact Hp|]. split; [exact Hr|]. split; [apply unit_clamp|].
  unfold _window_row, get. cbn [mbind result_bind]. rewrite Hu, Hx.
  cbn [mbind result_bind]. rewrite Hp. cbn [mbind result_bind].
  rewrite Hq. cbn [mbind result_bind].
  now destruct (as_nonempty_str _).
Qed.

Lemma float_of_percent (z : Z) :
  0 <= z <= 100 ->
  exists x, float_of_int (100 - z) = Ok x /\
            round (clamp_num 0 100 (NFloat x)) = Ok (100 - z).
Proof.
  intros H.
  assert (match float_of_int (100 - z) with
          | Ok x => result_is (round (clamp_num 0 100 (NFloat x))) (100 - z)
          | Raise _ => false
          end = true) as Hc.
  { apply (forall_percents
             (fun z => match float_of_int (100 - z) with
                       | Ok x =>
                           result_is (round (clamp_num 0 100 (NFloat x)))
                             (100 - z)
                       | Raise _ => false
                       end)); [now vm_compute | exact H]. }
  destruct (float_of_int (100 - z)) as [x|]; [|discriminate].
  exists x. split; [reflexivity | now apply result_is_true].
Qed.

End RowFacts.

Section RowClaims.

Import Py CodexBarTray Rendering Binary64 DashboardWindow.

(** X6: the dashboard row and the menu text show the same remaining
    percentage.  For a numeric usedPercent between 0 and 100 the row is
    the header with "{remaining}% left", where [remaining] is the
    percentage of [_window_text], a progress bar whose fraction lies
    between 0 and 1, and the reset label when there is a description. *)
Theorem row_agrees_with_menu_text (title : str) (window : gmap str val)
    (used : num) :
  as_number (dict_get window (lit "usedPercent")) = Some used ->
  in_percent_range used = true ->
  exists remaining fraction,
    remaining_percent used = Ok remaining /\
    ((0 <=? fraction)%float && (fraction <=? 1)%float) = true /\
    _window_row title (Dict window)
    = Ok (Box (Box [Label title;
                    Label (str_of_int remaining ++ lit "% left")]
                 :: ProgressBar fraction
                 :: match as_nonempty_str
                            (dict_get window (lit "resetDescription")) with
                    | Some reset_desc => [Label (lit "Resets " ++ reset_desc)]
                    | None => []
                    end)).
Proof.
  intros Hu H.
  assert (exists x, float_ (int_sub 100 used) = Ok x /\
                    round (clamp_num 0 100 (NFloat x))
                    = Ok (remaining_of_scaled (scaled_num used)))
    as (x & Hx & Hp).
  { destruct used as [z|f].
    - unfold in_percent_range, le in H. apply andb_prop in H as [H0 H1].
      apply Z.leb_le in H0, H1.
      destruct (float_of_percent z ltac:(lia)) as (x & Hx & Hp).
      exists x. split; [exact Hx|]. rewrite Hp. cbn [scaled_num].
      now rewrite remaining_of_scaled_int by lia.
    - eexists. split; [reflexivity|].
      exact (spec_remaining_in_range (NFloat f) H). }
  destruct (window_row_shape title window used x Hu Hx)
    as (p & fraction & Hp' & _ & Hf & Hrow).
  rewrite Hp in Hp'. injection Hp' as <-.
  exists (remaining_of_scaled (scaled_num used)), fraction.
  split; [now apply remaining_percent_in_range|].
  split; [exact Hf | exact Hrow].
Qed.

Lemma row_agrees_with_menu_text_witness :
  let window : gmap str val := {[ lit "usedPercent" := Float 12.5 ]} in
  as_number (dict_get window (lit "usedPercent")) = Some (NFloat 12.5) /\
  in_percent_range (NFloat 12.5) = true /\
  exists remaining fraction,
    remaining_percent (NFloat 12.5) = Ok remaining /\
    ((0 <=? fraction)%float && (fraction <=? 1)%float) = true /\
    _window_row (lit "Weekly") (Dict window)
    = Ok (Box (Box [Label (lit "Weekly");
                    Label (str_of_int remaining ++ lit "% left")]
                 :: ProgressBar fraction
                 :: match as_nonempty_str
                            (dict_get window (lit "resetDescription")) with
                    | Some reset_desc => [Label (lit "Resets " ++ reset_desc)]
                    | None => []
                    end)).
Proof.
  intros window.
  assert (as_number (dict_get window (lit "usedPercent"))
          = Some (NFloat 12.5)) as Hu by reflexivity.
  assert (in_percent_range (NFloat 12.5) = true) as H
    by (vm_compute; reflexivity).
  split; [exact Hu|]. split; [exact H|].
  exact (row_agrees_with_menu_text (lit "Weekly") window (NFloat 12.5) Hu H).
Defined.

(** X7: the dashboard row never fails on a float and never shows a value
    out of range.  For every numeric usedPercent, infinite and
    not-a-number included, either [float(100 - used)] overflows, which
    only an integer can do, and the row raises [OverflowError], or the row
    is returned, its percentage is an integer between 0 and 100 and the
    fraction of its progress bar lies between 0 and 1. *)
Theorem row_is_bounded (title : str) (window : gmap str val) (used : num) :
  as_number (dict_get window (lit "usedPercent")) = Some used ->
  (_window_row title (Dict window) = Raise OverflowError /\
   exists z, used = NInt z /\ float_of_int (100 - z) = Raise OverflowError)
  \/
  (exists p fraction,
     0 <= p <= 100 /\
     ((0 <=? fraction)%float && (fraction <=? 1)%float) = true /\
     _window_row title (Dict window)
     = Ok (Box (Box [Label title; Label (str_of_int p ++ lit "% left")]
                  :: ProgressBar fraction
                  :: match as_nonempty_str
                             (dict_get window (lit "resetDescription")) with
                     | Some reset_desc =>
                         [Label (lit "Resets " ++ reset_desc)]
                     | None => []
                     end))).
Proof.
  intros Hu. destruct (float_ (int_sub 100 used)) as [x|e] eqn:Hx.
  - right.
    destruct (window_row_shape title window used x Hu Hx)
      as (p & fraction & _ & Hr & Hf & Hrow).
    now exists p, fraction.
  - left. destruct used as [z|f]; [|discriminate].
    cbn [int_sub float_] in Hx.
    assert (e = OverflowError) as ->.
    { unfold float_of_int in Hx.
      destruct (binary_normalize prec emax (100 - z) 0 false);
        congruence. }
    split; [|now exists z].
    unfold _window_row, get. cbn [mbind result_bind]. rewrite Hu.
    cbn [int_sub float_]. now rewrite Hx.
Qed.

Lemma row_is_bounded_witness :
  let window : gmap str val := {[ lit "usedPercent" := Float nan ]} in
  as_number (dict_get window (lit "usedPercent")) = Some (NFloat nan) /\
  ((_window_row (lit "Session") (Dict window) = Raise OverflowError /\
    exists z, NFloat nan = NInt z /\
              float_of_int (100 - z) = Raise OverflowError)
   \/
   (exists p fraction,
      0 <= p <= 100 /\
      ((0 <=? fraction)%float && (fraction <=? 1)%float) = true /\
      _window_row (lit "Session") (Dict window)
      = Ok (Box (Box [Label (lit "Session");
                      Label (str_of_int p ++ lit "% left")]
                   :: ProgressBar fraction
                   :: match as_nonempty_str
                              (dict_get window (lit "resetDescription")) with
                      | Some reset_desc =>
                          [Label (lit "Resets " ++ reset_desc)]
                      | None => []
                      end)))).
Proof.
  intros window.
  assert (as_number (dict_get window (lit "usedPercent"))
          = Some (NFloat nan)) as Hu by reflexivity.
  split; [exact Hu|].
  exact (row_is_bounded (lit "Session") window (NFloat nan) Hu).
Defined.

End RowClaims.

(** ** The menu text and the provider block: further properties *)

Section TextMore.

Import Py CodexBarTray Rendering.

Lemma length_ljust (w : nat) (s : str) :
  length (ljust w s) = Nat.max w (length s).
Proof. unfold ljust. rewrite length_app, length_replicate. lia. Qed.

Lemma length_percent_field (remaining : Z) :
  0 <= remaining <= 100 -> length (rjust 3 (str_of_int remaining)) = 3%nat.
Proof.
  intros H. apply Nat.eqb_eq.
  apply (forall_percents
           (fun r => Nat.eqb (length (rjust 3 (str_of_int r))) 3));
    [now vm_compute | exact H].
Qed.

Lemma length_window_line (title : str) (remaining filled : Z) :
  0 <= remaining <= 100 -> 0 <= filled <= 10 ->
  length (window_line title remaining (usage_bar filled))
  = (Nat.max 8 (length title) + 17)%nat.
Proof.
  intros Hr Hf. unfold window_line.
  rewrite !length_app, length_ljust, length_percent_field by exact Hr.
  rewrite length_usage_bar by exact Hf. cbn [length]. 
  change (length (lit "%  ")) with 3%nat. lia.
Qed.

(** X8: the layout of the menu text.  Whenever [_window_text] returns for
    a numeric usedPercent, the text is the line, whose length is
    max(8, len(title)) + 17 code points and which ends with the 10 cells
    of the bar, followed by the reset suffix if the description is a
    non-empty string and by nothing otherwise: the lines of two titles of
    at most 8 characters are aligned. *)
Theorem window_text_layout (title : str) (window : gmap str val)
    (used : num) (s : str) :
  as_number (dict_get window (lit "usedPercent")) = Some used ->
  _window_text title (Dict window) = Ok s ->
  exists remaining filled,
    0 <= remaining <= 100 /\ 0 <= filled <= 10 /\
    s = window_line title remaining (usage_bar filled)
        ++ match as_nonempty_str
                   (dict_get window (lit "resetDescription")) with
           | Some reset_desc =>
               lit "  " ++ [ANTICLOCKWISE_ARROW; SPACE] ++ reset_desc
           | None => []
           end /\
    length (usage_bar filled) = 10%nat /\
    length (window_line title remaining (usage_bar filled))
    = (Nat.max 8 (length title) + 17)%nat.
Proof.
  intros Hu Hs. unfold _window_text, get in Hs.
  cbn [mbind result_bind] in Hs. rewrite Hu in Hs.
  destruct (remaining_percent used) as [remaining|e] eqn:E;
    cbn [mbind result_bind] in Hs; [|discriminate].
  pose proof (remaining_percent_range _ _ E) as Hr.
  rewrite (filled_cells_exact remaining Hr) in Hs.
  cbn [mbind result_bind] in Hs.
  pose proof (filled_cells_range remaining Hr) as Hf.
  exists remaining, (round_half_even_div remaining 10).
  split; [exact Hr|]. split; [exact Hf|].
  split; [|split; [now apply length_usage_bar
                  | now apply length_window_line]].
  destruct (as_nonempty_str _); injection Hs as <-;
    [reflexivity | now rewrite app_nil_r].
Qed.

Lemma window_text_layout_witness :
  let window : gmap str val :=
    <[lit "usedPercent" := Int 37]>
      {[ lit "resetDescription" := Str (lit "in 2h") ]} in
  let s := lit "Session   63%  " ++ replicate 6 FULL_BLOCK
           ++ replicate 4 MIDDLE_DOT
           ++ lit "  " ++ [ANTICLOCKWISE_ARROW; SPACE] ++ lit "in 2h" in
  as_number (dict_get window (lit "usedPercent")) = Some (NInt 37) /\
  _window_text (lit "Session") (Dict window) = Ok s /\
  exists remaining filled,
    0 <= remaining <= 100 /\ 0 <= filled <= 10 /\
    s = window_line (lit "Session") remaining (usage_bar filled)
        ++ match as_nonempty_str
                   (dict_get window (lit "resetDescription")) with
           | Some reset_desc =>
               lit "  " ++ [ANTICLOCKWISE_ARROW; SPACE] ++ reset_desc
           | None => []
           end /\
    length (usage_bar filled) = 10%nat /\
    length (window_line (lit "Session") remaining (usage_bar filled))
    = (Nat.max 8 (length (lit "Session")) + 17)%nat.
Proof.
  intros window s.
  assert (as_number (dict_get window (lit "usedPercent"))
          = Some (NInt 37)) as Hu by reflexivity.
  assert (_window_text (lit "Session") (Dict window) = Ok s) as Hs
    by (vm_compute; reflexivity).
  split; [exact Hu|]. split; [exact Hs|].
  exact (window_text_layout (lit "Session") window (NInt 37) s Hu Hs).
Defined.

(** X9: integers of any size are rendered, and they saturate.  For an
    integer usedPercent the remaining percentage is 100 - usedPercent
    clamped to [0, 100]; from 100 upwards the text shows 0% and an empty
    bar, from 0 downwards 100% and a full bar. *)
Theorem integer_percent_saturates (title : str) (window : gmap str val)
    (z : Z) :
  as_number (dict_get window (lit "usedPercent")) = Some (NInt z) ->
  let remaining := Z.max 0 (Z.min 100 (100 - z)) in
  let bar := usage_bar (round_half_even_div remaining 10) in
  _window_text title (Dict window)
  = Ok (window_line title remaining bar
        ++ match as_nonempty_str
                   (dict_get window (lit "resetDescription")) with
           | Some reset_desc =>
               lit "  " ++ [ANTICLOCKWISE_ARROW; SPACE] ++ reset_desc
           | None => []
           end) /\
  (100 <= z -> remaining = 0 /\ bar = replicate 10 MIDDLE_DOT) /\
  (z <= 0 -> remaining = 100 /\ bar = replicate 10 FULL_BLOCK).
Proof.
  intros Hu remaining bar. split; [|split].
  - unfold _window_text, get. cbn [mbind result_bind]. rewrite Hu.
    rewrite remaining_percent_int. fold remaining. cbn [mbind result_bind].
    rewrite filled_cells_exact by (unfold remaining; lia).
    cbn [mbind result_bind]. fold bar.
    destruct (as_nonempty_str _); [reflexivity | now rewrite app_nil_r].
  - intros H. assert (remaining = 0) as E by (unfold remaining; lia).
    split; [exact E|]. unfold bar. rewrite E. reflexivity.
  - intros H. assert (remaining = 100) as E by (unfold remaining; lia).
    split; [exact E|]. unfold bar. rewrite E. reflexivity.
Qed.

Lemma integer_percent_saturates_witness :
  let window : gmap str val :=
    {[ lit "usedPercent" := Int (250) ]} in
  as_number (dict_get window (lit "usedPercent")) = Some (NInt (250)) /\
  _window_text (lit "Weekly") (Dict window)
  = Ok (lit "Weekly     0%  " ++ replicate 10 MIDDLE_DOT).
Proof.
  intros window.
  assert (as_number (dict_get window (lit "usedPercent"))
          = Some (NInt (250))) as Hu by reflexivity.
  split; [exact Hu|].
  destruct (integer_percent_saturates (lit "Weekly") window (250) Hu)
    as (Ht & Hhigh & _).
  rewrite Ht. destruct Hhigh as [-> ->]; [lia|].
  reflexivity.
Defined.

End TextMore.

Section BlockMore.

Import Py CodexBarTray Rendering.

Variable repr_other : val -> str.
Variable format_1f : num -> result str.

Local Ltac menu_steps :=
  unfold mbind, menu_bind, lift, skip, mret, menu_ret,
    _append_info, _append_separator;
  cbn [fst snd].

Lemma provider_block_appends (payload : gmap str val) :
  let name :=
    _provider_title
      (str_ repr_other
         (default (Str (lit "unknown")) (payload !! lit "provider"))) in
  exists r added,
    (forall menu,
       _append_provider_block repr_other format_1f payload menu
       = (r, menu ++ added)) /\
    head added = Some (InfoItem (lit "<b>" ++ name ++ lit "</b>") true) /\
    match r with
    | Ok _ => last added = Some SeparatorMenuItem /\
              (3 <= length added <= 6)%nat
    | Raise _ => SeparatorMenuItem ∉ added
    end.
Proof.
  intros name. unfold _append_provider_block. cbv zeta. fold name.
  set (usage := or_empty_dict _).
  destruct (as_dict (dict_get payload (lit "error"))) as [error|].
  { eexists (Ok tt), _. split; [|split].
    - intros menu. menu_steps. rewrite <- !app_assoc. reflexivity.
    - reflexivity.
    - split; [reflexivity | cbn; lia]. }
  destruct (get_or_empty_dict usage (lit "primary")) as [primary|e] eqn:E1.
  2:{ eexists (Raise e), _. split; [|split].
      - intros menu. menu_steps. rewrite ?E3, ?E4. reflexivity.
      - reflexivity.
      - intros H. apply list_elem_of_singleton in H. discriminate. }
  destruct (get_or_empty_dict usage (lit "secondary")) as [secondary|e]
    eqn:E2.
  2:{ eexists (Raise e), _. split; [|split].
      - intros menu. menu_steps. rewrite ?E3, ?E4. reflexivity.
      - reflexivity.
      - intros H. apply list_elem_of_singleton in H. discriminate. }
  destruct (_window_text (lit "Session") primary) as [session|e] eqn:E3.
  2:{ eexists (Raise e), _. split; [|split].
      - intros menu. menu_steps. rewrite ?E3, ?E4. reflexivity.
      - reflexivity.
      - intros H. apply list_elem_of_singleton in H. discriminate. }
  destruct (_window_text (lit "Weekly") secondary) as [weekly|e] eqn:E4.
  2:{ eexists (Raise e), _. split; [|split].
      - intros menu. menu_steps. rewrite ?E3, ?E4. reflexivity.
      - reflexivity.
      - intros H. apply list_elem_of_singleton in H. discriminate. }
  assert (exists email, get usage (lit "accountEmail") = Ok email)
    as [email E6].
  { unfold get_or_empty_dict in E1. destruct usage; try discriminate.
    eexists. reflexivity. }
  destruct (as_nonempty_str email) as [mail|] eqn:E7;
    (destruct (as_dict (dict_get payload (lit "credits"))) as [credits|]
       eqn:E8;
     [destruct (as_number (dict_get credits (lit "remaining")))
        as [remaining|] eqn:E9;
      [destruct (format_1f remaining) as [text|e] eqn:E10|]|]);
    (eexists _, _; split;
     [intros menu; menu_steps;
      rewrite ?E3, ?E4, ?E6, ?E7, ?E10; cbn [fst snd];
      rewrite <- ?app_assoc; reflexivity
     |split; [reflexivity|]]);
    first [ split; [reflexivity | cbn; lia]
          | intros H; cbn in H; rewrite !elem_of_cons, elem_of_nil in H;
            destruct H as [H|[H|[H|H]]]; try discriminate; contradiction ].
Qed.

(** X10: a provider block only appends to the menu.  The items already in
    the menu stay, in order, as a prefix, and the items added do not
    depend on them; the first item added is, in bold, the display name
    of the provider of the payload ("unknown" when the payload names
    none); a block that completes adds between 3 and 6 items and ends
    with a separator; a block that raises has added no separator. *)
Theorem provider_block_only_appends (payload : gmap str val) :
  let name :=
    _provider_title
      (str_ repr_other
         (default (Str (lit "unknown")) (payload !! lit "provider"))) in
  exists r added,
    (forall menu,
       _append_provider_block repr_other format_1f payload menu
       = (r, menu ++ added)) /\
    head added = Some (InfoItem (lit "<b>" ++ name ++ lit "</b>") true) /\
    match r with
    | Ok _ => last added = Some SeparatorMenuItem /\
              (3 <= length added <= 6)%nat
    | Raise _ => SeparatorMenuItem ∉ added
    end.
Proof. exact (provider_block_appends payload). Qed.



Lemma get_empty_dict (k : str) : get (Dict ∅) k = Ok None_.
Proof. unfold get, dict_get. now rewrite lookup_empty. Qed.

Lemma get_or_empty_dict_empty (k : str) :
  get_or_empty_dict (Dict ∅) k = Ok (Dict ∅).
Proof. unfold get_or_empty_dict. now rewrite get_empty_dict. Qed.

Lemma window_text_empty (title : str) :
  _window_text title (Dict ∅) = Ok (title ++ lit ": --").
Proof. unfold _window_text. now rewrite get_empty_dict. Qed.

Lemma window_row_empty (title : str) :
  DashboardWindow._window_row title (Dict ∅)
  = Ok (DashboardWindow.Label (title ++ lit ": --")).
Proof. unfold DashboardWindow._window_row. now rewrite get_empty_dict. Qed.

(** X11: a provider record without usage data.  When [error] is not a
    dictionary (absent, or for instance a string), [usage] is absent,
    null or empty and [credits] is not a dictionary, the menu block is the
    title, "Session: --", "Weekly: --" and the separator, and the
    dashboard card is the title with the two labels "Session: --" and
    "Weekly: --". *)
Theorem provider_without_usage (payload : gmap str val)
    (menu : list MenuItem) :
  as_dict (dict_get payload (lit "error")) = None ->
  truthy (dict_get payload (lit "usage")) = false ->
  as_dict (dict_get payload (lit "credits")) = None ->
  let name :=
    _provider_title
      (str_ repr_other
         (default (Str (lit "unknown")) (payload !! lit "provider"))) in
  _append_provider_block repr_other format_1f payload menu
  = (Ok tt,
     menu ++ [InfoItem (lit "<b>" ++ name ++ lit "</b>") true;
              InfoItem (lit "<tt>Session: --</tt>") true;
              InfoItem (lit "<tt>Weekly: --</tt>") true;
              SeparatorMenuItem]) /\
  DashboardWindow._provider_card repr_other format_1f payload
  = Ok (DashboardWindow.Frame
          (DashboardWindow.Box
             [DashboardWindow.MarkupLabel
                (lit "<span weight='bold'>" ++ name ++ lit "</span>");
              DashboardWindow.Label (lit "Session: --");
              DashboardWindow.Label (lit "Weekly: --")])).
Proof.
  intros He Hu Hc name. split.
  - unfold _append_provider_block. cbv zeta. fold name.
    rewrite He, Hc. unfold or_empty_dict at 1 2 3. rewrite Hu.
    rewrite !get_or_empty_dict_empty, get_empty_dict.
    menu_steps. rewrite !window_text_empty. cbn [as_nonempty_str].
    rewrite <- !app_assoc. reflexivity.
  - unfold DashboardWindow._provider_card. cbv zeta. fold name.
    rewrite He, Hc. unfold or_empty_dict at 1 2 3. rewrite Hu.
    rewrite !get_or_empty_dict_empty, get_empty_dict.
    cbn [mbind result_bind]. rewrite !window_row_empty.
    reflexivity.
Qed.

(** X12: a provider record whose [usage] is not a dictionary.  When
    [error] is not a dictionary and [usage] is a true value other than a
    dictionary (a number, a string, a list), reading [usage.get] raises
    [AttributeError]: the menu keeps the title that was already appended
    and gets nothing else, not even the separator, and no dashboard card
    is built. *)
Theorem provider_with_ill_typed_usage (payload : gmap str val)
    (menu : list MenuItem) :
  as_dict (dict_get payload (lit "error")) = None ->
  truthy (dict_get payload (lit "usage")) = true ->
  as_dict (dict_get payload (lit "usage")) = None ->
  let name :=
    _provider_title
      (str_ repr_other
         (default (Str (lit "unknown")) (payload !! lit "provider"))) in
  _append_provider_block repr_other format_1f payload menu
  = (Raise AttributeError,
     menu ++ [InfoItem (lit "<b>" ++ name ++ lit "</b>") true]) /\
  DashboardWindow._provider_card repr_other format_1f payload
  = Raise AttributeError.
Proof.
  intros He Ht Hd name.
  assert (forall k, get_or_empty_dict
                      (or_empty_dict (dict_get payload (lit "usage"))) k
                    = Raise AttributeError) as Hg.
  { intros k. unfold or_empty_dict. rewrite Ht.
    destruct (dict_get payload (lit "usage")); try discriminate;
      reflexivity. }
  split.
  - unfold _append_provider_block. cbv zeta. fold name.
    rewrite He. menu_steps. rewrite !Hg. reflexivity.
  - unfold DashboardWindow._provider_card. cbv zeta.
    rewrite He, !Hg. reflexivity.
Qed.

(** X13: an error without a message.  When [error] is a dictionary that
    has no [message], the text shown is "Error: unknown", in the menu
    block and in the dashboard card, and nothing else of the record is
    rendered. *)
Theorem error_without_message (payload error : gmap str val)
    (menu : list MenuItem) :
  payload !! lit "error" = Some (Dict error) ->
  error !! lit "message" = None ->
  let name :=
    _provider_title
      (str_ repr_other
         (default (Str (lit "unknown")) (payload !! lit "provider"))) in
  _append_provider_block repr_other format_1f payload menu
  = (Ok tt,
     menu ++ [InfoItem (lit "<b>" ++ name ++ lit "</b>") true;
              InfoItem (lit "  Error: unknown") false;
              SeparatorMenuItem]) /\
  DashboardWindow._provider_card repr_other format_1f payload
  = Ok (DashboardWindow.Frame
          (DashboardWindow.Box
             [DashboardWindow.MarkupLabel
                (lit "<span weight='bold'>" ++ name ++ lit "</span>");
              DashboardWindow.Label (lit "Error: unknown")])).
Proof.
  intros He Hm name. split.
  - unfold _append_provider_block, dict_get. cbv zeta. fold name.
    rewrite He. cbn [default from_option id as_dict]. rewrite Hm.
    menu_steps. rewrite <- !app_assoc. reflexivity.
  - unfold DashboardWindow._provider_card, dict_get. cbv zeta. fold name.
    rewrite He. cbn [default from_option id as_dict]. rewrite Hm.
    reflexivity.
Qed.

End BlockMore.

Section BlockWitnesses.

Import Py CodexBarTray Rendering.

Lemma provider_without_usage_witness :
  let payload : gmap str val :=
    <[lit "provider" := Str (lit "codex")]>
      (<[lit "error" := Str (lit "boom")]>
         {[ lit "usage" := None_ ]}) in
  as_dict (dict_get payload (lit "error")) = None /\
  truthy (dict_get payload (lit "usage")) = false /\
  as_dict (dict_get payload (lit "credits")) = None /\
  _append_provider_block (fun _ => []) (fun _ => Ok []) payload []
  = (Ok tt,
     [InfoItem (lit "<b>Codex</b>") true;
      InfoItem (lit "<tt>Session: --</tt>") true;
      InfoItem (lit "<tt>Weekly: --</tt>") true;
      SeparatorMenuItem]).
Proof.
  intros payload.
  assert (as_dict (dict_get payload (lit "error")) = None) as He
    by reflexivity.
  assert (truthy (dict_get payload (lit "usage")) = false) as Hu
    by reflexivity.
  assert (as_dict (dict_get payload (lit "credits")) = None) as Hc
    by reflexivity.
  split; [exact He|]. split; [exact Hu|]. split; [exact Hc|].
  exact (proj1 (provider_without_usage (fun _ => []) (fun _ => Ok [])
                  payload [] He Hu Hc)).
Defined.

Lemma provider_with_ill_typed_usage_witness :
  let payload : gmap str val :=
    <[lit "provider" := Str (lit "codex")]>
      {[ lit "usage" := Int 5 ]} in
  as_dict (dict_get payload (lit "error")) = None /\
  truthy (dict_get payload (lit "usage")) = true /\
  as_dict (dict_get payload (lit "usage")) = None /\
  _append_provider_block (fun _ => []) (fun _ => Ok []) payload []
  = (Raise AttributeError, [InfoItem (lit "<b>Codex</b>") true]).
Proof.
  intros payload.
  assert (as_dict (dict_get payload (lit "error")) = None) as He
    by reflexivity.
  assert (truthy (dict_get payload (lit "usage")) = true) as Ht
    by reflexivity.
  assert (as_dict (dict_get payload (lit "usage")) = None) as Hd
    by reflexivity.
  split; [exact He|]. split; [exact Ht|]. split; [exact Hd|].
  exact (proj1 (provider_with_ill_typed_usage (fun _ => [])
                  (fun _ => Ok []) payload [] He Ht Hd)).
Defined.

Lemma error_without_message_witness :
  let error : gmap str val := {[ lit "code" := Int 401 ]} in
  let payload : gmap str val :=
    <[lit "provider" := Str (lit "gemini")]>
      {[ lit "error" := Dict error ]} in
  payload !! lit "error" = Some (Dict error) /\
  error !! lit "message" = None /\
  _append_provider_block (fun _ => []) (fun _ => Ok []) payload []
  = (Ok tt,
     [InfoItem (lit "<b>Gemini</b>") true;
      InfoItem (lit "  Error: unknown") false;
      SeparatorMenuItem]).
Proof.
  intros error payload.
  assert (payload !! lit "error" = Some (Dict error)) as He by reflexivity.
  assert (error !! lit "message" = None) as Hm by reflexivity.
  split; [exact He|]. split; [exact Hm|].
  exact (proj1 (error_without_message (fun _ => []) (fun _ => Ok [])
                  payload error [] He Hm)).
Defined.

End BlockWitnesses.

(** ** White space and substrings *)

Section TextFacts.

Import Py Text.

Variable is_space : N -> bool.

Lemma lstrip_head (s : str) (c : N) (r : str) :
  lstrip is_space s = c :: r -> is_space c = false.
Proof.
  induction s as [|a s IH]; simpl; [discriminate|].
  destruct (is_space a) eqn:E; [exact IH|].
  intros [= <- _]. exact E.
Qed.

Lemma lstrip_suffix (s : str) :
  exists pre, s = pre ++ lstrip is_space s /\
    Forall (fun c => is_space c = true) pre.
Proof.
  induction s as [|a s [pre [E F]]]; simpl.
  - exists []. split; [reflexivity | constructor].
  - destruct (is_space a) eqn:Ea.
    + exists (a :: pre). split; [simpl; congruence | now constructor].
    + exists []. split; [reflexivity | constructor].
Qed.

Lemma lstrip_fixed (s : str) :
  (forall c, head s = Some c -> is_space c = false) ->
  lstrip is_space s = s.
Proof.
  destruct s as [|a s]; [reflexivity|]. intros H. simpl.
  now rewrite (H a eq_refl).
Qed.

Lemma rstrip_prefix (s : str) :
  exists post, s = rstrip is_space s ++ post /\
    Forall (fun c => is_space c = true) post.
Proof.
  unfold rstrip. destruct (lstrip_suffix (reverse s)) as [pre [E F]].
  exists (reverse pre). split.
  - rewrite <- reverse_app, <- E. symmetry. apply reverse_involutive.
  - apply Forall_reverse. exact F.
Qed.

Lemma rstrip_last (s : str) (c : N) :
  last (rstrip is_space s) = Some c -> is_space c = false.
Proof.
  unfold rstrip. rewrite last_reverse.
  destruct (lstrip is_space (reverse s)) as [|a r] eqn:E; [discriminate|].
  intros [= <-]. exact (lstrip_head _ _ _ E).
Qed.

Lemma strip_head (s : str) (c : N) :
  head (strip is_space s) = Some c -> is_space c = false.
Proof.
  unfold strip. intros H.
  destruct (rstrip_prefix (lstrip is_space s)) as [post [E _]].
  destruct (rstrip is_space (lstrip is_space s)) as [|a r] eqn:Er;
    [discriminate|].
  injection H as <-. simpl in E. exact (lstrip_head _ _ _ E).
Qed.

Lemma strip_last (s : str) (c : N) :
  last (strip is_space s) = Some c -> is_space c = false.
Proof. apply rstrip_last. Qed.

Lemma rstrip_fixed (s : str) :
  (forall c, last s = Some c -> is_space c = false) ->
  rstrip is_space s = s.
Proof.
  intros H. unfold rstrip. rewrite lstrip_fixed.
  - apply reverse_involutive.
  - intros c. rewrite head_reverse. apply H.
Qed.

Lemma strip_fixed (s : str) :
  (forall c, head s = Some c -> is_space c = false) ->
  (forall c, last s = Some c -> is_space c = false) ->
  strip is_space s = s.
Proof.
  intros Hh Hl. unfold strip. rewrite (lstrip_fixed s Hh).
  now apply rstrip_fixed.
Qed.

Lemma strip_idempotent (s : str) :
  strip is_space (strip is_space s) = strip is_space s.
Proof. apply strip_fixed; [apply strip_head | apply strip_last]. Qed.

Lemma startswith_spec (p s : str) :
  startswith p s = true <-> exists post, s = p ++ post.
Proof.
  revert s. induction p as [|a p IH]; intros s; simpl.
  - split; [intros _; now exists s | reflexivity].
  - destruct s as [|b s].
    + split; [discriminate | intros [post [=]]].
    + rewrite andb_true_iff, N.eqb_eq, IH. split.
      * intros [-> [post ->]]. now exists post.
      * intros [post [= -> ->]]. split; [reflexivity | now exists post].
Qed.

Lemma contains_spec (sub s : str) :
  contains sub s = true <-> exists pre post, s = pre ++ sub ++ post.
Proof.
  induction s as [|b s IH].
  - simpl. rewrite orb_false_r, startswith_spec. split.
    + intros [post E]. now exists [], post.
    + intros [pre [post E]]. destruct pre as [|x pre]; [|discriminate].
      now exists post.
  - change (contains sub (b :: s))
      with (startswith sub (b :: s) || contains sub s).
    rewrite orb_true_iff, startswith_spec, IH. split.
    + intros [[post E] | [pre [post E]]].
      * now exists [], post.
      * exists (b :: pre), post. simpl. congruence.
    + intros [pre [post E]]. destruct pre as [|x pre].
      * left. now exists post.
      * right. injection E as -> E. now exists pre, post.
Qed.

Lemma contains_trans (a b c : str) :
  contains a b = true -> contains b c = true -> contains a c = true.
Proof.
  rewrite !contains_spec. intros [p1 [q1 ->]] [p2 [q2 ->]].
  exists (p2 ++ p1), (q1 ++ q2). now rewrite <- !app_assoc.
Qed.

Lemma contains_empty (s : str) : contains [] s = true.
Proof. apply contains_spec. now exists [], s. Qed.

Lemma nonempty_false (s : str) : nonempty s = false <-> s = [].
Proof. destruct s; simpl; split; congruence. Qed.

End TextFacts.

(** ** The command-line tool *)

Section LauncherClaims.

Import Py Text Launcher.

Variable is_space : N -> bool.
Variable subprocess_run : list str -> Process.

(** X14: what [run_command] hands on of a process that ran has no white
    space at either end, on both streams, stripping it again changes
    nothing, and [ok] tells whether the return code was zero. *)
Theorem run_command_output_is_stripped
    (args : list str) (returncode : Z) (out err : str)
    (H : subprocess_run args = CompletedProcess returncode out err) :
  exists r,
    run_command is_space subprocess_run args = Returns r /\
    (ok r = true <-> returncode = 0) /\
    (forall c, head (stdout r) = Some c \/ last (stdout r) = Some c ->
               is_space c = false) /\
    (forall c, head (stderr r) = Some c \/ last (stderr r) = Some c ->
               is_space c = false) /\
    strip is_space (stdout r) = stdout r /\
    strip is_space (stderr r) = stderr r.
Proof.
  unfold run_command. rewrite H. eexists. split; [reflexivity|].
  cbn [ok stdout stderr].
  split; [apply Z.eqb_eq|].
  split; [intros c [Hc|Hc]; [exact (strip_head _ _ _ Hc)
                            | exact (strip_last _ _ _ Hc)]|].
  split; [intros c [Hc|Hc]; [exact (strip_head _ _ _ Hc)
                            | exact (strip_last _ _ _ Hc)]|].
  split; apply strip_idempotent.
Qed.

(** X15: [--print-once] runs the very command the tray runs for its
    panel text.  When [subprocess.run] raises an exception other than
    [FileNotFoundError], the branch raises it and returns no status.
    Otherwise the status is 0 exactly when the command ran and returned
    0, and 1 when it returned anything else or was not found.  [print]
    is called at most once for each stream and never with the empty
    string: on the standard output with the stripped output of the
    command, on the standard error with its stripped error output, or
    with the message of [FileNotFoundError]. *)
Theorem print_once_exit_status (self : Tray.State) :
  let run := subprocess_run (Tray.panel_command self) in
  let branch :=
    print_once is_space subprocess_run
      (Tray.binary self) (Tray.source self) (Tray.provider self) in
  let once (s : str) := if nonempty s then [s] else [] in
  (forall e, branch = Raises e <-> run = Uncaught e) /\
  (forall exit, branch = Returns exit ->
     (status exit = 0 \/ status exit = 1) /\
     (status exit = 0 <-> exists out err, run = CompletedProcess 0 out err) /\
     (length (printed exit) <= 1)%nat /\
     (length (printed_err exit) <= 1)%nat /\
     (forall s, s ∈ printed exit ++ printed_err exit -> s <> []) /\
     (forall message, run = FileNotFoundError message ->
        printed exit = [] /\ printed_err exit = once message) /\
     (forall returncode out err, run = CompletedProcess returncode out err ->
        printed exit = once (strip is_space out) /\
        printed_err exit = once (strip is_space err))).
Proof.
  intros run branch once.
  assert (forall s x, x ∈ once s -> x <> []) as Honce.
  { intros s x. unfold once. destruct s as [|c s]; cbn [nonempty].
    - intros Hx. now apply elem_of_nil in Hx.
    - intros Hx. apply list_elem_of_singleton in Hx. now subst. }
  assert (forall s, (length (once s) <= 1)%nat) as Hlen.
  { intros s. unfold once. destruct (nonempty s); cbn; lia. }
  unfold branch, print_once, Tray.panel_command, Tray.with_provider in *.
  fold (Tray.with_provider
          [Tray.binary self; lit "panel"; lit "--source"; Tray.source self]
          (Tray.provider self)) in *.
  fold (Tray.panel_command self) in *. fold run.
  unfold run_command. fold run.
  destruct run as [message | e | returncode out err].
  - split; [intros e; split; discriminate|].
    intros exit [= <-]. cbn [status printed printed_err ok stdout stderr].
    split; [now right|]. split; [split; [discriminate|]|].
    { intros [o [e' [=]]]. }
    split; [cbn; lia|]. split; [apply Hlen|].
    split; [intros s Hs; apply (Honce message); exact Hs|].
    split; [now intros m [= <-]|]. intros rc o e' [=].
  - split; [intros x; split; intros [= ->]; reflexivity|].
    intros exit [=].
  - split; [intros x; split; discriminate|].
    intros exit [= <-]. cbn [status printed printed_err ok stdout stderr].
    fold (once (strip is_space out)). fold (once (strip is_space err)).
    split; [destruct (returncode =? 0); [now left | now right]|].
    split.
    { destruct (returncode =? 0) eqn:E.
      - apply Z.eqb_eq in E. subst. split; [|reflexivity].
        intros _. now exists out, err.
      - split; [discriminate|]. intros [o [e' [= -> _ _]]]. discriminate. }
    split; [apply Hlen|]. split; [apply Hlen|].
    split.
    { intros s Hs. apply elem_of_app in Hs.
      destruct Hs as [Hs|Hs]; eapply Honce; exact Hs. }
    split; [intros m [=]|]. now intros rc o e' [= _ <- <-].
Qed.

End LauncherClaims.

Section LauncherWitnesses.

Import Py Text Launcher.

Lemma run_command_output_is_stripped_witness :
  let is_space := fun c => (c =? 32)%N || (c =? 10)%N in
  let run := fun _ : list str =>
    CompletedProcess 0 (lit " 42% " ++ [10%N]) [] in
  run [lit "codexbar"; lit "panel"]
  = CompletedProcess 0 (lit " 42% " ++ [10%N]) [] /\
  exists r,
    run_command is_space run [lit "codexbar"; lit "panel"] = Returns r /\
    (ok r = true <-> 0 = 0) /\
    (forall c, head (stdout r) = Some c \/ last (stdout r) = Some c ->
               is_space c = false) /\
    (forall c, head (stderr r) = Some c \/ last (stderr r) = Some c ->
               is_space c = false) /\
    strip is_space (stdout r) = stdout r /\
    strip is_space (stderr r) = stderr r.
Proof.
  split; [reflexivity|].
  apply (run_command_output_is_stripped
           (fun c => (c =? 32)%N || (c =? 10)%N)
           (fun _ => CompletedProcess 0 (lit " 42% " ++ [10%N]) [])
           [lit "codexbar"; lit "panel"] 0 (lit " 42% " ++ [10%N]) []).
  reflexivity.
Defined.

End LauncherWitnesses.

(** ** Search in the dashboard *)

Section SearchFacts.

Import Py Text Dashboard.

Variable lower : str -> str.
Variable repr_other : val -> str.

Lemma matches_cases (query : str) (payload : gmap str val) :
  match as_dict (or_empty_dict (dict_get payload (lit "usage"))) with
  | Some _ => exists b, matches lower repr_other query payload = Ok b
  | None => matches lower repr_other query payload = Raise AttributeError
  end.
Proof.
  unfold matches.
  destruct (or_empty_dict (dict_get payload (lit "usage"))); cbn [as_dict];
    try reflexivity.
  eexists. reflexivity.
Qed.

Lemma matches_narrow (q q' : str) (payload : gmap str val) :
  contains q q' = true ->
  matches lower repr_other q' payload = Ok true ->
  matches lower repr_other q payload = Ok true.
Proof.
  unfold matches. intros Hq.
  destruct (or_empty_dict (dict_get payload (lit "usage")));
    try discriminate.
  intros [= H]. f_equal. exact (contains_trans _ _ _ Hq H).
Qed.

Lemma matches_ok (q q' : str) (payload : gmap str val) (b : bool) :
  matches lower repr_other q' payload = Ok b ->
  exists b', matches lower repr_other q payload = Ok b'.
Proof.
  unfold matches.
  destruct (or_empty_dict (dict_get payload (lit "usage")));
    try discriminate.
  intros _. eexists. reflexivity.
Qed.

Lemma filter_payloads_spec (query : str) (payloads l : list (gmap str val)) :
  filter_payloads lower repr_other query payloads = Ok l ->
  l `sublist_of` payloads /\
  (forall p, p ∈ l -> matches lower repr_other query p = Ok true) /\
  (forall p, p ∈ payloads ->
     matches lower repr_other query p = Ok true -> p ∈ l).
Proof.
  revert l. induction payloads as [|p rest IH]; intros l; simpl.
  - intros [= <-]. split; [constructor|]. split; intros p H;
      now apply elem_of_nil in H.
  - destruct (matches lower repr_other query p) as [keep|e] eqn:Em;
      [|discriminate].
    cbn [mbind result_bind].
    destruct (filter_payloads lower repr_other query rest) as [l'|e]
      eqn:Ef; [|discriminate].
    cbn [mbind result_bind]. intros [= <-].
    destruct (IH l' eq_refl) as [Hs [Hin Hall]].
    destruct keep.
    + split; [now constructor|]. split.
      * intros x Hx. apply elem_of_cons in Hx. destruct Hx as [->|Hx];
          [exact Em | now apply Hin].
      * intros x Hx Hm. apply elem_of_cons in Hx. apply elem_of_cons.
        destruct Hx as [->|Hx]; [now left | right; now apply Hall].
    + split; [now constructor|]. split; [exact Hin|].
      intros x Hx Hm. apply elem_of_cons in Hx.
      destruct Hx as [->|Hx]; [congruence | now apply Hall].
Qed.

Lemma filter_payloads_exact (query : str)
    (payloads l : list (gmap str val)) :
  filter_payloads lower repr_other query payloads = Ok l ->
  l = List.filter
        (fun p => match matches lower repr_other query p with
                  | Ok keep => keep
                  | Raise _ => false
                  end) payloads.
Proof.
  revert l. induction payloads as [|p rest IH]; intros l; simpl.
  - now intros [= <-].
  - destruct (matches lower repr_other query p) as [keep|e] eqn:Em;
      [|discriminate].
    cbn [mbind result_bind].
    destruct (filter_payloads lower repr_other query rest) as [l'|e]
      eqn:Ef; [|discriminate].
    cbn [mbind result_bind]. intros [= <-].
    rewrite <- (IH l' eq_refl). now destruct keep.
Qed.

Lemma filter_payloads_narrow (q q' : str)
    (payloads l' : list (gmap str val)) :
  contains q q' = true ->
  filter_payloads lower repr_other q' payloads = Ok l' ->
  exists l, filter_payloads lower repr_other q payloads = Ok l /\
            l' `sublist_of` l.
Proof.
  intros Hq. revert l'. induction payloads as [|p rest IH]; intros l'; simpl.
  - intros [= <-]. exists []. split; [reflexivity | constructor].
  - destruct (matches lower repr_other q' p) as [keep'|e] eqn:Em';
      [|discriminate].
    cbn [mbind result_bind].
    destruct (filter_payloads lower repr_other q' rest) as [r'|e]
      eqn:Ef'; [|discriminate].
    cbn [mbind result_bind]. intros [= <-].
    destruct (IH r' eq_refl) as [r [Er Hs]]. rewrite Er.
    destruct keep'.
    + rewrite (matches_narrow q q' p Hq Em'). cbn [mbind result_bind].
      eexists. split; [reflexivity | now constructor].
    + destruct (matches_ok q q' p _ Em') as [b' ->].
      cbn [mbind result_bind]. eexists. split; [reflexivity|].
      destruct b'; [now constructor | exact Hs].
Qed.

Lemma filter_payloads_raises (query : str) (payloads : list (gmap str val)) :
  (exists l, filter_payloads lower repr_other query payloads = Ok l /\
     Forall (fun p => as_dict (or_empty_dict (dict_get p (lit "usage")))
                      <> None) payloads) \/
  (filter_payloads lower repr_other query payloads = Raise AttributeError /\
     Exists (fun p => as_dict (or_empty_dict (dict_get p (lit "usage")))
                      = None) payloads).
Proof.
  induction payloads as [|p rest IH]; simpl.
  - left. exists []. split; [reflexivity | constructor].
  - pose proof (matches_cases query p) as Hm.
    destruct (as_dict (or_empty_dict (dict_get p (lit "usage")))) as [d|]
      eqn:Ed.
    + destruct Hm as [b ->]. cbn [mbind result_bind].
      destruct IH as [[l [-> HF]] | [-> HE]]; cbn [mbind result_bind].
      * left. eexists. split; [reflexivity|]. constructor; [|exact HF].
        now rewrite Ed.
      * right. split; [reflexivity | now apply Exists_cons_tl].
    + rewrite Hm. cbn [mbind result_bind]. right.
      split; [reflexivity | now apply Exists_cons_hd].
Qed.

End SearchFacts.

Section SearchClaims.

Import Py Text Dashboard.

Variable lower : str -> str.
Variable repr_other : val -> str.

(** X16: what a search returns.  With the empty query
    [_filtered_payloads] returns the stored payloads.  With any other
    query, when it returns, the result is the list obtained from the
    stored payloads by keeping, in order and as often as they occur,
    exactly the payloads whose provider id, display name or account
    e-mail contains the query, and dropping the others. *)
Theorem search_keeps_the_matches_in_order
    (self : State) (query : str) (l : list (gmap str val))
    (H : _filtered_payloads lower repr_other self query = Ok l) :
  (query = [] -> l = all_payloads self) /\
  (query <> [] ->
   l = List.filter
         (fun p => match matches lower repr_other query p with
                   | Ok keep => keep
                   | Raise _ => false
                   end) (all_payloads self) /\
   Forall (fun p => exists keep, matches lower repr_other query p = Ok keep)
     (all_payloads self)) /\
  l `sublist_of` all_payloads self /\
  (query <> [] ->
   forall p, p ∈ l <->
     p ∈ all_payloads self /\ matches lower repr_other query p = Ok true).
Proof.
  unfold _filtered_payloads in H.
  destruct query as [|c q]; cbn [nonempty] in H.
  - injection H as <-. split; [reflexivity|].
    split; [intros Hq; now contradiction Hq|].
    split; [reflexivity|]. intros Hq. now contradiction Hq.
  - destruct (filter_payloads_spec lower repr_other _ _ _ H)
      as [Hs [Hin Hall]].
    split; [discriminate|]. split.
    { intros _. split;
        [exact (filter_payloads_exact lower repr_other _ _ _ H)|].
      destruct (filter_payloads_raises lower repr_other (c :: q)
                  (all_payloads self)) as [[l' [_ HF]] | [E _]];
        [|congruence].
      eapply Forall_impl; [exact HF|]. intros p Hp. cbv beta in Hp.
      pose proof (matches_cases lower repr_other (c :: q) p) as Hm.
      destruct (as_dict _); [exact Hm | now contradiction Hp]. }
    split; [exact Hs|]. intros _ p. split.
    + intros Hp. split; [|now apply Hin].
      eapply elem_of_sublist; eassumption.
    + intros [Hp Hm]. now apply Hall.
Qed.

(** X17: typing more narrows the search.  When the query [q] occurs
    inside the query [q'] and the search for [q'] returns, the search
    for [q] returns too, and every payload found for [q'] is found for
    [q], in the same order. *)
Theorem longer_query_narrows_the_search
    (self : State) (q q' : str) (l' : list (gmap str val))
    (Hq : contains q q' = true)
    (H : _filtered_payloads lower repr_other self q' = Ok l') :
  exists l, _filtered_payloads lower repr_other self q = Ok l /\
            l' `sublist_of` l.
Proof.
  unfold _filtered_payloads in *.
  destruct q as [|c q]; cbn [nonempty].
  - eexists. split; [reflexivity|].
    destruct q' as [|c' q']; cbn [nonempty] in H.
    + now injection H as <-.
    + now destruct (filter_payloads_spec lower repr_other _ _ _ H).
  - destruct q' as [|c' q']; cbn [nonempty] in H.
    + apply contains_spec in Hq. destruct Hq as [pre [post Hq]].
      now destruct pre.
    + exact (filter_payloads_narrow lower repr_other _ _ _ _ Hq H).
Qed.

(** X18: when a search fails.  The empty query always returns.  Any
    other query raises [AttributeError] exactly when some stored payload
    has a [usage] that is a true value but not a dictionary, whatever
    the query is and wherever that payload stands; no other exception
    is raised. *)
Theorem search_raises_on_ill_typed_usage (self : State) (query : str) :
  _filtered_payloads lower repr_other self [] = Ok (all_payloads self) /\
  (query <> [] ->
   (_filtered_payloads lower repr_other self query = Raise AttributeError
    <-> Exists (fun p =>
                  as_dict (or_empty_dict (dict_get p (lit "usage"))) = None)
          (all_payloads self)) /\
   (forall e, _filtered_payloads lower repr_other self query = Raise e ->
              e = AttributeError)).
Proof.
  split; [reflexivity|]. intros Hq. unfold _filtered_payloads.
  destruct query as [|c q]; [now contradiction Hq|]. cbn [nonempty].
  destruct (filter_payloads_raises lower repr_other (c :: q)
              (all_payloads self)) as [[l [E HF]] | [E HE]]; rewrite E.
  - split; [|discriminate]. split; [discriminate|].
    intros HE. apply Exists_exists in HE. destruct HE as [p [Hp Hn]].
    rewrite Forall_forall in HF. now destruct (HF p Hp).
  - split; [now split|]. now intros e [= <-].
Qed.

End SearchClaims.

Section SearchWitnesses.

Import Py Text Dashboard Examples.

Lemma search_keeps_the_matches_in_order_witness :
  let self := dashboard true [] [codex; claude; codex] in
  _filtered_payloads ascii_lower (fun _ => []) self (lit "cod")
  = Ok [codex; codex] /\
  [codex; codex] `sublist_of` all_payloads self.
Proof.
  intros self.
  assert (_filtered_payloads ascii_lower (fun _ => []) self (lit "cod")
          = Ok [codex; codex]) as H by now vm_compute.
  split; [exact H|].
  exact (proj1 (proj2 (proj2
           (search_keeps_the_matches_in_order ascii_lower (fun _ => [])
              self (lit "cod") [codex; codex] H)))).
Defined.

Lemma longer_query_narrows_the_search_witness :
  let self := dashboard true [] [codex; claude] in
  contains (lit "c") (lit "cod") = true /\
  _filtered_payloads ascii_lower (fun _ => []) self (lit "cod") = Ok [codex]
  /\ exists l, _filtered_payloads ascii_lower (fun _ => []) self (lit "c")
               = Ok l /\ [codex] `sublist_of` l.
Proof.
  intros self.
  assert (contains (lit "c") (lit "cod") = true) as Hq by now vm_compute.
  assert (_filtered_payloads ascii_lower (fun _ => []) self (lit "cod")
          = Ok [codex]) as H by now vm_compute.
  split; [exact Hq|]. split; [exact H|].
  exact (longer_query_narrows_the_search ascii_lower (fun _ => [])
           self (lit "c") (lit "cod") [codex] Hq H).
Defined.

Lemma search_raises_on_ill_typed_usage_witness :
  let broken : gmap str val := {[ lit "usage" := Int 5 ]} in
  let self := dashboard true [] [codex; broken] in
  lit "x" <> [] /\
  _filtered_payloads ascii_lower (fun _ => []) self (lit "x")
  = Raise AttributeError.
Proof.
  intros broken self.
  assert (lit "x" <> []) as Hq by discriminate.
  split; [exact Hq|].
  apply (proj2 (search_raises_on_ill_typed_usage ascii_lower (fun _ => [])
                  self (lit "x")) Hq).
  apply Exists_cons_tl, Exists_cons_hd. reflexivity.
Defined.

End SearchWitnesses.

(** ** Content of the dashboard *)

Section RenderFacts.

Import Py Text Dashboard.

Variable lower : str -> str.
Variable is_space : N -> bool.
Variable repr_other : val -> str.
Variable format_1f : num -> result str.

Lemma with_content_id (self : State) :
  with_content (content self) self = self.
Proof. now destruct self. Qed.

Lemma with_content_twice (c c' : list DashboardWindow.Widget)
    (self : State) :
  with_content c (with_content c' self) = with_content c self.
Proof. reflexivity. Qed.

Lemma pack_cards_spec (payloads : list (gmap str val)) (self : State) :
  match pack_cards repr_other format_1f payloads self with
  | (Ok _, self') =>
      exists cards,
        Forall2 (fun p w =>
                   DashboardWindow._provider_card repr_other format_1f p
                   = Ok w) payloads cards /\
        self' = with_content (content self ++ cards) self
  | (Raise e, self') =>
      exists done p rest cards,
        payloads = done ++ p :: rest /\
        Forall2 (fun p w =>
                   DashboardWindow._provider_card repr_other format_1f p
                   = Ok w) done cards /\
        DashboardWindow._provider_card repr_other format_1f p = Raise e /\
        self' = with_content (content self ++ cards) self
  end.
Proof.
  revert self. induction payloads as [|p rest IH]; intros self; simpl.
  - exists []. split; [constructor|].
    now rewrite app_nil_r, with_content_id.
  - destruct (DashboardWindow._provider_card repr_other format_1f p)
      as [card|e] eqn:Ec.
    + specialize (IH (with_content (content self ++ [card]) self)).
      destruct (pack_cards repr_other format_1f rest _) as [[u|e] self'].
      * destruct IH as [cards [HF ->]]. exists (card :: cards).
        split; [now constructor|].
        cbn [content with_content]. now rewrite <- app_assoc.
      * destruct IH as [done [q [rest' [cards [-> [HF [Hq ->]]]]]]].
        exists (p :: done), q, rest', (card :: cards).
        split; [reflexivity|]. split; [now constructor|].
        split; [exact Hq|].
        cbn [content with_content]. now rewrite <- app_assoc.
    + exists [], p, rest, []. split; [reflexivity|].
      split; [constructor|]. split; [exact Ec|].
      now rewrite app_nil_r, with_content_id.
Qed.

Lemma render_spec (now : str) (self : State) :
  let query := lower (strip is_space (search_text self)) in
  let card := DashboardWindow._provider_card repr_other format_1f in
  match _render_filtered lower is_space repr_other format_1f now self with
  | (Ok _, self') =>
      is_visible self' = true /\
      exists l,
        _filtered_payloads lower repr_other self query = Ok l /\
        match l with
        | [] => content self'
                = [DashboardWindow.Label (lit "No matching providers.")]
        | _ :: _ => Forall2 (fun p w => card p = Ok w) l (content self')
        end
  | (Raise e, self') =>
      window self' = window self /\
      (self' = self \/
       exists l done p rest,
         _filtered_payloads lower repr_other self query = Ok l /\
         l = done ++ p :: rest /\ card p = Raise e /\
         Forall2 (fun p w => card p = Ok w) done (content self'))
  end.
Proof.
  intros query card. unfold _render_filtered. fold query.
  destruct (_filtered_payloads lower repr_other self query) as [l|e] eqn:El.
  2:{ split; [reflexivity | now left]. }
  destruct l as [|p l].
  { split; [reflexivity|]. exists []. split; reflexivity. }
  pose proof (pack_cards_spec (p :: l)
                (with_content []
                   (with_updated_label
                      (lit "Updated " ++ now ++ lit "  " ++ [BULLET]
                         ++ lit "  " ++ panel_text self) self))) as H.
  destruct (pack_cards repr_other format_1f (p :: l) _) as [[u|e] self'].
  - destruct H as [cards [HF ->]]. split; [reflexivity|].
    exists (p :: l). split; [reflexivity|]. exact HF.
  - destruct H as [done [q [rest [cards [E [HF [Hq ->]]]]]]].
    split; [reflexivity|]. right.
    exists (p :: l), done, q, rest. split; [reflexivity|].
    split; [exact E|]. split; [exact Hq | exact HF].
Qed.


Lemma render_fields (now : str) (self : State) :
  let self' :=
    (_render_filtered lower is_space repr_other format_1f now self).2 in
  all_payloads self' = all_payloads self /\
  panel_text self' = panel_text self /\
  search_text self' = search_text self.
Proof.
  unfold _render_filtered.
  destruct (_filtered_payloads lower repr_other self _) as [l|e];
    [|now repeat split].
  destruct l as [|p l]; [now repeat split|].
  match goal with
  | |- context [pack_cards _ _ ?l ?s] =>
      pose proof (pack_cards_spec l s) as H;
      destruct (pack_cards repr_other format_1f l s) as [[u|e] self']
  end.
  - destruct H as [cards [_ ->]]. now repeat split.
  - destruct H as [done [q [rest [cards [_ [_ [_ ->]]]]]]].
    now repeat split.
Qed.

Lemma render_no_payloads (now : str) (self : State) :
  all_payloads self = [] ->
  _render_filtered lower is_space repr_other format_1f now self
  = (Ok tt,
     show_all
       (with_content
          [DashboardWindow.Label (lit "No matching providers.")]
          (with_updated_label
             (lit "Updated " ++ now ++ lit "  " ++ [BULLET] ++ lit "  "
                ++ panel_text self) self))).
Proof.
  intros H. unfold _render_filtered, _filtered_payloads. rewrite H.
  destruct (nonempty _); reflexivity.
Qed.

End RenderFacts.

Section RenderClaims.

Import Py Text Dashboard.

Variable lower : str -> str.
Variable is_space : N -> bool.
Variable repr_other : val -> str.
Variable format_1f : num -> result str.

(** X19: what the dashboard shows after rendering.  The query is the
    search text, stripped and in lower case.  When rendering returns,
    the window is shown and the content box holds, whatever it held
    before, the single label "No matching providers." if no payload
    matches, and otherwise one card per matching payload, in order.
    When it raises, the window is as visible as it was: either the search
    raised and nothing at all changed, or a card raised and the content
    box holds the cards of the payloads before the failing one. *)
Theorem render_replaces_the_content (now : str) (self : State) :
  let query := lower (strip is_space (search_text self)) in
  let card := DashboardWindow._provider_card repr_other format_1f in
  match _render_filtered lower is_space repr_other format_1f now self with
  | (Ok _, self') =>
      is_visible self' = true /\
      exists l,
        _filtered_payloads lower repr_other self query = Ok l /\
        match l with
        | [] => content self'
                = [DashboardWindow.Label (lit "No matching providers.")]
        | _ :: _ => Forall2 (fun p w => card p = Ok w) l (content self')
        end
  | (Raise e, self') =>
      window self' = window self /\
      (self' = self \/
       exists l done p rest,
         _filtered_payloads lower repr_other self query = Ok l /\
         l = done ++ p :: rest /\ card p = Raise e /\
         Forall2 (fun p w => card p = Ok w) done (content self'))
  end.
Proof. exact (render_spec lower is_space repr_other format_1f now self). Qed.

End RenderClaims.

(** ** The menu of the tray *)

Section MenuFacts.

Import Py Text Launcher CodexBarTray Tray.

Variable repr_other : val -> str.
Variable format_1f : num -> result str.

Local Ltac menu_steps :=
  unfold mbind, menu_bind, lift, skip, mret, menu_ret,
    _append_info, _append_separator;
  cbn [fst snd].

Lemma for_each_appends (payloads : list (gmap str val)) :
  exists r added,
    (forall menu,
       for_each (_append_provider_block repr_other format_1f) payloads menu
       = (r, menu ++ added)) /\
    (r = Ok tt <->
     Forall (fun p =>
               (_append_provider_block repr_other format_1f p []).1 = Ok tt)
       payloads).
Proof.
  induction payloads as [|p rest [r [added [IH Hr]]]].
  - exists (Ok tt), []. split.
    + intros menu. simpl. unfold skip, mret, menu_ret.
      now rewrite app_nil_r.
    + split; [constructor | reflexivity].
  - destruct (provider_block_appends repr_other format_1f p)
      as [rp [ap [Hp _]]].
    destruct rp as [[]|e].
    + exists r, (ap ++ added). split.
      * intros menu. simpl. unfold mbind, menu_bind. rewrite Hp, IH.
        now rewrite app_assoc.
      * rewrite Hr. split.
        -- intros HF. constructor; [now rewrite Hp | exact HF].
        -- intros HF. now inversion HF.
    + exists (Raise e), ap. split.
      * intros menu. simpl. unfold mbind, menu_bind. now rewrite Hp.
      * split; [discriminate|]. intros HF. inversion HF as [|? ? H1 H2].
        rewrite Hp in H1. discriminate.
Qed.

Lemma menu_items_spec (now : str) (panel usage : CommandResult)
    (payloads : list (gmap str val)) (text : str) :
  exists r body,
    menu_items repr_other format_1f now panel usage payloads text []
    = (r, [InfoItem (lit "<b>CodexBar</b>") true;
           InfoItem (lit "<tt>" ++ text ++ lit "</tt>") true;
           InfoItem (lit "Updated " ++ now) false;
           SeparatorMenuItem] ++ body) /\
    (r = Ok tt <->
     Forall (fun p =>
               (_append_provider_block repr_other format_1f p []).1 = Ok tt)
       payloads) /\
    (r = Ok tt -> exists body', body = body' ++ [SeparatorMenuItem]).
Proof.
  unfold menu_items. menu_steps.
  change (((([] ++ [?a]) ++ [?b]) ++ [?c]) ++ [?d]) with [a; b; c; d].
  set (header := [InfoItem (lit "<b>CodexBar</b>") true; _; _; _]).
  destruct (negb (ok panel) && nonempty (stderr panel));
    (destruct payloads as [|p rest];
     [ eexists (Ok tt), _; split; [|split];
       [ cbn [app]; reflexivity
       | split; [constructor | reflexivity]
       | intros _; eexists; cbn [app];
         first [ exact (eq_refl ([_] ++ [SeparatorMenuItem]))
               | exact (eq_refl ([_; _] ++ [SeparatorMenuItem])) ] ]
     | destruct (for_each_appends (p :: rest)) as [r [added [Hf Hr]]];
       rewrite Hf; destruct r as [[]|e];
       [ eexists (Ok tt), _; split; [|split];
         [ rewrite <- !app_assoc; reflexivity
         | exact Hr
         | intros _; eexists; rewrite ?app_assoc; reflexivity ]
       | eexists (Raise e), _; split; [|split];
         [ rewrite <- ?app_assoc; reflexivity
         | exact Hr
         | discriminate ] ] ]).
Qed.

End MenuFacts.

Section TrayFacts.

Import Py Text Launcher CodexBarTray Tray.

Variable is_space : N -> bool.
Variable lower : str -> str.
Variable repr_other : val -> str.
Variable format_1f : num -> result str.
Variable json_loads : str -> Loads.
Variable subprocess_run : list str -> Process.
Variable exists_ : str -> bool.
Variable expanduser : str -> str.
Variable parent : str -> str.
Variable stem : str -> str.

Lemma rebuild_menu_spec (now : str) (panel usage : CommandResult)
    (payloads : list (gmap str val)) (self : State) :
  exists r body,
    rebuild_menu repr_other format_1f now panel usage payloads self
    = (r, with_menu
            ((Item <$> [InfoItem (lit "<b>CodexBar</b>") true;
                        InfoItem (lit "<tt>" ++ last_panel_text self
                                    ++ lit "</tt>") true;
                        InfoItem (lit "Updated " ++ now) false;
                        SeparatorMenuItem])
               ++ (Item <$> body)
               ++ match r with Ok _ => actions | Raise _ => [] end)
            self) /\
    (r = Ok tt <->
     Forall (fun p =>
               (_append_provider_block repr_other format_1f p []).1 = Ok tt)
       payloads) /\
    (r = Ok tt -> exists body', body = body' ++ [SeparatorMenuItem]).
Proof.
  unfold rebuild_menu.
  destruct (menu_items_spec repr_other format_1f now panel usage payloads
              (last_panel_text self)) as [r [body [-> [Hr Hb]]]].
  destruct r as [[]|e].
  - exists (Ok tt), body. split; [|split; assumption].
    now rewrite fmap_app, <- app_assoc.
  - exists (Raise e), body. split; [|split; assumption].
    now rewrite fmap_app, app_nil_r.
Qed.

Lemma update_cases (now now' : str) (self : State) :
  let after :=
    update is_space lower repr_other format_1f json_loads subprocess_run
      exists_ expanduser parent stem now now' self in
  match run_command is_space subprocess_run (panel_command self) with
  | Raises e => after = (Raises e, self)
  | Returns panel =>
      let good := ok panel && nonempty (stdout panel) in
      let text := if good then stdout panel else lit "CodexBar ERR" in
      let image' :=
        if good
        then if exists_ (expanduser (icon self))
             then FromFile (expanduser (icon self))
             else FromIconName (icon self)
        else FromIconName (lit "dialog-warning") in
      let relabel i := if has_set_label i then set_label text [] i else i in
      let indicator' i :=
        if good
        then
          match status_icon self with
          | Some _ => set_status ACTIVE i
          | None =>
              if exists_ (expanduser (icon self))
              then set_icon_full (stem (expanduser (icon self)))
                     (lit "CodexBar")
                     (set_icon_theme_path (parent (expanduser (icon self)))
                        (set_status ACTIVE i))
              else set_icon_full (icon self) (lit "CodexBar")
                     (set_status ACTIVE i)
          end
        else set_icon_full (lit "dialog-warning") (lit "CodexBar")
               (set_status ATTENTION i) in
      let mid :=
        {| binary := binary self; provider := provider self;
           source := source self; icon := icon self;
           status_icon :=
             (fun s => set_tooltip_text text (set_image image' s))
               <$> status_icon self;
           indicator :=
             (fun i => relabel (indicator' i)) <$> indicator self;
           menu := menu self;
           last_panel_text := text;
           last_payloads := last_payloads self;
           dashboard_window := dashboard_window self |} in
      match run_command is_space subprocess_run (usage_command self) with
      | Raises e => after = (Raises e, mid)
      | Returns usage =>
          match _parse_usage_payload json_loads usage with
          | Raises e => after = (Raises e, mid)
          | Returns parsed =>
              let payloads := default [] parsed in
              exists r body,
                after
                = (let self' :=
                     with_menu
                       ((Item <$> [InfoItem (lit "<b>CodexBar</b>") true;
                                   InfoItem (lit "<tt>" ++ text
                                               ++ lit "</tt>") true;
                                   InfoItem (lit "Updated " ++ now) false;
                                   SeparatorMenuItem])
                          ++ (Item <$> body)
                          ++ match r with
                             | Ok _ => actions
                             | Raise _ => []
                             end)
                       (with_last_payloads payloads mid) in
                   match r with
                   | Raise e => (Raises (Builtin e), self')
                   | Ok _ =>
                       if Dashboard.is_visible (dashboard_window self)
                       then
                         match
                           Dashboard.set_payloads lower is_space repr_other
                             format_1f now' payloads text
                             (dashboard_window self)
                         with
                         | (Raise e, d) =>
                             (Raises (Builtin e),
                              with_dashboard_window d self')
                         | (Ok _, d) =>
                             (Returns true, with_dashboard_window d self')
                         end
                       else (Returns true, self')
                   end) /\
                (r = Ok tt <->
                 Forall (fun p =>
                           (_append_provider_block repr_other format_1f p
                              []).1 = Ok tt)
                   payloads) /\
                (r = Ok tt ->
                 exists body', body = body' ++ [SeparatorMenuItem])
          end
      end
  end.
Proof.
  intros after. unfold after, update. clear after.
  destruct self as [b p so ic si ind m t l d].
  unfold panel_command, usage_command.
  cbn [binary provider source].
  destruct (run_command is_space subprocess_run
              (with_provider [b; lit "panel"; lit "--source"; so] p))
    as [panel|e]; [|reflexivity].
  cbv zeta.
  destruct (ok panel && nonempty (stdout panel));
    destruct si as [s|]; destruct ind as [i|];
    unfold _apply_icon;
    cbn [binary provider source icon status_icon indicator menu
         last_panel_text last_payloads dashboard_window
         with_status_icon with_indicator with_menu with_last_panel_text
         with_last_payloads with_dashboard_window fmap option_fmap
         option_map];
    try destruct (exists_ (expanduser ic));
    cbn [binary provider source icon status_icon indicator menu
         last_panel_text last_payloads dashboard_window
         with_status_icon with_indicator with_menu with_last_panel_text
         with_last_payloads with_dashboard_window fmap option_fmap
         option_map];
    (destruct (run_command is_space subprocess_run
                 (with_provider
                    [b; lit "usage"; lit "--format"; lit "json";
                     lit "--source"; so] p))
       as [usage|e]; [|reflexivity]);
    (destruct (_parse_usage_payload json_loads usage) as [parsed|e];
     [|reflexivity]);
    match goal with
    | |- context [rebuild_menu _ _ now panel usage ?pl ?st] =>
        destruct (rebuild_menu_spec now panel usage pl st)
          as [r [body [E [Hr Hb]]]]
    end;
    rewrite E; exists r, body;
    (split; [destruct r as [[]|e]; reflexivity | split; assumption]).
Qed.

Lemma present_from_icon_geometry_presents (d : option Gdk.Display)
    (area : Gdk.Rectangle) (w : DashboardWindow.Window) :
  DashboardWindow.visible
    (DashboardWindow.present_from_icon_geometry d area w) = true /\
  DashboardWindow.presented
    (DashboardWindow.present_from_icon_geometry d area w) = true.
Proof.
  unfold DashboardWindow.present_from_icon_geometry.
  destruct d as [d|]; [|apply present_near_pointer_presents].
  destruct (Gdk.get_monitor_at_point d _ _);
    [|apply present_near_pointer_presents].
  now destruct (DashboardWindow.popup_size _).
Qed.

Variable display : option Gdk.Display.

Lemma click_visible (get_geometry : option Gdk.Rectangle) (now' : str)
    (self : State) :
  Dashboard.is_visible (dashboard_window self) = true ->
  on_status_icon_activate is_space lower repr_other format_1f display
    get_geometry now' self
  = (Ok tt,
     with_dashboard_window (Dashboard.hide (dashboard_window self)) self).
Proof. unfold on_status_icon_activate. now intros ->. Qed.

Lemma click_hidden (get_geometry : option Gdk.Rectangle) (now' : str)
    (self : State) :
  Dashboard.is_visible (dashboard_window self) = false ->
  let after :=
    on_status_icon_activate is_space lower repr_other format_1f display
      get_geometry now' self in
  Dashboard.all_payloads (dashboard_window after.2) = last_payloads self /\
  Dashboard.panel_text (dashboard_window after.2) = last_panel_text self /\
  match after.1 with
  | Ok _ =>
      Dashboard.is_visible (dashboard_window after.2) = true /\
      DashboardWindow.presented (Dashboard.window (dashboard_window after.2))
      = true
  | Raise _ => Dashboard.is_visible (dashboard_window after.2) = false
  end.
Proof.
  intros Ev. unfold on_status_icon_activate. rewrite Ev.
  unfold Dashboard.set_payloads.
  set (d0 := {| Dashboard.window := _ |}).
  pose proof (render_fields lower is_space repr_other format_1f now' d0)
    as [Hp [Ht _]].
  pose proof (render_spec lower is_space repr_other format_1f now' d0) as Hs.
  destruct (Dashboard._render_filtered lower is_space repr_other format_1f
              now' d0) as [[u|e] d];
    cbn [fst snd] in *.
  2:{ cbn [fst snd dashboard_window with_dashboard_window].
      split; [exact Hp|]. split; [exact Ht|].
      destruct Hs as [Hw _]. unfold Dashboard.is_visible in *.
      rewrite Hw. exact Ev. }
  destruct (status_icon self) as [s|]; [destruct get_geometry as [area|]|];
    cbn [fst snd dashboard_window with_dashboard_window];
    (split; [exact Hp|]; split; [exact Ht|]).
  - exact (present_from_icon_geometry_presents display area
             (Dashboard.window d)).
  - exact (present_near_pointer_presents display (Dashboard.window d)).
  - exact (present_near_pointer_presents display (Dashboard.window d)).
Qed.

End TrayFacts.

(** ** The tray: menu and periodic update *)

Section TrayClaims.

Import Py Text Launcher CodexBarTray Tray.

Variable is_space : N -> bool.
Variable lower : str -> str.
Variable repr_other : val -> str.
Variable format_1f : num -> result str.
Variable json_loads : str -> Loads.
Variable subprocess_run : list str -> Process.
Variable exists_ : str -> bool.
Variable expanduser : str -> str.
Variable parent : str -> str.
Variable stem : str -> str.

(** X20: the menu after a rebuild.  Whatever the menu held before, it
    starts with the title, the panel text, the time and a separator.
    The rebuild returns exactly when every provider block returns, and
    then the menu ends with a separator and the three actions Open
    Dashboard, Refresh and Quit.  When a provider block raises, the menu
    is left without any action: it offers neither Refresh nor Quit. *)
Theorem rebuilt_menu_ends_with_the_actions (now : str)
    (panel usage : CommandResult) (payloads : list (gmap str val))
    (self : State) :
  let header :=
    Item <$> [InfoItem (lit "<b>CodexBar</b>") true;
              InfoItem (lit "<tt>" ++ last_panel_text self ++ lit "</tt>")
                true;
              InfoItem (lit "Updated " ++ now) false;
              SeparatorMenuItem] in
  let result :=
    rebuild_menu repr_other format_1f now panel usage payloads self in
  (exists rest, menu result.2 = header ++ rest) /\
  (result.1 = Ok tt <->
   Forall (fun p =>
             (_append_provider_block repr_other format_1f p []).1 = Ok tt)
     payloads) /\
  match result.1 with
  | Ok _ =>
      exists body,
        menu result.2
        = header ++ (Item <$> body) ++ Item SeparatorMenuItem :: actions
  | Raise _ => Forall (fun entry => is_action entry = false) (menu result.2)
  end /\
  (forall old,
     rebuild_menu repr_other format_1f now panel usage payloads
       (with_menu old self) = result).
Proof.
  intros header result.
  destruct (rebuild_menu_spec repr_other format_1f now panel usage payloads
              self) as [r [body [E [Hr Hb]]]].
  assert (forall old,
            rebuild_menu repr_other format_1f now panel usage payloads
              (with_menu old self) = result) as Hold by reflexivity.
  unfold result in *. clear result. rewrite E in *. cbn [fst snd menu with_menu].
  split; [eexists; reflexivity|]. split; [exact Hr|]. split; [|exact Hold].
  destruct r as [[]|e].
  - destruct (Hb eq_refl) as [body' ->]. exists body'.
    now rewrite fmap_app, <- app_assoc.
  - rewrite app_nil_r. apply Forall_app. split.
    + repeat constructor.
    + apply Forall_fmap, Forall_forall. reflexivity.
Qed.

Local Ltac project :=
  cbn [fst snd binary provider source icon status_icon indicator menu
       last_panel_text last_payloads dashboard_window
       with_menu with_last_payloads with_dashboard_window].

(** X21: after an update the panel text is the same everywhere.  When
    the panel command raises an exception other than
    [FileNotFoundError], the update raises it and changes nothing.
    Otherwise, whether the update then returns or raises, the text kept
    by the tray is never empty: it is the output of the panel command
    when that command succeeded and printed something, and
    "CodexBar ERR" otherwise; the tooltip of the status icon and the
    label of the indicator (when the library has labels) show that
    text.  So does the second line of the menu, unless the usage
    command or [json.loads] raises: then the update raises too and the
    menu is left as it was. *)
Theorem panel_text_is_the_same_everywhere (now now' : str) (self : State) :
  let run := run_command is_space subprocess_run in
  let after :=
    update is_space lower repr_other format_1f json_loads subprocess_run
      exists_ expanduser parent stem now now' self in
  match run (panel_command self) with
  | Raises e => after = (Raises e, self)
  | Returns panel =>
      let text := last_panel_text after.2 in
      text <> [] /\
      text = (if ok panel && nonempty (stdout panel)
              then stdout panel else lit "CodexBar ERR") /\
      (forall s, status_icon after.2 = Some s -> tooltip_text s = text) /\
      (forall i, indicator after.2 = Some i ->
         has_set_label i = true -> label i = Some (text, [])) /\
      let shown :=
        menu after.2 !! 1%nat
        = Some (Item (InfoItem (lit "<tt>" ++ text ++ lit "</tt>") true)) in
      match run (usage_command self) with
      | Raises e => after.1 = Raises e /\ menu after.2 = menu self
      | Returns usage =>
          match _parse_usage_payload json_loads usage with
          | Raises e => after.1 = Raises e /\ menu after.2 = menu self
          | Returns _ => shown
          end
      end
  end.
Proof.
  intros run after.
  pose proof (update_cases is_space lower repr_other format_1f json_loads
                subprocess_run exists_ expanduser parent stem now now' self)
    as H.
  fold run after in H. cbv zeta in H.
  destruct (run (panel_command self)) as [panel|e]; [|exact H].
  set (good := ok panel && nonempty (stdout panel)) in *.
  assert ((if good then stdout panel else lit "CodexBar ERR") <> [])
    as Hne.
  { unfold good. destruct (ok panel); [|discriminate].
    destruct (stdout panel); [discriminate | discriminate]. }
  assert (forall (st : option StatusIcon) (f : StatusIcon -> StatusIcon)
            (text : str),
            (forall s, tooltip_text (f s) = text) ->
            forall s, f <$> st = Some s -> tooltip_text s = text) as Htip.
  { intros st f text Hf s Hs. destruct st; [|discriminate].
    injection Hs as <-. apply Hf. }
  assert (forall (ind : option Indicator) (f : Indicator -> Indicator)
            (text : str),
            (forall i, has_set_label (f i) = has_set_label i) ->
            forall i,
              (fun i0 => if has_set_label (f i0)
                         then set_label text [] (f i0) else f i0) <$> ind
              = Some i ->
              has_set_label i = true -> label i = Some (text, [])) as Hlab.
  { intros ind f text Hf i Hi. destruct ind as [i0|]; [|discriminate].
    injection Hi as <-. destruct (has_set_label (f i0)) eqn:E;
      [reflexivity | congruence]. }
  assert (forall i,
            has_set_label
              (if good
               then
                 match status_icon self with
                 | Some _ => set_status ACTIVE i
                 | None =>
                     if exists_ (expanduser (icon self))
                     then set_icon_full (stem (expanduser (icon self)))
                            (lit "CodexBar")
                            (set_icon_theme_path
                               (parent (expanduser (icon self)))
                               (set_status ACTIVE i))
                     else set_icon_full (icon self) (lit "CodexBar")
                            (set_status ACTIVE i)
                 end
               else set_icon_full (lit "dialog-warning") (lit "CodexBar")
                      (set_status ATTENTION i))
            = has_set_label i) as Hkeep.
  { intros i. destruct good; [|reflexivity].
    destruct (status_icon self); [reflexivity|].
    now destruct (exists_ (expanduser (icon self))). }
  destruct (run (usage_command self)) as [usage|e].
  2:{ rewrite H. project. cbv zeta.
      split; [exact Hne|]. split; [reflexivity|].
      split; [apply Htip; reflexivity|].
      split; [apply Hlab; exact Hkeep|]. now split. }
  destruct (_parse_usage_payload json_loads usage) as [parsed|e].
  2:{ rewrite H. project. cbv zeta.
      split; [exact Hne|]. split; [reflexivity|].
      split; [apply Htip; reflexivity|].
      split; [apply Hlab; exact Hkeep|]. now split. }
  destruct H as [r [body [H _]]]. rewrite H. clear H.
  cbv zeta.
  destruct r as [[]|e];
    [destruct (Dashboard.is_visible (dashboard_window self));
     [destruct (Dashboard.set_payloads _ _ _ _ _ _ _ _) as [[u|e] d]|]|];
    project;
    (split; [exact Hne|]; split; [reflexivity|];
     split; [apply Htip; reflexivity|];
     split; [apply Hlab; exact Hkeep | reflexivity]).
Qed.

(** X22: the icon follows the panel command.  When the panel command
    raises an exception other than [FileNotFoundError], the update
    raises it and changes nothing.  After an update whose panel command
    failed or printed nothing, the tray shows the warning icon, and an
    indicator is in the attention status.  After an update whose panel
    command succeeded, a status icon shows the configured icon again,
    from its file if the file exists and by name otherwise, and an
    indicator is active and, when there is no status icon, shows the
    configured icon; what was shown before plays no role. *)
Theorem icon_follows_the_panel_command (now now' : str) (self : State) :
  let after :=
    update is_space lower repr_other format_1f json_loads subprocess_run
      exists_ expanduser parent stem now now' self in
  let path := expanduser (icon self) in
  match run_command is_space subprocess_run (panel_command self) with
  | Raises e => after = (Raises e, self)
  | Returns panel =>
      if ok panel && nonempty (stdout panel)
      then
        (forall s, status_icon after.2 = Some s ->
           image s = if exists_ path then FromFile path
                     else FromIconName (icon self)) /\
        (forall i, indicator after.2 = Some i ->
           status i = ACTIVE /\
           (status_icon self = None ->
            if exists_ path
            then icon_full i = (stem path, lit "CodexBar") /\
                 icon_theme_path i = Some (parent path)
            else icon_full i = (icon self, lit "CodexBar")))
      else
        (forall s, status_icon after.2 = Some s ->
           image s = FromIconName (lit "dialog-warning")) /\
        (forall i, indicator after.2 = Some i ->
           status i = ATTENTION /\
           icon_full i = (lit "dialog-warning", lit "CodexBar"))
  end.
Proof.
  intros after path.
  pose proof (update_cases is_space lower repr_other format_1f json_loads
                subprocess_run exists_ expanduser parent stem now now' self)
    as H.
  fold after in H. cbv zeta in H.
  destruct (run_command is_space subprocess_run (panel_command self))
    as [panel|e]; [|exact H].
  fold path in H.
  set (good := ok panel && nonempty (stdout panel)) in *.
  assert (exists m l d,
            after.2
            = {| binary := binary self; provider := provider self;
                 source := source self; icon := icon self;
                 status_icon :=
                   (fun s =>
                      set_tooltip_text
                        (if good then stdout panel else lit "CodexBar ERR")
                        (set_image
                           (if good
                            then if exists_ path then FromFile path
                                 else FromIconName (icon self)
                            else FromIconName (lit "dialog-warning")) s))
                     <$> status_icon self;
                 indicator :=
                   (fun i =>
                      (fun i0 =>
                         if has_set_label i0
                         then set_label
                                (if good then stdout panel
                                 else lit "CodexBar ERR") [] i0
                         else i0)
                        (if good
                         then
                           match status_icon self with
                           | Some _ => set_status ACTIVE i
                           | None =>
                               if exists_ path
                               then set_icon_full (stem path) (lit "CodexBar")
                                      (set_icon_theme_path (parent path)
                                         (set_status ACTIVE i))
                               else set_icon_full (icon self)
                                      (lit "CodexBar") (set_status ACTIVE i)
                           end
                         else set_icon_full (lit "dialog-warning")
                                (lit "CodexBar") (set_status ATTENTION i)))
                     <$> indicator self;
                 menu := m;
                 last_panel_text :=
                   if good then stdout panel else lit "CodexBar ERR";
                 last_payloads := l;
                 dashboard_window := d |}) as [m [l [d E]]].
  { destruct (run_command is_space subprocess_run (usage_command self))
      as [usage|e]; [|rewrite H; eexists _, _, _; reflexivity].
    destruct (_parse_usage_payload json_loads usage) as [parsed|e];
      [|rewrite H; eexists _, _, _; reflexivity].
    destruct H as [r [body [H _]]]. rewrite H.
    destruct r as [[]|e];
      [destruct (Dashboard.is_visible (dashboard_window self));
       [destruct (Dashboard.set_payloads _ _ _ _ _ _ _ _) as [[u|e] d]|]|];
      eexists _, _, _; reflexivity. }
  rewrite E. clear E H. cbn [status_icon indicator].
  destruct good; split.
  - intros s Hs; destruct (status_icon self); [|discriminate].
    now injection Hs as <-.
  - intros i Hi; destruct (indicator self) as [i0|]; [|discriminate].
    injection Hi as <-. cbv beta.
    destruct (status_icon self).
    + split; [now destruct (has_set_label _) | discriminate].
    + destruct (exists_ path);
        (split; [now destruct (has_set_label _)|]; intros _;
         now destruct (has_set_label _)).
  - intros s Hs; destruct (status_icon self); [|discriminate].
    now injection Hs as <-.
  - intros i Hi; destruct (indicator self) as [i0|]; [|discriminate].
    injection Hi as <-. cbv beta.
    split; now destruct (has_set_label _).
Qed.

(** X23: an update refreshes the dashboard only while it is shown.  A
    hidden dashboard is left exactly as it was, whatever happens.  When
    the panel command raises, the update raises and changes nothing;
    when the usage command or [json.loads] raises an exception that is
    not caught, the update raises it and the payloads kept by the tray
    and the dashboard stay as they were.  Otherwise the payloads kept
    by the tray are the dictionaries parsed from the usage output, or
    none when it cannot be parsed, and when the dashboard is shown and
    the update returns, the dashboard holds the same payloads and the
    same panel text as the tray and is still shown. *)
Theorem update_refreshes_a_visible_dashboard (now now' : str)
    (self : State) :
  let run := run_command is_space subprocess_run in
  let after :=
    update is_space lower repr_other format_1f json_loads subprocess_run
      exists_ expanduser parent stem now now' self in
  let stale :=
    last_payloads after.2 = last_payloads self /\
    dashboard_window after.2 = dashboard_window self in
  (Dashboard.is_visible (dashboard_window self) = false ->
   dashboard_window after.2 = dashboard_window self) /\
  match run (panel_command self) with
  | Raises e => after = (Raises e, self)
  | Returns panel =>
      match run (usage_command self) with
      | Raises e => after.1 = Raises e /\ stale
      | Returns usage =>
          match _parse_usage_payload json_loads usage with
          | Raises e => after.1 = Raises e /\ stale
          | Returns parsed =>
              last_payloads after.2 = default [] parsed /\
              (Dashboard.is_visible (dashboard_window self) = true ->
               forall b, after.1 = Returns b ->
                 b = true /\
                 Dashboard.all_payloads (dashboard_window after.2)
                 = last_payloads after.2 /\
                 Dashboard.panel_text (dashboard_window after.2)
                 = last_panel_text after.2 /\
                 Dashboard.is_visible (dashboard_window after.2) = true)
          end
      end
  end.
Proof.
  intros run after stale. unfold stale. clear stale.
  pose proof (update_cases is_space lower repr_other format_1f json_loads
                subprocess_run exists_ expanduser parent stem now now' self)
    as H.
  fold run after in H. cbv zeta in H.
  destruct (run (panel_command self)) as [panel|e].
  2:{ rewrite H. split; [reflexivity | reflexivity]. }
  destruct (run (usage_command self)) as [usage|e].
  2:{ rewrite H. project. now repeat split. }
  destruct (_parse_usage_payload json_loads usage) as [parsed|e].
  2:{ rewrite H. project. now repeat split. }
  destruct H as [r [body [H _]]]. rewrite H. clear H.
  set (text := if ok panel && nonempty (stdout panel)
               then stdout panel else lit "CodexBar ERR").
  set (payloads := default [] parsed).
  destruct r as [[]|e].
  2:{ project. split; [reflexivity|]. split; [reflexivity|].
      intros _ b [=]. }
  destruct (Dashboard.is_visible (dashboard_window self)) eqn:Ev.
  2:{ project. split; [reflexivity|]. split; [reflexivity|]. discriminate. }
  unfold Dashboard.set_payloads.
  set (d0 := {| Dashboard.window := _ |}).
  pose proof (render_fields lower is_space repr_other format_1f now' d0)
    as [Hp [Ht _]].
  pose proof (render_spec lower is_space repr_other format_1f now' d0) as Hs.
  destruct (Dashboard._render_filtered lower is_space repr_other format_1f
              now' d0) as [[u|e] d];
    project; cbn [fst snd] in *.
  - split; [discriminate|]. split; [reflexivity|]. intros _ b [= <-].
    split; [reflexivity|]. split; [exact Hp|]. split; [exact Ht|].
    exact (proj1 Hs).
  - split; [discriminate|]. split; [reflexivity|]. intros _ b [=].
Qed.

(** X24: an update when the command-line tool is not installed.  When
    both commands fail because the program is not found, the update
    still returns [True]: the panel text is "CodexBar ERR", there are no
    payloads, and the menu is the header, the error of the panel command
    and that of the usage command (or "Unable to parse usage JSON." when
    it has no text), a separator and the three actions.  A dashboard
    that is shown says "No matching providers.". *)
Theorem update_when_the_program_is_missing (now now' : str) (self : State)
    (message message' : str)
    (Hpanel : subprocess_run (panel_command self)
              = FileNotFoundError message)
    (Husage : subprocess_run (usage_command self)
              = FileNotFoundError message') :
  let after :=
    update is_space lower repr_other format_1f json_loads subprocess_run
      exists_ expanduser parent stem now now' self in
  after.1 = Returns true /\
  last_panel_text after.2 = lit "CodexBar ERR" /\
  last_payloads after.2 = [] /\
  menu after.2
  = (Item <$>
       [InfoItem (lit "<b>CodexBar</b>") true;
        InfoItem (lit "<tt>CodexBar ERR</tt>") true;
        InfoItem (lit "Updated " ++ now) false;
        SeparatorMenuItem]
       ++ (if nonempty message
           then [InfoItem (lit "panel: " ++ message) false] else [])
       ++ [InfoItem (if nonempty message' then message'
                     else lit "Unable to parse usage JSON.") false;
           SeparatorMenuItem])
    ++ actions /\
  (Dashboard.is_visible (dashboard_window self) = true ->
   Dashboard.content (dashboard_window after.2)
   = [DashboardWindow.Label (lit "No matching providers.")]).
Proof.
  intros after. unfold after, update. clear after.
  destruct self as [b p so ic si ind m t l d].
  unfold panel_command, usage_command in *.
  cbn [binary provider source] in *.
  unfold run_command. rewrite Hpanel.
  cbn [ok stdout stderr andb negb nonempty].
  cbn [binary provider source icon status_icon indicator menu
       last_panel_text last_payloads dashboard_window
       with_status_icon with_indicator with_menu with_last_panel_text
       with_last_payloads with_dashboard_window].
  rewrite Husage.
  unfold _parse_usage_payload.
  cbn [ok stdout stderr andb negb nonempty default from_option id].
  unfold rebuild_menu, menu_items.
  unfold mbind, menu_bind, lift, skip, mret, menu_ret,
    _append_info, _append_separator.
  cbn [fst snd binary provider source icon status_icon indicator menu
       last_panel_text last_payloads dashboard_window
       with_status_icon with_indicator with_menu with_last_panel_text
       with_last_payloads with_dashboard_window].
  change (((([] ++ [?a]) ++ [?b]) ++ [?c]) ++ [?d]) with [a; b; c; d].
  assert (lit "<tt>" ++ lit "CodexBar ERR" ++ lit "</tt>"
          = lit "<tt>CodexBar ERR</tt>") as -> by now vm_compute.
  cbn [ok stdout stderr negb andb].
  destruct (nonempty message);
    cbn [fst snd binary provider source icon status_icon indicator menu
         last_panel_text last_payloads dashboard_window
         with_status_icon with_indicator with_menu with_last_panel_text
         with_last_payloads with_dashboard_window];
    (destruct (Dashboard.is_visible d) eqn:Ev;
     [ unfold Dashboard.set_payloads;
       rewrite render_no_payloads by reflexivity;
       cbn [fst snd last_panel_text last_payloads menu dashboard_window
            with_menu with_dashboard_window Dashboard.content
            Dashboard.show_all Dashboard.with_window Dashboard.with_content]
     | cbn [fst snd last_panel_text last_payloads menu dashboard_window
            with_menu with_dashboard_window] ];
     repeat split; discriminate).
Qed.

Variable display : option Gdk.Display.

(** X25: a click on the status icon toggles the dashboard.  When the
    dashboard is shown, the click hides it and keeps its payloads and
    its content.  When it is hidden, the click loads the payloads and
    the panel text of the last update into it; if rendering returns,
    the dashboard is shown and presented, and one more click hides it
    again; if rendering raises, the dashboard stays hidden. *)
Theorem click_toggles_the_dashboard (get_geometry : option Gdk.Rectangle)
    (now' : str) (self : State) :
  let click :=
    on_status_icon_activate is_space lower repr_other format_1f display in
  let after := click get_geometry now' self in
  let before_window := dashboard_window self in
  let after_window := dashboard_window after.2 in
  if Dashboard.is_visible before_window
  then
    after.1 = Ok tt /\
    Dashboard.is_visible after_window = false /\
    Dashboard.all_payloads after_window = Dashboard.all_payloads before_window
    /\ Dashboard.content after_window = Dashboard.content before_window
  else
    Dashboard.all_payloads after_window = last_payloads self /\
    Dashboard.panel_text after_window = last_panel_text self /\
    match after.1 with
    | Ok _ =>
        Dashboard.is_visible after_window = true /\
        DashboardWindow.presented (Dashboard.window after_window) = true /\
        forall get_geometry' now'',
          let again := click get_geometry' now'' after.2 in
          again.1 = Ok tt /\
          Dashboard.is_visible (dashboard_window again.2) = false
    | Raise _ => Dashboard.is_visible after_window = false
    end.
Proof.
  intros click after before_window after_window.
  unfold after_window, after, click, before_window.
  clear after_window after click before_window.
  destruct (Dashboard.is_visible (dashboard_window self)) eqn:Ev.
  { rewrite (click_visible is_space lower repr_other format_1f display get_geometry now' self Ev).
    now repeat split. }
  pose proof (click_hidden is_space lower repr_other format_1f display get_geometry now' self Ev) as H.
  cbv zeta in H. destruct H as [Hp [Ht H]].
  split; [exact Hp|]. split; [exact Ht|].
  destruct (on_status_icon_activate is_space lower repr_other format_1f
              display get_geometry now' self) as [[u|e] after];
    cbn [fst snd] in *; [|exact H].
  destruct H as [Hv Hpr]. split; [exact Hv|]. split; [exact Hpr|].
  intros g n. cbv zeta.
  rewrite (click_visible is_space lower repr_other format_1f display g n after Hv). now split.
Qed.

(** X26: Open Dashboard shows the last update.  The action loads the
    payloads and the panel text of the last update into the dashboard,
    shown or not.  If rendering returns, the dashboard is shown and
    presented; if it raises, the window is as visible as it was. *)
Theorem open_dashboard_shows_the_last_update (now' : str) (self : State) :
  let after :=
    on_open_dashboard is_space lower repr_other format_1f display now' self in
  let after_window := dashboard_window after.2 in
  Dashboard.all_payloads after_window = last_payloads self /\
  Dashboard.panel_text after_window = last_panel_text self /\
  match after.1 with
  | Ok _ =>
      Dashboard.is_visible after_window = true /\
      DashboardWindow.presented (Dashboard.window after_window) = true
  | Raise _ =>
      Dashboard.is_visible after_window
      = Dashboard.is_visible (dashboard_window self)
  end.
Proof.
  intros after after_window. unfold after_window, after.
  clear after_window after. unfold on_open_dashboard.
  unfold Dashboard.set_payloads.
  set (d0 := {| Dashboard.window := _ |}).
  pose proof (render_fields lower is_space repr_other format_1f now' d0)
    as [Hp [Ht _]].
  pose proof (render_spec lower is_space repr_other format_1f now' d0) as Hs.
  destruct (Dashboard._render_filtered lower is_space repr_other format_1f
              now' d0) as [[u|e] d];
    cbn [fst snd dashboard_window with_dashboard_window] in *.
  - split; [exact Hp|]. split; [exact Ht|].
    exact (present_near_pointer_presents display (Dashboard.window d)).
  - split; [exact Hp|]. split; [exact Ht|].
    destruct Hs as [Hw _]. unfold Dashboard.is_visible. now rewrite Hw.
Qed.

End TrayClaims.

Section TrayWitnesses.

Import Py Text Launcher CodexBarTray Tray Examples.

Lemma update_when_the_program_is_missing_witness :
  let after :=
    update ascii_space ascii_lower (fun _ => []) (fun _ => Ok [])
      (fun _ => JSONDecodeError) not_installed (fun _ => false) id id id
      (lit "12:00:00") (lit "12:00:00") tray in
  not_installed (panel_command tray)
  = FileNotFoundError (lit "No such file or directory") /\
  not_installed (usage_command tray)
  = FileNotFoundError (lit "No such file or directory") /\
  after.1 = Returns true /\
  last_panel_text after.2 = lit "CodexBar ERR".
Proof.
  intros after.
  assert (not_installed (panel_command tray)
          = FileNotFoundError (lit "No such file or directory")) as Hp
    by reflexivity.
  assert (not_installed (usage_command tray)
          = FileNotFoundError (lit "No such file or directory")) as Hu
    by reflexivity.
  split; [exact Hp|]. split; [exact Hu|].
  pose proof (update_when_the_program_is_missing
                ascii_space ascii_lower (fun _ => []) (fun _ => Ok [])
                (fun _ => JSONDecodeError) not_installed (fun _ => false) id id id
                (lit "12:00:00") (lit "12:00:00") tray _ _ Hp Hu) as H.
  split; [exact (proj1 H) | exact (proj1 (proj2 H))].
Defined.

End TrayWitnesses.

(** ** Backend and default icon *)

Section StartupClaims.

Import Py Text Tray.

Variable lower : str -> str.
Variable getenv : str -> option str.
Variable exists_ : str -> bool.
Variable under_root : str -> str.

(** X27: the backend that is used is never "auto".  A backend other
    than "auto" is taken as given; "auto" becomes "statusicon" when the
    name of the desktop, in lower case, contains "cinnamon", and
    "appindicator" otherwise, also when the variable is not set.  So
    each of the three accepted choices gives one of the two backends. *)
Theorem resolved_backend_is_never_auto (backend : str) :
  let resolved := _resolve_backend lower getenv backend in
  let desktop := lower (default [] (getenv (lit "XDG_CURRENT_DESKTOP"))) in
  resolved <> lit "auto" /\
  (backend <> lit "auto" -> resolved = backend) /\
  (backend = lit "auto" ->
   resolved = if contains (lit "cinnamon") desktop
              then lit "statusicon" else lit "appindicator") /\
  (backend ∈ [lit "auto"; lit "statusicon"; lit "appindicator"] ->
   resolved ∈ [lit "statusicon"; lit "appindicator"]).
Proof.
  intros resolved desktop. unfold resolved, _resolve_backend. fold desktop.
  assert (lit "statusicon" <> lit "auto") as H1 by (now vm_compute).
  assert (lit "appindicator" <> lit "auto") as H2 by (now vm_compute).
  destruct (bool_decide (backend = lit "auto")) eqn:E.
  - apply bool_decide_eq_true in E.
    destruct (contains (lit "cinnamon") desktop).
    + split; [exact H1|]. split; [now intros H|]. split; [reflexivity|].
      intros _. apply elem_of_cons. now left.
    + split; [exact H2|]. split; [now intros H|]. split; [reflexivity|].
      intros _. apply elem_of_cons. right. apply elem_of_cons. now left.
  - apply bool_decide_eq_false in E.
    split; [exact E|]. split; [reflexivity|]. split; [now intros H|].
    intros H. apply elem_of_cons in H. destruct H as [H|H]; [now destruct E|].
    exact H.
Qed.

(** X28: the default icon is a file that exists, or the generic name.
    [_default_icon] returns the first of its three candidate files that
    exists, and "utilities-terminal" when none does.  The candidates
    are the same three files for every backend; the SVG comes first
    except on "appindicator", where the two PNG files come first. *)
Theorem default_icon_exists_or_is_generic (backend : str) :
  let icon := _default_icon exists_ under_root backend in
  let png := under_root (lit "Icon.icon/Assets/codexbar.png") in
  let png' := under_root (lit "codexbar.png") in
  let svg :=
    under_root (lit "Sources/CodexBar/Resources/ProviderIcon-codex.svg") in
  candidates under_root backend
  = (if bool_decide (backend = lit "appindicator")
     then [png; png'; svg] else [svg; png; png']) /\
  ((exists before after,
      candidates under_root backend = before ++ icon :: after /\
      Forall (fun c => exists_ c = false) before /\
      exists_ icon = true) \/
   (icon = lit "utilities-terminal" /\
    exists_ png = false /\ exists_ png' = false /\ exists_ svg = false)).
Proof.
  intros icon png png' svg. split; [reflexivity|].
  unfold icon, _default_icon, candidates. fold png png' svg.
  destruct (bool_decide (backend = lit "appindicator"));
    cbn [first_existing].
  - destruct (exists_ png) eqn:E1.
    { left. exists [], [png'; svg]. now repeat split. }
    destruct (exists_ png') eqn:E2.
    { left. exists [png], [svg]. repeat split; [|exact E2].
      now repeat constructor. }
    destruct (exists_ svg) eqn:E3.
    { left. exists [png; png'], []. repeat split; [|exact E3].
      now repeat constructor. }
    right. now repeat split.
  - destruct (exists_ svg) eqn:E1.
    { left. exists [], [png; png']. now repeat split. }
    destruct (exists_ png) eqn:E2.
    { left. exists [svg], [png']. repeat split; [|exact E2].
      now repeat constructor. }
    destruct (exists_ png') eqn:E3.
    { left. exists [svg; png], []. repeat split; [|exact E3].
      now repeat constructor. }
    right. now repeat split.
Qed.

End StartupClaims.

(** ** Parsing the usage output *)

Section ParseClaims.

Import Py Text Launcher Tray.

Variable json_loads : str -> Loads.

(** X29: the payloads are the dictionaries of the JSON list.  When
    [_parse_usage_payload] returns a list, the output of the usage
    command decodes to a JSON list and the payloads are exactly the
    dictionaries of that list, in order and as often as they occur,
    every other entry being dropped; and the command succeeded or
    printed something, so the output of a command that failed is still
    used. *)
Theorem parsed_payloads_are_the_dictionaries (usage : CommandResult)
    (payloads : list (gmap str val))
    (H : _parse_usage_payload json_loads usage = Returns (Some payloads)) :
  exists data,
    json_loads (stdout usage) = Loaded (List data) /\
    Dict <$> payloads
    = List.filter (fun v => match as_dict v with
                            | Some _ => true
                            | None => false
                            end) data /\
    Dict <$> payloads `sublist_of` data /\
    (forall d, d ∈ payloads <-> Dict d ∈ data) /\
    (length payloads <= length data)%nat /\
    (ok usage = true \/ stdout usage <> []).
Proof.
  unfold _parse_usage_payload in H.
  destruct (negb (ok usage) && negb (nonempty (stdout usage))) eqn:E;
    [discriminate|].
  destruct (json_loads (stdout usage)) as [[| | | | |data|]| |];
    try discriminate.
  injection H as <-. exists data. split; [reflexivity|].
  assert (Dict <$> omap as_dict data
          = List.filter (fun v => match as_dict v with
                                  | Some _ => true
                                  | None => false
                                  end) data) as Hf.
  { clear. induction data as [|v data IH]; [reflexivity|].
    destruct v;
      cbn [omap list_omap as_dict fmap list_fmap List.filter];
      fold (omap as_dict data); rewrite <- ?IH; reflexivity. }
  split; [exact Hf|].
  assert (Dict <$> omap as_dict data `sublist_of` data) as Hs.
  { clear. induction data as [|v data IH]; [constructor|].
    destruct v; cbn [omap list_omap as_dict fmap list_fmap];
      now constructor. }
  split; [exact Hs|]. split; [|split].
  - intros d. rewrite list_elem_of_omap. split.
    + intros [v [Hv Hd]]. destruct v; try discriminate.
      now injection Hd as ->.
    + intros Hd. now exists (Dict d).
  - apply sublist_length in Hs. now rewrite length_fmap in Hs.
  - destruct (ok usage); [now left|]. right.
    destruct (stdout usage); [discriminate | discriminate].
Qed.

End ParseClaims.

Section ParseWitnesses.

Import Py Text Launcher Tray Examples.

Lemma parsed_payloads_are_the_dictionaries_witness :
  let json_loads :=
    fun _ : str => Loaded (List [Dict codex; Int 3; Dict codex]) in
  let usage := {| ok := false; stdout := lit "[{}, 3, {}]"; stderr := [] |} in
  _parse_usage_payload json_loads usage = Returns (Some [codex; codex]) /\
  exists data,
    json_loads (stdout usage) = Loaded (List data) /\
    Dict <$> [codex; codex]
    = List.filter (fun v => match as_dict v with
                            | Some _ => true
                            | None => false
                            end) data /\
    Dict <$> [codex; codex] `sublist_of` data /\
    (forall d, d ∈ [codex; codex] <-> Dict d ∈ data) /\
    (length [codex; codex] <= length data)%nat /\
    (ok usage = true \/ stdout usage <> []).
Proof.
  intros json_loads usage.
  assert (_parse_usage_payload json_loads usage
          = Returns (Some [codex; codex])) as H by reflexivity.
  split; [exact H|].
  exact (parsed_payloads_are_the_dictionaries json_loads usage
           [codex; codex] H).
Defined.

End ParseWitnesses.
